(** * Cart session engine: a shallow embedding of the TypeScript core

    The development follows the three units of the repository:

    - [SalesforceCartClientMock] (the in-memory session store with a TTL),
    - [StandardPricingStrategy] (subtotal, tax and total of a cart),
    - [CartService] (cart life cycle and item mutations).

    Conventions of the embedding.

    - JavaScript numbers are IEEE 754 binary64 values: prices, quantities
      and money amounts are primitive floats and every arithmetic step of
      the source is one float operation here.
    - Objects that the source shares by reference (the [items] array of a
      cart and the item objects in it) live in an explicit heap; the object
      spread [{ ...cart }] copies the top-level record and keeps the
      references.  Products and metadata are never mutated by the source and
      are kept as values.
    - A [Date] is its time value in milliseconds, an integer; [ttlMinutes]
      is a whole number of minutes.  Each [new Date()] of the source is an
      explicit clock reading passed to the operation, and each [uuidv4()]
      an explicit identifier.
    - The methods are [async] but never yield between their steps to another
      call; one call is one state transformer on the store and the heap.
    - The sweep the store's constructor schedules with [setInterval] runs
      between calls: a run of the system is a sequence of calls and sweeps.
      The singleton of the store and the handle of its timer are modelled
      apart from the carts, in [Lifecycle]. *)

From Stdlib Require Import Floats ZArith Uint63 Ascii String Bool.
From stdpp Require Import gmap strings list option.

#[local] Set Warnings "-inexact-float".
#[local] Open Scope Z_scope.

(** ** JavaScript built-ins used by the source *)

(** Numbers at or above 2^52 in magnitude have no fractional part. *)
Definition two52 : float := 0x1p52%float.

(** [Math.round]: the integral number closest to [x], a tie going towards
    plus infinity; NaN, the infinities and both zeros are returned as they
    are, and a result of zero for a negative argument is the negative zero. *)
Definition Math_round (x : float) : float :=
  (if is_nan x || is_infinity x || (x =? 0) || (two52 <=? abs x) then x
   else
     let a := abs x in
     let r := (a + two52) - two52 in
     let fl := if a <? r then r - 1 else r in
     let frac := a - fl in
     if 0 <? x then (if 0.5 <=? frac then fl + 1 else fl)
     else (if 0.5 <? frac then - (fl + 1) else - fl))%float.

(** [Number.isInteger]: finite and without fractional part. *)
Definition Number_isInteger (x : float) : bool :=
  (negb (is_nan x) && negb (is_infinity x) &&
   ((two52 <=? abs x) || ((abs x + two52) - two52 =? abs x)))%float.

(** The idiom [Math.round(v * 100) / 100] of the source. *)
Definition round2 (v : float) : float := (Math_round (v * 100) / 100)%float.

(** [Array.prototype.findIndex]: index of the first element satisfying the
    callback; [None] stands for the result -1. *)
Fixpoint findIndex {A : Type} (p : A -> bool) (xs : list A) : option nat :=
  match xs with
  | [] => None
  | x :: rest => if p x then Some 0%nat else S <$> findIndex p rest
  end.

(** ** Data model (models.ts) *)

(** A heap location: the identity of a JavaScript object. *)
Definition loc := nat.

Record Product := mkProduct {
  productId : string;
  name : string;
  description : option string;
  price : float;
  category : string
}.

Record CartItem := mkCartItem {
  itemId : string;
  product : Product;
  quantity : float;
  unitPrice : float;
  totalPrice : float;
  addedAt : Z
}.

Definition CartMetadata := list (string * string).

(** A cart object.  [items] is a reference to an array in the heap; dates are
    their time values in milliseconds. *)
Record Cart := mkCart {
  cartId : string;
  items : loc;
  subtotal : float;
  tax : float;
  total : float;
  createdAt : Z;
  updatedAt : Z;
  expiresAt : Z;
  metadata : option CartMetadata
}.

Record AddItemRequest := mkAddItemRequest {
  request_product : Product;
  request_quantity : float
}.

(** ** Domain errors (errors/index.ts) *)

(** What a [ValidationError] reports; the source formats these into the
    message text. *)
Inductive ValidationReason :=
| InvalidCartIdFormat
| QuantityNotInteger
| QuantityOutOfBounds (lo hi : float)
| ProductIdRequired
| ProductNameRequired
| ProductPriceInvalid
| InvalidProductCategory (c : string)
| MergedQuantityExceeds (productName : string) (hi : float).

Inductive DomainError :=
| CartExpiredError (id : string)
| ResourceNotFoundError (resource identifier : string)
| ValidationError (reason : ValidationReason)
| ConflictError (message : string).

(** HTTP status carried by each error class. *)
Definition statusCode (e : DomainError) : Z :=
  match e with
  | CartExpiredError _ => 410
  | ResourceNotFoundError _ _ => 404
  | ValidationError _ => 400
  | ConflictError _ => 409
  end.

(** ** The store, the heap and the monad of operations *)

(** [CartEntry] of the mock client: the cart and the expiration anchor. *)
Record CartEntry := mkCartEntry {
  entry_cart : Cart;
  entry_createdAt : Z
}.

(** Arrays of item references and item objects, addressed by position. *)
Record Heap := mkHeap {
  arrays : list (list loc);
  cells : list CartItem
}.

(** The [carts] map of the mock client together with the object heap. *)
Record World := mkWorld {
  carts : gmap string CartEntry;
  heap : Heap
}.

(** An operation either returns, throws a domain error, or follows a
    reference that the heap does not hold ([Fault], which no JavaScript
    execution does; it keeps the heap accessors total). *)
Inductive Outcome (A : Type) :=
| Returned (a : A)
| Thrown (e : DomainError)
| Fault.
Arguments Returned {A} a.
Arguments Thrown {A} e.
Arguments Fault {A}.

Definition M (A : Type) : Type := World -> Outcome A * World.

Definition ret {A : Type} (a : A) : M A := fun w => (Returned a, w).

Definition throw {A : Type} (e : DomainError) : M A := fun w => (Thrown e, w).

Definition bind {A B : Type} (m : M A) (k : A -> M B) : M B :=
  fun w =>
    match m w with
    | (Returned a, w') => k a w'
    | (Thrown e, w') => (Thrown e, w')
    | (Fault, w') => (Fault, w')
    end.

Declare Scope js_scope.
Delimit Scope js_scope with js.
Notation "'let*' x ':=' m 'in' k" := (bind m (fun x => k))
  (at level 10, x name, m at level 100, k at level 200) : js_scope.
Notation "m ';;;' k" := (bind m (fun _ => k))
  (at level 100, k at level 200, right associativity) : js_scope.

(** [Map.prototype.get], [set] and [delete] on the [carts] map. *)
Definition carts_get (id : string) : M (option CartEntry) :=
  fun w => (Returned (carts w !! id), w).

Definition carts_set (id : string) (e : CartEntry) : M unit :=
  fun w => (Returned tt, mkWorld (<[id := e]> (carts w)) (heap w)).

Definition carts_delete (id : string) : M unit :=
  fun w => (Returned tt, mkWorld (delete id (carts w)) (heap w)).

(** Heap accessors. *)
Definition array_new (xs : list loc) : M loc :=
  fun w =>
    let h := heap w in
    (Returned (length (arrays h)),
     mkWorld (carts w) (mkHeap (arrays h ++ [xs]) (cells h))).

Definition array_read (a : loc) : M (list loc) :=
  fun w =>
    match arrays (heap w) !! a with
    | Some xs => (Returned xs, w)
    | None => (Fault, w)
    end.

Definition array_write (a : loc) (xs : list loc) : M unit :=
  fun w =>
    let h := heap w in
    match arrays h !! a with
    | Some _ => (Returned tt, mkWorld (carts w) (mkHeap (<[a := xs]> (arrays h)) (cells h)))
    | None => (Fault, w)
    end.

Definition item_new (it : CartItem) : M loc :=
  fun w =>
    let h := heap w in
    (Returned (length (cells h)),
     mkWorld (carts w) (mkHeap (arrays h) (cells h ++ [it]))).

Definition item_read (l : loc) : M CartItem :=
  fun w =>
    match cells (heap w) !! l with
    | Some it => (Returned it, w)
    | None => (Fault, w)
    end.

Definition item_write (l : loc) (it : CartItem) : M unit :=
  fun w =>
    let h := heap w in
    match cells h !! l with
    | Some _ => (Returned tt, mkWorld (carts w) (mkHeap (arrays h) (<[l := it]> (cells h))))
    | None => (Fault, w)
    end.

(** The item objects an array refers to, in order. *)
Definition deref (h : Heap) (xs : list loc) : option (list CartItem) :=
  mapM (fun l => cells h !! l) xs.

(** The items of a cart as values: what a reader of [cart.items] sees. *)
Definition items_of (h : Heap) (c : Cart) : option (list CartItem) :=
  arrays h !! items c ≫= deref h.

(** The quantities of a cart's lines, as a reader of the cart sees them. *)
Definition quantities_of (h : Heap) (c : Cart) : option (list float) :=
  match items_of h c with
  | Some its => Some (quantity <$> its)
  | None => None
  end.

(** Reading [cart.items] and every element of it. *)
Definition items_read (c : Cart) : M (list CartItem) :=
  fun w =>
    match items_of (heap w) c with
    | Some its => (Returned its, w)
    | None => (Fault, w)
    end.

(** ** The interfaces the service is given *)

(** [ISalesforceCartClient].  The methods that consult the clock take its
    reading as their first argument. *)
Record ISalesforceCartClient := mkClient {
  client_createCart : Cart -> M Cart;
  client_getCart : Z -> string -> M (option Cart);
  client_updateCart : Z -> Cart -> M Cart;
  client_deleteCart : string -> M unit
}.

(** [IPricingStrategy]; the argument before the cart is the clock reading. *)
Record IPricingStrategy := mkStrategy {
  strategy_calculatePricing : Z -> Cart -> M Cart
}.

(** ** SalesforceCartClientMock: the session store *)

Module SalesforceCartClientMock.
#[local] Open Scope js_scope.

(** [isExpired]: [now] is the reading of the clock, [ttlMinutes] the TTL the
    store was constructed with. *)
Definition isExpired (ttlMinutes now : Z) (entry : CartEntry) : bool :=
  let expirationTime := entry_createdAt entry + ttlMinutes * 60 * 1000 in
  expirationTime <? now.

Definition createCart (cart : Cart) : M Cart :=
  let entry := mkCartEntry cart (createdAt cart) in
  carts_set (cartId cart) entry ;;;
  ret cart.

Definition getCart (ttlMinutes now : Z) (id : string) : M (option Cart) :=
  let* found := carts_get id in
  match found with
  | None => ret None
  | Some entry =>
      if isExpired ttlMinutes now entry then
        carts_delete id ;;;
        throw (CartExpiredError id)
      else ret (Some (entry_cart entry))
  end.

Definition updateCart (ttlMinutes now : Z) (cart : Cart) : M Cart :=
  let* found := carts_get (cartId cart) in
  match found with
  | None => throw (ResourceNotFoundError "Cart" (cartId cart))
  | Some entry =>
      if isExpired ttlMinutes now entry then
        carts_delete (cartId cart) ;;;
        throw (CartExpiredError (cartId cart))
      else
        carts_set (cartId cart) (mkCartEntry cart (entry_createdAt entry)) ;;;
        ret cart
  end.

Definition deleteCart (id : string) : M unit :=
  carts_delete id.

(** The ids the first loop of [cleanupExpiredCarts] collects: those of the
    entries found expired.  [isExpired] reads the clock once per entry;
    [now id] is the reading taken for the entry of [id]. *)
Definition expiredCartIds (ttlMinutes : Z) (now : string -> Z) (w : World) :
    list string :=
  (filter (fun kv => isExpired ttlMinutes (now kv.1) kv.2 = true)
     (map_to_list (carts w))).*1.

(** [cleanupExpiredCarts], the body of the periodic sweep: collect, then
    delete one by one.  The line it writes to the console is left out. *)
Definition cleanupExpiredCarts (ttlMinutes : Z) (now : string -> Z) : M unit :=
  fun w =>
    (Returned tt,
     mkWorld (fold_left (fun m id => delete id m) (expiredCartIds ttlMinutes now w)
                (carts w))
             (heap w)).

Definition getCartCount : M nat :=
  fun w => (Returned (size (carts w)), w).

Definition clearAllCarts : M unit :=
  fun w => (Returned tt, mkWorld ∅ (heap w)).

(** The object [new SalesforceCartClientMock(ttlMinutes, false)] seen through
    the interface it implements. *)
Definition new (ttlMinutes : Z) : ISalesforceCartClient :=
  mkClient createCart (getCart ttlMinutes) (updateCart ttlMinutes) deleteCart.

End SalesforceCartClientMock.

(** ** StandardPricingStrategy *)

Module StandardPricingStrategy.
#[local] Open Scope js_scope.

Definition TAX_RATE : float := 0.09%float.

(** [cart.items.reduce((sum, item) => sum + item.totalPrice, 0)]. *)
Definition sum_totalPrice (its : list CartItem) : float :=
  fold_left (fun sum item => (sum + totalPrice item)%float) its 0%float.

(** [calculatePricing]; [now] is the clock reading stored in [updatedAt]. *)
Definition calculatePricing (now : Z) (cart : Cart) : M Cart :=
  let* its := items_read cart in
  let subtotal' := sum_totalPrice its in
  let tax' := (Math_round (subtotal' * TAX_RATE * 100) / 100)%float in
  let total' := (Math_round ((subtotal' + tax') * 100) / 100)%float in
  ret (mkCart (cartId cart) (items cart)
         (Math_round (subtotal' * 100) / 100)%float
         tax'
         total'
         (createdAt cart) now (expiresAt cart) (metadata cart)).

(** The object [new StandardPricingStrategy()] seen through its interface. *)
Definition new : IPricingStrategy := mkStrategy calculatePricing.

End StandardPricingStrategy.

(** ** CartService: the engine *)

(** The clock readings of one mutating call, in the order the source takes
    them: the expiry test of the read, [addedAt] of a new item, [updatedAt]
    of the pricing, the expiry test of the write. *)
Record Ticks := mkTicks {
  t_read : Z;
  t_added : Z;
  t_priced : Z;
  t_write : Z
}.

Module CartService.
#[local] Open Scope js_scope.

(** The fields of a [CartService] object. *)
Record t := mk {
  client : ISalesforceCartClient;
  pricing : IPricingStrategy;
  ttlMinutes : Z;
  maxQty : float;
  minQty : float
}.

(** The optional [config] argument of the constructor. *)
Record Config := mkConfig {
  cartTtlMinutes : option Z;
  maxQuantity : option float;
  minQuantity : option float
}.

(** The constructor: a field the configuration does not give gets its
    default, 5 minutes and quantities 1 to 99. *)
Definition new (client' : ISalesforceCartClient) (pricing' : IPricingStrategy)
    (config : option Config) : t :=
  mk client' pricing'
     (default 5 (config ≫= cartTtlMinutes))
     (default 99%float (config ≫= maxQuantity))
     (default 1%float (config ≫= minQuantity)).

(** One position of the UUID pattern. *)
Inductive CharClass := Hex | Dash | Four | Variant.

Definition is_hex (c : ascii) : bool :=
  let n := nat_of_ascii c in
  ((48 <=? n) && (n <=? 57) || (97 <=? n) && (n <=? 102)
   || (65 <=? n) && (n <=? 70))%nat.

Definition class_matches (cls : CharClass) (c : ascii) : bool :=
  match cls with
  | Hex => is_hex c
  | Dash => Ascii.eqb c "-"
  | Four => Ascii.eqb c "4"
  | Variant =>
      Ascii.eqb c "8" || Ascii.eqb c "9" || Ascii.eqb c "a" || Ascii.eqb c "b"
      || Ascii.eqb c "A" || Ascii.eqb c "B"
  end.

(** The pattern between [^] and [$], flag [i] applied to the classes. *)
Definition uuidRegex : list CharClass :=
  replicate 8 Hex ++ [Dash] ++ replicate 4 Hex ++ [Dash; Four]
  ++ replicate 3 Hex ++ [Dash; Variant] ++ replicate 3 Hex ++ [Dash]
  ++ replicate 12 Hex.

Fixpoint regex_test (pat : list CharClass) (s : string) : bool :=
  match pat, s with
  | [], EmptyString => true
  | cls :: pat', String c s' => class_matches cls c && regex_test pat' s'
  | _, _ => false
  end.

Definition validateCartId (id : string) : M unit :=
  if regex_test uuidRegex id then ret tt
  else throw (ValidationError InvalidCartIdFormat).

Definition validateQuantity (self : t) (q : float) : M unit :=
  if negb (Number_isInteger q) then throw (ValidationError QuantityNotInteger)
  else if ((q <? minQty self) || (maxQty self <? q))%float then
    throw (ValidationError (QuantityOutOfBounds (minQty self) (maxQty self)))
  else ret tt.

Definition validCats : list string := ["plan"; "device"; "addon"; "accessory"]%string.

Definition validateProduct (p : Product) : M unit :=
  if String.eqb (productId p) "" then throw (ValidationError ProductIdRequired)
  else if String.eqb (name p) "" then throw (ValidationError ProductNameRequired)
  else if (price p <? 0)%float then throw (ValidationError ProductPriceInvalid)
  else if negb (existsb (String.eqb (category p)) validCats) then
    throw (ValidationError (InvalidProductCategory (category p)))
  else ret tt.

(** [newCartId] is the value [uuidv4()] produced. *)
Definition createCart (self : t) (now : Z) (newCartId : string)
    (meta : option CartMetadata) : M Cart :=
  let expiresAt' := now + ttlMinutes self * 60 * 1000 in
  let* arr := array_new [] in
  let cart := mkCart newCartId arr 0%float 0%float 0%float now now expiresAt' meta in
  client_createCart (client self) cart.

Definition getCart (self : t) (now : Z) (id : string) : M Cart :=
  validateCartId id ;;;
  let* found := client_getCart (client self) now id in
  match found with
  | None => throw (ResourceNotFoundError "Cart" id)
  | Some cart => ret cart
  end.

(** [newItemId] is the value [uuidv4()] produces in the branch that pushes
    a new item. *)
Definition addItem (self : t) (tk : Ticks) (newItemId : string)
    (id : string) (request : AddItemRequest) : M Cart :=
  validateCartId id ;;;
  validateQuantity self (request_quantity request) ;;;
  validateProduct (request_product request) ;;;
  let* cart := getCart self (t_read tk) id in
  let* arr := array_read (items cart) in
  let* its := items_read cart in
  (match findIndex
           (fun item => String.eqb (productId (product item))
                                   (productId (request_product request))) its with
   | Some existingIdx =>
       match arr !! existingIdx with
       | None => fun w => (Fault, w)
       | Some l =>
           let* item := item_read l in
           let newQty := (quantity item + request_quantity request)%float in
           if (maxQty self <? newQty)%float then
             throw (ValidationError
                      (MergedQuantityExceeds (name (request_product request))
                                             (maxQty self)))
           else
             item_write l
               (mkCartItem (itemId item) (product item) newQty (unitPrice item)
                  (Math_round (unitPrice item * newQty * 100) / 100)%float
                  (addedAt item))
       end
   | None =>
       let* l :=
         item_new
           (mkCartItem newItemId (request_product request)
              (request_quantity request)
              (price (request_product request))
              (Math_round (price (request_product request)
                           * request_quantity request * 100) / 100)%float
              (t_added tk)) in
       array_write (items cart) (arr ++ [l])
   end) ;;;
  let* priced := strategy_calculatePricing (pricing self) (t_priced tk) cart in
  client_updateCart (client self) (t_write tk) priced.

Definition removeItem (self : t) (tk : Ticks) (id : string)
    (targetItemId : string) : M Cart :=
  validateCartId id ;;;
  let* cart := getCart self (t_read tk) id in
  let* arr := array_read (items cart) in
  let* its := items_read cart in
  (match findIndex (fun item => String.eqb (itemId item) targetItemId) its with
   | None => throw (ResourceNotFoundError "Item" targetItemId)
   | Some idx => array_write (items cart) (delete idx arr)
   end) ;;;
  let* priced := strategy_calculatePricing (pricing self) (t_priced tk) cart in
  client_updateCart (client self) (t_write tk) priced.

Definition updateItemQuantity (self : t) (tk : Ticks) (id : string)
    (targetItemId : string) (q : float) : M Cart :=
  validateCartId id ;;;
  validateQuantity self q ;;;
  let* cart := getCart self (t_read tk) id in
  let* arr := array_read (items cart) in
  let* its := items_read cart in
  (match findIndex (fun i => String.eqb (itemId i) targetItemId) its with
   | None => throw (ResourceNotFoundError "Item" targetItemId)
   | Some idx =>
       match arr !! idx with
       | None => fun w => (Fault, w)
       | Some l =>
           let* item := item_read l in
           item_write l
             (mkCartItem (itemId item) (product item) q (unitPrice item)
                (Math_round (unitPrice item * q * 100) / 100)%float
                (addedAt item))
       end
   end) ;;;
  let* priced := strategy_calculatePricing (pricing self) (t_priced tk) cart in
  client_updateCart (client self) (t_write tk) priced.

Definition clearCart (self : t) (tk : Ticks) (id : string) : M Cart :=
  validateCartId id ;;;
  let* cart := getCart self (t_read tk) id in
  let* arr := array_new [] in
  let cart' := mkCart (cartId cart) arr (subtotal cart) (tax cart) (total cart)
                 (createdAt cart) (updatedAt cart) (expiresAt cart)
                 (metadata cart) in
  let* priced := strategy_calculatePricing (pricing self) (t_priced tk) cart' in
  client_updateCart (client self) (t_write tk) priced.

Definition deleteCart (self : t) (id : string) : M unit :=
  validateCartId id ;;;
  client_deleteCart (client self) id.

End CartService.

(** ** Sequences of operations *)

(** A store-level access: a [getCart] or an [updateCart] at a clock reading. *)
Inductive StoreOp :=
| StoreGet (now : Z) (id : string)
| StoreUpdate (now : Z) (cart : Cart).

Definition run_store_op (ttl : Z) (op : StoreOp) (w : World) : World :=
  match op with
  | StoreGet now id => snd (SalesforceCartClientMock.getCart ttl now id w)
  | StoreUpdate now cart => snd (SalesforceCartClientMock.updateCart ttl now cart w)
  end.

Definition run_store_ops (ttl : Z) (ops : list StoreOp) (w : World) : World :=
  fold_left (fun w' op => run_store_op ttl op w') ops w.

Definition store_op_time (op : StoreOp) : Z :=
  match op with
  | StoreGet now _ => now
  | StoreUpdate now _ => now
  end.

(** A call of the engine, with the clock readings and generated identifiers
    it consumes. *)
Inductive EngineOp :=
| CreateCart (now : Z) (newCartId : string) (meta : option CartMetadata)
| GetCart (now : Z) (id : string)
| AddItem (tk : Ticks) (newItemId : string) (id : string) (request : AddItemRequest)
| RemoveItem (tk : Ticks) (id : string) (targetItemId : string)
| UpdateItemQuantity (tk : Ticks) (id : string) (targetItemId : string) (q : float)
| ClearCart (tk : Ticks) (id : string)
| DeleteCart (id : string).

(** The cart an engine call hands back, if any, and the world it leaves. *)
Definition exec (self : CartService.t) (op : EngineOp) (w : World) :
    Outcome (option Cart) * World :=
  let some (r : Outcome Cart * World) : Outcome (option Cart) * World :=
    (match fst r with
     | Returned c => Returned (Some c)
     | Thrown e => Thrown e
     | Fault => Fault
     end, snd r) in
  match op with
  | CreateCart now newCartId meta => some (CartService.createCart self now newCartId meta w)
  | GetCart now id => some (CartService.getCart self now id w)
  | AddItem tk newItemId id request => some (CartService.addItem self tk newItemId id request w)
  | RemoveItem tk id targetItemId => some (CartService.removeItem self tk id targetItemId w)
  | UpdateItemQuantity tk id targetItemId q =>
      some (CartService.updateItemQuantity self tk id targetItemId q w)
  | ClearCart tk id => some (CartService.clearCart self tk id w)
  | DeleteCart id =>
      match CartService.deleteCart self id w with
      | (Returned _, w') => (Returned None, w')
      | (Thrown e, w') => (Thrown e, w')
      | (Fault, w') => (Fault, w')
      end
  end.

(** The store and heap of a freshly constructed mock client. *)
Definition initial : World := mkWorld ∅ (mkHeap [] []).

(** Worlds the engine's operations lead to from the initial one. *)
Inductive reachable (self : CartService.t) : World -> Prop :=
| reachable_initial : reachable self initial
| reachable_exec (op : EngineOp) (w : World) :
    reachable self w -> reachable self (snd (exec self op w)).

(** ** Properties of carts *)

Definition pid (it : CartItem) : string := productId (product it).

(** [totalPrice] is derived from the snapshot unit price and the quantity. *)
Definition price_derived (it : CartItem) : Prop :=
  totalPrice it = round2 (unitPrice it * quantity it).

(** The two invariants of a cart's line items. *)
Definition cart_items_ok (its : list CartItem) : Prop :=
  NoDup (pid <$> its) /\ Forall price_derived its.

(** Every array of the heap resolves to items with distinct products, and
    every item object has a derived [totalPrice]. *)
Definition heap_ok (h : Heap) : Prop :=
  (forall a xs, arrays h !! a = Some xs ->
     exists its, deref h xs = Some its /\ NoDup (pid <$> its))
  /\ Forall price_derived (cells h).

(** The array reference [a] points into the heap of [w]. *)
Definition ref_ok (a : loc) (w : World) : Prop :=
  is_Some (arrays (heap w) !! a).

Definition world_ok (w : World) : Prop :=
  heap_ok (heap w)
  /\ forall id e, carts w !! id = Some e -> ref_ok (items (entry_cart e)) w.

(** [ensures P m Q]: run from a good world satisfying [P], the computation
    [m] leaves a good world however it ends, and a value it returns
    satisfies [Q] there. *)
Definition ensures {A : Type} (P : World -> Prop) (m : M A)
    (Q : A -> World -> Prop) : Prop :=
  forall w, world_ok w -> P w ->
    world_ok (snd (m w)) /\ forall a, fst (m w) = Returned a -> Q a (snd (m w)).

(** Two outcomes agree on what happened: both return, or both throw the same
    error. *)
Definition same_verdict {A : Type} (o1 o2 : Outcome A) : Prop :=
  match o1, o2 with
  | Returned _, Returned _ => True
  | Thrown e1, Thrown e2 => e1 = e2
  | Fault, Fault => True
  | _, _ => False
  end.

Definition with_expiresAt (x : Z) (c : Cart) : Cart :=
  mkCart (cartId c) (items c) (subtotal c) (tax c) (total c)
    (createdAt c) (updatedAt c) x (metadata c).

(** The quantity test as a boolean: [true] when [validateQuantity] throws. *)
Definition quantity_rejected (self : CartService.t) (q : float) : bool :=
  negb (Number_isInteger q) || (q <? CartService.minQty self)%float
  || (CartService.maxQty self <? q)%float.

(** The wiring of the composition root: the mock client with a TTL of [ttl]
    minutes and the standard pricing strategy. *)
Definition wired (ttl : Z) (self : CartService.t) : Prop :=
  CartService.client self = SalesforceCartClientMock.new ttl
  /\ CartService.pricing self = StandardPricingStrategy.new.

(** The service of the repository's tests: both constructors with their
    defaults. *)
Definition defaultService : CartService.t :=
  CartService.new (SalesforceCartClientMock.new 5) StandardPricingStrategy.new None.

(** ** Prices in whole cents *)

(** The number a two-decimal literal denotes: the binary64 value nearest to
    [k] hundredths. *)
Definition cents (k : Z) : float := (of_uint63 (Uint63.of_Z k) / 100)%float.

(** Doubling [u] and rounding to cents gives back the double of [u]. *)
Definition doubles_exactly (u : float) : bool :=
  PrimFloat.Leibniz.eqb (round2 (u * 2)) (u * 2)%float.

Fixpoint cents_double_from (fuel : nat) (k : Z) : bool :=
  match fuel with
  | O => true
  | S fuel' =>
      if doubles_exactly (cents k) then cents_double_from fuel' (k + 1) else false
  end.

(** Prices up to 10485.75 are checked one by one. *)
Definition checked_cents : Z := 1048576.

(** ** What a caller can do with a cart it was handed *)

(** The statement [cart.items[i].quantity = q] run by a caller. *)
Definition caller_set_quantity (cart : Cart) (i : nat) (q : float) : M unit :=
  (let* arr := array_read (items cart) in
   match arr !! i with
   | None => fun w => (Fault, w)
   | Some l =>
       let* item := item_read l in
       item_write l (mkCartItem (itemId item) (product item) q (unitPrice item)
                       (totalPrice item) (addedAt item))
   end)%js.

(** The statement [cart.items.length = 0] run by a caller. *)
Definition caller_truncate_items (cart : Cart) : M unit :=
  array_write (items cart) [].

(** ** Sample data *)

Definition sample_id : string := "550e8400-e29b-41d4-a716-446655440000".

Definition plan : Product :=
  mkProduct "prod-001" "5G Unlimited Plan" None 75%float "plan".

Definition phone : Product :=
  mkProduct "prod-002" "iPhone 15" None 999.99%float "device".

Definition sample_ticks : Ticks := mkTicks 1000 1001 1002 1003.

(** A cart holding one line whose [totalPrice] is 1.005. *)
Definition odd_item : CartItem :=
  mkCartItem "item-1" (mkProduct "prod-009" "Meter" None 1.005%float "addon")
    1%float 1.005%float 1.005%float 0.

Definition odd_cart : Cart :=
  mkCart sample_id 0%nat 0%float 0%float 0%float 0 0 300000 None.

Definition odd_world : World :=
  mkWorld {[ sample_id := mkCartEntry odd_cart 0 ]} (mkHeap [[0%nat]] [odd_item]).

(** The world after [createCart] at time 0 and one [addItem] of [plan]. *)
Definition one_line_world : World :=
  snd (exec defaultService
         (AddItem sample_ticks "item-1" sample_id (mkAddItemRequest plan 1%float))
         (snd (exec defaultService (CreateCart 0 sample_id None) initial))).

(** The world after [createCart] at time 0 and one [addItem] of 50 [plan]s. *)
Definition fifty_world : World :=
  snd (exec defaultService
         (AddItem sample_ticks "item-1" sample_id (mkAddItemRequest plan 50%float))
         (snd (exec defaultService (CreateCart 0 sample_id None) initial))).

(** The world after [createCart] at time 0 alone. *)
Definition empty_cart_world : World :=
  snd (exec defaultService (CreateCart 0 sample_id None) initial).


(** ** Sessions as the store keeps them *)

(** The pricing fields of [c] are the ones the standard strategy computes
    from the lines [its]. *)
Definition priced_from (its : list CartItem) (c : Cart) : Prop :=
  let s := StandardPricingStrategy.sum_totalPrice its in
  let t := round2 (s * StandardPricingStrategy.TAX_RATE) in
  subtotal c = round2 s /\ tax c = t /\ total c = round2 (s + t).

(** [c] carries the identity of the session of [c0]: id, creation time,
    advertised expiration and metadata. *)
Definition same_session (c c0 : Cart) : Prop :=
  cartId c = cartId c0 /\ createdAt c = createdAt c0
  /\ expiresAt c = expiresAt c0 /\ metadata c = metadata c0.

(** The item objects of the array a cart refers to. *)
Definition owned (h : Heap) (c : Cart) : list loc :=
  default [] (arrays h !! items c).

(** A store entry is coherent: it is filed under the id of its cart, its
    expiration anchor is the cart's creation time, the advertised expiration
    is the creation time plus the TTL of the service, and the pricing fields
    are those of the lines the cart now has. *)
Definition entry_ok (self : CartService.t) (h : Heap) (id : string)
    (e : CartEntry) : Prop :=
  cartId (entry_cart e) = id
  /\ entry_createdAt e = createdAt (entry_cart e)
  /\ expiresAt (entry_cart e)
     = createdAt (entry_cart e) + CartService.ttlMinutes self * 60 * 1000
  /\ exists its, items_of h (entry_cart e) = Some its
                 /\ priced_from its (entry_cart e).

(** Two sessions share neither their array of items nor an item object. *)
Definition separate (w : World) : Prop :=
  forall id1 id2 e1 e2,
    id1 <> id2 -> carts w !! id1 = Some e1 -> carts w !! id2 = Some e2 ->
    items (entry_cart e1) <> items (entry_cart e2)
    /\ forall l, l ∈ owned (heap w) (entry_cart e1) ->
                 l ∉ owned (heap w) (entry_cart e2).

Definition sessions_ok (self : CartService.t) (w : World) : Prop :=
  (forall id e, carts w !! id = Some e -> entry_ok self (heap w) id e)
  /\ separate w.

(** One step of the running system: a call of the engine, or a run of the
    periodic sweep the store's constructor schedules, with the clock
    readings it takes for the entries. *)
Inductive SystemOp :=
| Call (op : EngineOp)
| Sweep (now : string -> Z).

Definition run_system (ttl : Z) (self : CartService.t) (op : SystemOp)
    (w : World) : World :=
  match op with
  | Call op' => snd (exec self op' w)
  | Sweep now => snd (SalesforceCartClientMock.cleanupExpiredCarts ttl now w)
  end.

(** Worlds the system reaches from the initial one. *)
Inductive system_reachable (ttl : Z) (self : CartService.t) : World -> Prop :=
| system_initial : system_reachable ttl self initial
| system_step (op : SystemOp) (w : World) :
    system_reachable ttl self w -> system_reachable ttl self (run_system ttl self op w).

(** The store of [w] holds the entry [e] under [id], filed under the id of
    its cart, and the cart shows the lines [its]. *)
Definition session_at (w : World) (id : string) (e : CartEntry)
    (its : list CartItem) : Prop :=
  carts w !! id = Some e /\ cartId (entry_cart e) = id
  /\ items_of (heap w) (entry_cart e) = Some its.

(** The last instant at which the store of TTL [ttl] still serves [e]. *)
Definition deadline (ttl : Z) (e : CartEntry) : Z :=
  entry_createdAt e + ttl * 60 * 1000.

(** What a mutating call that returned [c'] in [w'] has done to the session
    of the entry [e] of [w]: the cart shows the lines [its'] and is priced
    from them, it keeps the identity of the session, its [updatedAt] is the
    clock reading of the pricing, and the store holds it under the anchor
    the entry had, every other entry being as it was. *)
Definition settled_as (tk : Ticks) (w : World) (id : string) (e : CartEntry)
    (its' : list CartItem) (c' : Cart) (w' : World) : Prop :=
  items_of (heap w') c' = Some its'
  /\ priced_from its' c'
  /\ same_session c' (entry_cart e)
  /\ updatedAt c' = t_priced tk
  /\ carts w' = <[id := mkCartEntry c' (entry_createdAt e)]> (carts w).

(** [h'] holds what [h] held, except possibly in the array [a] and in the
    item objects [ls]; it may hold more. *)
Definition heap_kept (a : loc) (ls : list loc) (h h' : Heap) : Prop :=
  (forall a2, a2 <> a -> is_Some (arrays h !! a2) -> arrays h' !! a2 = arrays h !! a2)
  /\ (forall l, l ∉ ls -> is_Some (cells h !! l) -> cells h' !! l = cells h !! l).

(** A call of the engine ended well: it left every session coherent, and a
    cart it returned is the cart the store now holds under that cart's id. *)
Definition call_ok (self : CartService.t) (r : Outcome Cart * World) : Prop :=
  sessions_ok self (snd r)
  /\ forall c, fst r = Returned c ->
               exists e, carts (snd r) !! cartId c = Some e /\ entry_cart e = c.

(** ** Item objects over time *)

(** [it'] is the item [it] up to its quantity and [totalPrice]: the fields
    written when the line was created are the same. *)
Definition same_line (it it' : CartItem) : Prop :=
  itemId it' = itemId it /\ product it' = product it
  /\ unitPrice it' = unitPrice it /\ addedAt it' = addedAt it.

(** Every item object of [h] is an object of [h'], with the fields it was
    created with. *)
Definition lines_kept (h h' : Heap) : Prop :=
  forall (l : loc) it, cells h !! l = Some it ->
                       exists it', cells h' !! l = Some it' /\ same_line it it'.

Definition keeps_lines {A : Type} (m : M A) : Prop :=
  forall w, lines_kept (heap w) (heap (snd (m w))).

(** A run of the system: calls and sweeps in the order given. *)
Definition run_systems (ttl : Z) (self : CartService.t) (ops : list SystemOp)
    (w : World) : World :=
  fold_left (fun w' op => run_system ttl self op w') ops w.

(** ** Construction of the store, its singleton and its timer *)

Module Lifecycle.

(** A mock client object: its TTL, its map of carts and the handle of its
    sweep timer, [None] for [null]. *)
Record Instance := mkInstance {
  inst_ttlMinutes : Z;
  inst_carts : gmap string CartEntry;
  inst_cleanupInterval : option nat
}.

(** The client objects created so far, the static field [instance] (a
    reference or [null]) and the interval timers of the event loop, each
    [true] while it is scheduled. *)
Record Runtime := mkRuntime {
  objects : list Instance;
  instance : option nat;
  timers : list bool
}.

Definition setInterval (rt : Runtime) : nat * Runtime :=
  (length (timers rt), mkRuntime (objects rt) (instance rt) (timers rt ++ [true])).

Definition clearInterval (h : nat) (rt : Runtime) : Runtime :=
  mkRuntime (objects rt) (instance rt) (<[h := false]> (timers rt)).

(** [new SalesforceCartClientMock(ttlMinutes, enableAutoCleanup)]; an
    argument left out is [None]. *)
Definition constructor (ttlMinutes : option Z) (enableAutoCleanup : option bool)
    (rt : Runtime) : nat * Runtime :=
  let ttl := default 5 ttlMinutes in
  if default true enableAutoCleanup then
    let (h, rt1) := setInterval rt in
    (length (objects rt1),
     mkRuntime (objects rt1 ++ [mkInstance ttl ∅ (Some h)]) (instance rt1) (timers rt1))
  else
    (length (objects rt),
     mkRuntime (objects rt ++ [mkInstance ttl ∅ None]) (instance rt) (timers rt)).

Definition getInstance (ttlMinutes : option Z) (rt : Runtime) : nat * Runtime :=
  match instance rt with
  | Some r => (r, rt)
  | None =>
      let (r, rt1) := constructor (Some (default 5 ttlMinutes)) None rt in
      (r, mkRuntime (objects rt1) (Some r) (timers rt1))
  end.

Definition resetInstance (rt : Runtime) : Runtime :=
  let rt1 :=
    match instance rt with
    | Some r =>
        match objects rt !! r with
        | Some o =>
            match inst_cleanupInterval o with
            | Some h => clearInterval h rt
            | None => rt
            end
        | None => rt
        end
    | None => rt
    end in
  mkRuntime (objects rt1) None (timers rt1).

Definition destroy (r : nat) (rt : Runtime) : Runtime :=
  match objects rt !! r with
  | Some o =>
      match inst_cleanupInterval o with
      | Some h =>
          let rt1 := clearInterval h rt in
          mkRuntime (<[r := mkInstance (inst_ttlMinutes o) (inst_carts o) None]>
                       (objects rt1))
                    (instance rt1) (timers rt1)
      | None => rt
      end
  | None => rt
  end.

End Lifecycle.

(** ** Short names *)

Module Store := SalesforceCartClientMock.

(** Pricing the cart and handing it to the store, the last line of every
    mutating method: [this.client.updateCart(this.pricing.calculatePricing(cart))]. *)
Abbreviation settle self tk c :=
  (bind (strategy_calculatePricing (CartService.pricing self) (t_priced tk) c)
        (fun priced' => client_updateCart (CartService.client self) (t_write tk) priced')).
(** * Theorems *)

(** ** Pricing *)

Import StandardPricingStrategy.

(** The worked examples of the repository's pricing tests. *)
Example pricing_two_lines :
  let sum := sum_totalPrice [mkCartItem "a" plan 1 75 75 0;
                             mkCartItem "b" phone 1 999.99 999.99 0]%float in
  (round2 sum, round2 (sum * TAX_RATE),
   round2 (sum + round2 (sum * TAX_RATE)))
  = (1074.99, 96.75, 1171.74)%float.
Proof. reflexivity. Qed.

Example pricing_rounds_tax_up :
  (round2 (33.33 * 3), round2 (99.99 * TAX_RATE),
   round2 (99.99 + round2 (99.99 * TAX_RATE)))%float
  = (99.99, 9, 108.99)%float.
Proof. reflexivity. Qed.

(** C1, as stated, fails: the source adds the rounded tax to the unrounded
    sum.  For the cart holding one line priced 1.005 it returns subtotal 1,
    tax 0.09 and total 1.1, whereas rounding the sum of the rounded subtotal
    and the rounded tax gives 1.09.  The same happens on a cart the engine
    itself builds from two lines with two-decimal prices whose sum is no
    longer a whole number of cents. *)
Lemma C1_total_counterexample :
  (items_of (heap odd_world) odd_cart = Some [odd_item]
   /\ exists c',
        calculatePricing 7 odd_cart odd_world = (Returned c', odd_world)
        /\ subtotal c' = 1%float
        /\ tax c' = 0.09%float
        /\ total c' = 1.1%float
        /\ round2 (subtotal c' + tax c') = 1.09%float
        /\ total c' <> round2 (subtotal c' + tax c'))
  /\ (let big1 := mkProduct "prod-101" "Fleet A" None 9720972944720.47%float "plan" in
      let big2 := mkProduct "prod-102" "Fleet B" None 9782056435220.8%float "plan" in
      let w1 := snd (exec defaultService
                       (AddItem sample_ticks "item-1" sample_id
                          (mkAddItemRequest big1 1%float))
                       empty_cart_world) in
      exists c,
        fst (exec defaultService
               (AddItem sample_ticks "item-2" sample_id
                  (mkAddItemRequest big2 1%float)) w1)
        = Returned (Some c)
        /\ (subtotal c, tax c, total c)
           = (19503029379941.27, 1755272644194.71, 21258302024135.99)%float
        /\ round2 (subtotal c + tax c) = 21258302024135.98%float
        /\ total c <> round2 (subtotal c + tax c)).
Proof.
  split.
  - split; [reflexivity|].
    eexists. split; [reflexivity|].
    do 4 (split; [reflexivity|]).
    intros H. vm_compute in H. discriminate H.
  - eexists. split; [vm_compute; reflexivity|].
    do 2 (split; [reflexivity|]).
    intros H. vm_compute in H. discriminate H.
Qed.

(** C1 (amended): [calculatePricing] returns the cart with
    subtotal = round2 of the raw sum of the lines' [totalPrice],
    tax = round2 (raw sum * 0.09) and
    total = round2 (raw sum + rounded tax): the total is computed from the
    unrounded sum.  The remaining fields are kept, [updatedAt] is the clock
    reading, the world is unchanged, and a cart without lines gets three
    zeros. *)
Theorem C1_calculatePricing_stages (now : Z) (cart : Cart) (w : World)
    (its : list CartItem) :
  items_of (heap w) cart = Some its ->
  exists c',
    calculatePricing now cart w = (Returned c', w)
    /\ subtotal c' = round2 (sum_totalPrice its)
    /\ tax c' = round2 (sum_totalPrice its * 0.09)
    /\ total c' = round2 (sum_totalPrice its + tax c')
    /\ updatedAt c' = now
    /\ (cartId c', items c', createdAt c', expiresAt c', metadata c')
       = (cartId cart, items cart, createdAt cart, expiresAt cart, metadata cart)
    /\ (its = [] -> subtotal c' = 0%float /\ tax c' = 0%float /\ total c' = 0%float).
Proof.
  intros Hits.
  unfold calculatePricing, bind, items_read. rewrite Hits.
  eexists. split; [reflexivity|]. cbn.
  do 5 (split; [reflexivity|]).
  intros ->. repeat split; reflexivity.
Qed.

Lemma C1_calculatePricing_stages_witness :
  exists c',
    calculatePricing 7 odd_cart odd_world = (Returned c', odd_world)
    /\ subtotal c' = round2 (sum_totalPrice [odd_item])
    /\ tax c' = round2 (sum_totalPrice [odd_item] * 0.09)
    /\ total c' = round2 (sum_totalPrice [odd_item] + tax c')
    /\ updatedAt c' = 7
    /\ (cartId c', items c', createdAt c', expiresAt c', metadata c')
       = (cartId odd_cart, items odd_cart, createdAt odd_cart,
          expiresAt odd_cart, metadata odd_cart)
    /\ ([odd_item] = [] -> subtotal c' = 0%float /\ tax c' = 0%float /\ total c' = 0%float).
Proof.
  apply (C1_calculatePricing_stages 7 odd_cart odd_world [odd_item]).
  reflexivity.
Defined.

(** ** The session store *)

Import SalesforceCartClientMock.

Ltac run_store :=
  unfold CartService.getCart, CartService.deleteCart, CartService.validateCartId,
    getCart, updateCart, deleteCart, createCart,
    bind, ret, throw, carts_get, carts_set, carts_delete.

Lemma isExpired_after (ttl now : Z) (e : CartEntry) :
  isExpired ttl now e = true <-> entry_createdAt e + ttl * 60 * 1000 < now.
Proof. unfold isExpired. apply Z.ltb_lt. Qed.

Lemma isExpired_not_after (ttl now : Z) (e : CartEntry) :
  isExpired ttl now e = false <-> now <= entry_createdAt e + ttl * 60 * 1000.
Proof. unfold isExpired. rewrite Z.ltb_ge. reflexivity. Qed.

Lemma store_getCart_live (ttl now : Z) (id : string) (e : CartEntry) (w : World) :
  carts w !! id = Some e -> isExpired ttl now e = false ->
  getCart ttl now id w = (Returned (Some (entry_cart e)), w).
Proof. intros He Hx. run_store. cbn. rewrite He, Hx. reflexivity. Qed.

Lemma store_getCart_expired (ttl now : Z) (id : string) (e : CartEntry) (w : World) :
  carts w !! id = Some e -> isExpired ttl now e = true ->
  getCart ttl now id w
  = (Thrown (CartExpiredError id), mkWorld (delete id (carts w)) (heap w)).
Proof. intros He Hx. run_store. cbn. rewrite He, Hx. reflexivity. Qed.

Lemma store_getCart_absent (ttl now : Z) (id : string) (w : World) :
  carts w !! id = None -> getCart ttl now id w = (Returned None, w).
Proof. intros He. run_store. cbn. rewrite He. reflexivity. Qed.

(** What the wiring gives for each call through the interfaces. *)
Lemma wired_getCart (ttl : Z) (self : CartService.t) :
  wired ttl self -> client_getCart (CartService.client self) = getCart ttl.
Proof. intros [-> _]. reflexivity. Qed.

Lemma wired_updateCart (ttl : Z) (self : CartService.t) :
  wired ttl self -> client_updateCart (CartService.client self) = updateCart ttl.
Proof. intros [-> _]. reflexivity. Qed.

Lemma wired_createCart (ttl : Z) (self : CartService.t) :
  wired ttl self -> client_createCart (CartService.client self) = createCart.
Proof. intros [-> _]. reflexivity. Qed.

Lemma wired_deleteCart (ttl : Z) (self : CartService.t) :
  wired ttl self -> client_deleteCart (CartService.client self) = deleteCart.
Proof. intros [-> _]. reflexivity. Qed.

Lemma wired_calculatePricing (ttl : Z) (self : CartService.t) :
  wired ttl self ->
  strategy_calculatePricing (CartService.pricing self) = calculatePricing.
Proof. intros [_ ->]. reflexivity. Qed.

Lemma service_getCart_valid (ttl : Z) (self : CartService.t) (now : Z) (id : string)
    (w : World) :
  wired ttl self ->
  CartService.regex_test CartService.uuidRegex id = true ->
  CartService.getCart self now id w
  = match getCart ttl now id w with
    | (Returned (Some c), w') => (Returned c, w')
    | (Returned None, w') => (Thrown (ResourceNotFoundError "Cart" id), w')
    | (Thrown e, w') => (Thrown e, w')
    | (Fault, w') => (Fault, w')
    end.
Proof.
  intros Hw Hid. unfold CartService.getCart, CartService.validateCartId.
  rewrite (wired_getCart ttl self Hw), Hid. run_store. cbn.
  destruct (carts w !! id) as [e|]; [|reflexivity].
  destruct (isExpired ttl now e); reflexivity.
Qed.

(** C3: while the clock has not passed the entry's [createdAt] plus the TTL,
    a Get returns the stored cart and leaves the world as it is; the first
    Get after that instant throws [CartExpiredError] and has removed the
    entry; from then on the store answers null whatever the time, so that
    every Get of the engine for that (well-formed) id throws
    [ResourceNotFoundError]. *)
Theorem C3_expiration_transition (ttl : Z) (self : CartService.t) (id : string) (e : CartEntry)
    (w : World) (now : Z) :
  wired ttl self ->
  carts w !! id = Some e ->
  let deadline := entry_createdAt e + ttl * 60 * 1000 in
  let evicted := mkWorld (delete id (carts w)) (heap w) in
  (now <= deadline ->
     getCart ttl now id w = (Returned (Some (entry_cart e)), w)
     /\ (CartService.regex_test CartService.uuidRegex id = true ->
         CartService.getCart self now id w = (Returned (entry_cart e), w)))
  /\ (deadline < now ->
        getCart ttl now id w = (Thrown (CartExpiredError id), evicted)
        /\ carts evicted !! id = None
        /\ (forall later,
              getCart ttl later id evicted = (Returned None, evicted))
        /\ (CartService.regex_test CartService.uuidRegex id = true ->
            CartService.getCart self now id w = (Thrown (CartExpiredError id), evicted)
            /\ forall later,
                 CartService.getCart self later id evicted
                 = (Thrown (ResourceNotFoundError "Cart" id), evicted))).
Proof.
  intros Hw He deadline evicted. split.
  - intros Hnow. apply isExpired_not_after in Hnow.
    split; [apply (store_getCart_live _ _ _ _ _ He Hnow)|].
    intros Hid. rewrite (service_getCart_valid _ _ _ _ _ Hw Hid).
    rewrite (store_getCart_live _ _ _ _ _ He Hnow). reflexivity.
  - intros Hnow. apply isExpired_after in Hnow.
    assert (Hgone : carts evicted !! id = None) by apply lookup_delete_eq.
    split; [apply (store_getCart_expired _ _ _ _ _ He Hnow)|].
    split; [exact Hgone|].
    split; [intros later; apply store_getCart_absent, Hgone|].
    intros Hid. split.
    + rewrite (service_getCart_valid _ _ _ _ _ Hw Hid).
      rewrite (store_getCart_expired _ _ _ _ _ He Hnow). reflexivity.
    + intros later. rewrite (service_getCart_valid _ _ _ _ _ Hw Hid).
      rewrite (store_getCart_absent _ _ _ _ Hgone). reflexivity.
Qed.

Lemma C3_expiration_transition_witness :
  CartService.getCart defaultService 300000 sample_id odd_world
  = (Returned odd_cart, odd_world)
  /\ CartService.getCart defaultService 300001 sample_id odd_world
     = (Thrown (CartExpiredError sample_id),
        mkWorld (delete sample_id (carts odd_world)) (heap odd_world))
  /\ CartService.getCart defaultService 300002 sample_id
       (mkWorld (delete sample_id (carts odd_world)) (heap odd_world))
     = (Thrown (ResourceNotFoundError "Cart" sample_id),
        mkWorld (delete sample_id (carts odd_world)) (heap odd_world)).
Proof.
  assert (Hwired : wired 5 defaultService) by (split; reflexivity).
  pose proof (C3_expiration_transition 5 defaultService sample_id
                (mkCartEntry odd_cart 0) odd_world 300000 Hwired eq_refl) as Hlive.
  pose proof (C3_expiration_transition 5 defaultService sample_id
                (mkCartEntry odd_cart 0) odd_world 300001 Hwired eq_refl) as Hdead.
  cbv zeta in Hlive, Hdead.
  destruct Hlive as [Hlive _]. destruct Hdead as [_ Hdead].
  destruct (Hlive ltac:(cbn; lia)) as [_ H1].
  destruct (Hdead ltac:(cbn; lia)) as (_ & _ & _ & H2).
  destruct (H2 eq_refl) as [H2a H2b].
  split; [exact (H1 eq_refl)|]. split; [exact H2a|]. exact (H2b 300002).
Defined.

(** C8: for a well-formed cart id [deleteCart] returns in every world, be
    the cart present, expired or absent, and leaves the store without an
    entry for the id; deleting again returns as well and changes nothing. *)
Theorem C8_deleteCart_always_succeeds (ttl : Z) (self : CartService.t) (id : string)
    (w : World) :
  wired ttl self ->
  CartService.regex_test CartService.uuidRegex id = true ->
  let w' := mkWorld (delete id (carts w)) (heap w) in
  CartService.deleteCart self id w = (Returned tt, w')
  /\ carts w' !! id = None
  /\ CartService.deleteCart self id w' = (Returned tt, w').
Proof.
  intros Hw Hid w'. unfold CartService.deleteCart, CartService.validateCartId.
  rewrite (wired_deleteCart ttl self Hw), Hid. run_store. cbn.
  split; [reflexivity|]. split; [apply lookup_delete_eq|].
  unfold w'. cbn. rewrite delete_delete_eq. reflexivity.
Qed.

Lemma C8_deleteCart_always_succeeds_witness :
  CartService.deleteCart defaultService sample_id initial = (Returned tt, initial)
  /\ fst (CartService.deleteCart defaultService sample_id odd_world) = Returned tt
  /\ fst (CartService.deleteCart defaultService sample_id
            (snd (CartService.deleteCart defaultService sample_id odd_world)))
     = Returned tt.
Proof.
  assert (Hwired : wired 5 defaultService) by (split; reflexivity).
  pose proof (C8_deleteCart_always_succeeds 5 defaultService sample_id initial
                Hwired eq_refl) as Hnever.
  pose proof (C8_deleteCart_always_succeeds 5 defaultService sample_id odd_world
                Hwired eq_refl) as Htwice.
  cbv zeta in Hnever, Htwice.
  destruct Hnever as (Hn & _ & _). destruct Htwice as (H1 & _ & H2).
  split; [rewrite Hn; reflexivity|].
  rewrite H1. cbn [fst snd]. rewrite H2. split; reflexivity.
Defined.

(** A store access keeps the anchor of every entry it leaves in place. *)
Lemma run_store_op_anchor (ttl : Z) (op : StoreOp) (id : string) (a : Z) (w : World) :
  (forall e, carts w !! id = Some e -> entry_createdAt e = a) ->
  forall e', carts (run_store_op ttl op w) !! id = Some e' -> entry_createdAt e' = a.
Proof.
  intros Inv e'. destruct op as [now id2 | now c]; cbn; run_store; cbn.
  - destruct (carts w !! id2) as [e2|] eqn:E2; cbn; [|apply Inv].
    destruct (isExpired ttl now e2); cbn; [|apply Inv].
    rewrite lookup_delete_Some. intros [_ H]. exact (Inv _ H).
  - destruct (carts w !! cartId c) as [e2|] eqn:E2; cbn; [|apply Inv].
    destruct (isExpired ttl now e2); cbn.
    + rewrite lookup_delete_Some. intros [_ H]. exact (Inv _ H).
    + rewrite lookup_insert_Some. intros [[Hk <-] | [_ H]]; cbn.
      * subst id. exact (Inv _ E2).
      * exact (Inv _ H).
Qed.

(** An access that comes no later than the deadline does not evict. *)
Lemma run_store_op_keeps (ttl : Z) (op : StoreOp) (id : string) (e : CartEntry) (w : World) :
  carts w !! id = Some e ->
  store_op_time op <= entry_createdAt e + ttl * 60 * 1000 ->
  exists e', carts (run_store_op ttl op w) !! id = Some e'
             /\ entry_createdAt e' = entry_createdAt e.
Proof.
  intros He Ht. destruct op as [now id2 | now c]; cbn in *; run_store; cbn.
  - destruct (carts w !! id2) as [e2|] eqn:E2; cbn; [|eauto].
    destruct (isExpired ttl now e2) eqn:X; cbn; [|eauto].
    destruct (decide (id2 = id)) as [->|Hne].
    + rewrite He in E2. injection E2 as <-.
      apply isExpired_after in X. lia.
    + rewrite lookup_delete_ne by exact Hne. eauto.
  - destruct (carts w !! cartId c) as [e2|] eqn:E2; cbn; [|eauto].
    destruct (decide (cartId c = id)) as [Heq|Hne].
    + rewrite Heq in E2. rewrite He in E2. injection E2 as <-.
      destruct (isExpired ttl now e) eqn:X; cbn.
      * apply isExpired_after in X. lia.
      * rewrite Heq, lookup_insert_eq. eauto.
    + destruct (isExpired ttl now e2); cbn.
      * rewrite lookup_delete_ne by exact Hne. eauto.
      * rewrite lookup_insert_ne by exact Hne. eauto.
Qed.

Lemma run_store_ops_anchor (ttl : Z) (ops : list StoreOp) (id : string) (a : Z) :
  forall w,
    (forall e, carts w !! id = Some e -> entry_createdAt e = a) ->
    forall e', carts (run_store_ops ttl ops w) !! id = Some e' -> entry_createdAt e' = a.
Proof.
  induction ops as [|op ops IH]; intros w Inv; [exact Inv|].
  cbn. apply IH. apply run_store_op_anchor, Inv.
Qed.

Lemma run_store_ops_keeps (ttl : Z) (ops : list StoreOp) (id : string) (a : Z) :
  Forall (fun op => store_op_time op <= a + ttl * 60 * 1000) ops ->
  forall w e,
    carts w !! id = Some e -> entry_createdAt e = a ->
    exists e', carts (run_store_ops ttl ops w) !! id = Some e'
               /\ entry_createdAt e' = a.
Proof.
  induction 1 as [|op ops Hop _ IH]; intros w e He Ha; [cbn; eauto|].
  cbn. rewrite <- Ha in Hop.
  destruct (run_store_op_keeps ttl op id e w He Hop) as (e1 & He1 & Ha1).
  apply (IH _ e1 He1). congruence.
Qed.

(** C6: whatever sequence of Gets and Updates the store serves, an entry
    that is still there carries the [createdAt] it was stored with; so after
    any such sequence an access later than that [createdAt] plus the TTL
    never succeeds, and if no access of the sequence came later than that
    instant the entry is still there and a Get up to that instant returns
    it: reads and writes do not move the expiration. *)
Theorem C6_expiration_is_absolute (ttl : Z) (ops : list StoreOp) (id : string)
    (e : CartEntry) (w : World) :
  carts w !! id = Some e ->
  let w' := run_store_ops ttl ops w in
  let deadline := entry_createdAt e + ttl * 60 * 1000 in
  (forall e', carts w' !! id = Some e' -> entry_createdAt e' = entry_createdAt e)
  /\ (forall now c, deadline < now -> fst (getCart ttl now id w') <> Returned (Some c))
  /\ (forall now c, deadline < now -> cartId c = id ->
        exists err, fst (updateCart ttl now c w') = Thrown err)
  /\ (Forall (fun op => store_op_time op <= deadline) ops ->
        exists e', carts w' !! id = Some e'
                   /\ entry_createdAt e' = entry_createdAt e
                   /\ forall now, now <= deadline ->
                        getCart ttl now id w' = (Returned (Some (entry_cart e')), w')).
Proof.
  intros He w' deadline.
  assert (Hanchor : forall e', carts w' !! id = Some e' ->
                               entry_createdAt e' = entry_createdAt e).
  { apply run_store_ops_anchor. intros e0 He0. congruence. }
  split; [exact Hanchor|]. split; [|split].
  - intros now c Hlate. run_store. cbn.
    destruct (carts w' !! id) as [e'|] eqn:E'; cbn; [|discriminate].
    assert (X : isExpired ttl now e' = true).
    { apply isExpired_after. rewrite (Hanchor _ eq_refl). exact Hlate. }
    rewrite X. discriminate.
  - intros now c Hlate Hid. run_store. cbn. rewrite Hid.
    destruct (carts w' !! id) as [e'|] eqn:E'; cbn; [|eauto].
    assert (X : isExpired ttl now e' = true).
    { apply isExpired_after. rewrite (Hanchor _ eq_refl). exact Hlate. }
    rewrite X. cbn. eauto.
  - intros Hops.
    destruct (run_store_ops_keeps ttl ops id (entry_createdAt e) Hops w e He eq_refl)
      as (e' & He' & Ha').
    exists e'. split; [exact He'|]. split; [exact Ha'|].
    intros now Hnow. apply (store_getCart_live _ _ _ _ _ He').
    apply isExpired_not_after. rewrite Ha'. exact Hnow.
Qed.

Lemma C6_expiration_is_absolute_witness :
  let ops := [StoreGet 100 sample_id;
              StoreUpdate 299999 (with_expiresAt 999999 odd_cart);
              StoreGet 300000 sample_id] in
  (forall e', carts (run_store_ops 5 ops odd_world) !! sample_id = Some e' ->
              entry_createdAt e' = 0)
  /\ (forall c, fst (getCart 5 300001 sample_id (run_store_ops 5 ops odd_world))
                <> Returned (Some c)).
Proof.
  intros ops.
  destruct (C6_expiration_is_absolute 5 ops sample_id (mkCartEntry odd_cart 0)
              odd_world eq_refl) as (H1 & H2 & _ & _).
  split; [exact H1|].
  intros c. apply H2. cbn. lia.
Defined.

(** C10: the entry's anchor is the [createdAt] of the cart passed to
    [createCart]; the expiry test is a function of that anchor, the TTL and
    the clock alone, so giving the stored cart or the cart written back any
    other [expiresAt] changes no verdict; and the test is strict: at exactly
    anchor + TTL both Get and Update still succeed. *)
Theorem C10_expiry_reads_anchor_only (ttl now x : Z) (id : string) (e : CartEntry)
    (w : World) (cart : Cart) :
  carts w !! id = Some e ->
  cartId cart = id ->
  carts (snd (createCart cart w)) !! cartId cart = Some (mkCartEntry cart (createdAt cart))
  /\ isExpired ttl now e = (entry_createdAt e + ttl * 60 * 1000 <? now)
  /\ same_verdict
       (fst (getCart ttl now id
               (mkWorld (<[id := mkCartEntry (with_expiresAt x (entry_cart e))
                                             (entry_createdAt e)]> (carts w))
                        (heap w))))
       (fst (getCart ttl now id w))
  /\ same_verdict (fst (updateCart ttl now (with_expiresAt x cart) w))
                  (fst (updateCart ttl now cart w))
  /\ (now = entry_createdAt e + ttl * 60 * 1000 ->
        getCart ttl now id w = (Returned (Some (entry_cart e)), w)
        /\ updateCart ttl now cart w
           = (Returned cart,
              mkWorld (<[id := mkCartEntry cart (entry_createdAt e)]> (carts w)) (heap w))).
Proof.
  intros He Hid. split; [|split; [|split; [|split]]].
  - run_store. cbn. apply lookup_insert_eq.
  - reflexivity.
  - run_store. cbn. rewrite lookup_insert_eq, He.
    unfold isExpired. cbn.
    destruct (entry_createdAt e + ttl * 60 * 1000 <? now); cbn; reflexivity.
  - run_store. cbn. rewrite Hid, He.
    destruct (isExpired ttl now e); cbn; reflexivity.
  - intros Hnow.
    assert (X : isExpired ttl now e = false) by (apply isExpired_not_after; lia).
    split; [apply (store_getCart_live _ _ _ _ _ He X)|].
    run_store. cbn. rewrite Hid, He, X. reflexivity.
Qed.

Lemma C10_expiry_reads_anchor_only_witness :
  getCart 5 300000 sample_id
    (mkWorld {[ sample_id := mkCartEntry (with_expiresAt 1 odd_cart) 0 ]}
             (heap odd_world))
  = (Returned (Some (with_expiresAt 1 odd_cart)),
     mkWorld {[ sample_id := mkCartEntry (with_expiresAt 1 odd_cart) 0 ]}
             (heap odd_world)).
Proof.
  assert (Hstored :
            carts (mkWorld {[ sample_id := mkCartEntry (with_expiresAt 1 odd_cart) 0 ]}
                           (heap odd_world)) !! sample_id
            = Some (mkCartEntry (with_expiresAt 1 odd_cart) 0))
    by (vm_compute; reflexivity).
  destruct (C10_expiry_reads_anchor_only 5 300000 0 sample_id _ _
              odd_cart Hstored eq_refl) as (_ & _ & _ & _ & H).
  exact (proj1 (H eq_refl)).
Defined.

(** ** The engine: validation *)

Import CartService.

Lemma validateQuantity_rejects (self : CartService.t) (q : float) (w : World) :
  quantity_rejected self q = true ->
  exists reason, validateQuantity self q w = (Thrown (ValidationError reason), w).
Proof.
  unfold quantity_rejected, validateQuantity, throw. intros H.
  destruct (Number_isInteger q); cbn in *; [|eauto].
  rewrite H. eauto.
Qed.

Lemma validateQuantity_accepts (self : CartService.t) (q : float) (w : World) :
  quantity_rejected self q = false ->
  validateQuantity self q w = (Returned tt, w).
Proof.
  unfold quantity_rejected, validateQuantity, ret. intros H.
  destruct (Number_isInteger q); cbn in *; [|discriminate].
  rewrite H. reflexivity.
Qed.

Lemma validateCartId_cases (id : string) (w : World) :
  validateCartId id w = (Returned tt, w)
  \/ validateCartId id w = (Thrown (ValidationError InvalidCartIdFormat), w).
Proof.
  unfold validateCartId, ret, throw.
  destruct (regex_test uuidRegex id); [left|right]; reflexivity.
Qed.

(** C5: a quantity that is not an integer, or is below [minQty] or above
    [maxQty], makes [addItem] and [updateItemQuantity] throw a
    [ValidationError] and leave the world, store included, exactly as it
    was, for every cart id and every world (so also when the cart is absent
    or expired) and whatever client the service was given: no method of the
    client has run.  With the default bounds 0 and 100 are rejected, 1 and
    99 pass the quantity check. *)
Theorem C5_quantity_checked_before_store (self : CartService.t) (tk : Ticks)
    (newItemId id targetItemId : string) (p : Product) (q : float) (w : World) :
  Number_isInteger q = false \/ (q <? minQty self)%float = true
  \/ (maxQty self <? q)%float = true ->
  (exists reason,
     addItem self tk newItemId id (mkAddItemRequest p q) w
     = (Thrown (ValidationError reason), w))
  /\ (exists reason,
        updateItemQuantity self tk id targetItemId q w
        = (Thrown (ValidationError reason), w))
  /\ (exists reason, validateQuantity defaultService 0%float w
                     = (Thrown (ValidationError reason), w))
  /\ (exists reason, validateQuantity defaultService 100%float w
                     = (Thrown (ValidationError reason), w))
  /\ validateQuantity defaultService 1%float w = (Returned tt, w)
  /\ validateQuantity defaultService 99%float w = (Returned tt, w).
Proof.
  intros Hq.
  assert (Hrej : quantity_rejected self q = true).
  { unfold quantity_rejected.
    destruct Hq as [-> | [-> | ->]]; cbn; rewrite ?orb_true_r; reflexivity. }
  destruct (validateQuantity_rejects self q w Hrej) as [reason Hv].
  split; [|split].
  - unfold addItem, bind. cbn [request_quantity].
    destruct (validateCartId_cases id w) as [-> | ->]; [|eauto].
    rewrite Hv. eauto.
  - unfold updateItemQuantity, bind.
    destruct (validateCartId_cases id w) as [-> | ->]; [|eauto].
    rewrite Hv. eauto.
  - split; [apply validateQuantity_rejects; reflexivity|].
    split; [apply validateQuantity_rejects; reflexivity|].
    split; apply validateQuantity_accepts; reflexivity.
Qed.

Lemma C5_quantity_checked_before_store_witness :
  (exists reason,
     addItem defaultService sample_ticks "item-2" sample_id
       (mkAddItemRequest plan 1.5%float) initial
     = (Thrown (ValidationError reason), initial))
  /\ (exists reason,
        updateItemQuantity defaultService sample_ticks sample_id "item-1" 1.5%float initial
        = (Thrown (ValidationError reason), initial)).
Proof.
  destruct (C5_quantity_checked_before_store defaultService sample_ticks "item-2"
              sample_id "item-1" plan 1.5%float initial
              ltac:(left; reflexivity)) as (H1 & H2 & _).
  split; [exact H1 | exact H2].
Defined.

(** ** Running a computation step by step *)

Lemma bind_returned {A B : Type} (m : M A) (k : A -> M B) (w w' : World) (a : A) :
  m w = (Returned a, w') -> bind m k w = k a w'.
Proof. unfold bind. intros ->. reflexivity. Qed.

Lemma bind_thrown {A B : Type} (m : M A) (k : A -> M B) (w w' : World) (e : DomainError) :
  m w = (Thrown e, w') -> bind m k w = (Thrown e, w').
Proof. unfold bind. intros ->. reflexivity. Qed.

Tactic Notation "step" constr(H) := rewrite (bind_returned _ _ _ _ _ H).
Tactic Notation "step" constr(H) "in" hyp(G) := rewrite (bind_returned _ _ _ _ _ H) in G.
Tactic Notation "stop" constr(H) := rewrite (bind_thrown _ _ _ _ _ H).
Tactic Notation "stop" constr(H) "in" hyp(G) := rewrite (bind_thrown _ _ _ _ _ H) in G.

Lemma validateCartId_verdict (id : string) (w : World) :
  (regex_test uuidRegex id = true /\ validateCartId id w = (Returned tt, w))
  \/ (regex_test uuidRegex id = false
      /\ validateCartId id w = (Thrown (ValidationError InvalidCartIdFormat), w)).
Proof.
  unfold validateCartId, ret, throw.
  destruct (regex_test uuidRegex id); [left|right]; split; reflexivity.
Qed.

Lemma validateQuantity_verdict (self : CartService.t) (q : float) (w : World) :
  (quantity_rejected self q = false /\ validateQuantity self q w = (Returned tt, w))
  \/ (exists reason, validateQuantity self q w = (Thrown (ValidationError reason), w)).
Proof.
  destruct (quantity_rejected self q) eqn:E.
  - right. apply validateQuantity_rejects, E.
  - left. split; [reflexivity|]. apply validateQuantity_accepts, E.
Qed.

Lemma validateProduct_verdict (p : Product) (w : World) :
  validateProduct p w = (Returned tt, w)
  \/ (exists reason, validateProduct p w = (Thrown (ValidationError reason), w)).
Proof.
  unfold validateProduct, ret, throw.
  repeat match goal with
         | |- context [if ?b then _ else _] => destruct b
         end; eauto.
Qed.

(** ** Arrays, items and searches *)

Lemma findIndex_first {A : Type} (p : A -> bool) (pre : list A) (x : A) (post : list A) :
  Forall (fun y => p y = false) pre -> p x = true ->
  findIndex p (pre ++ x :: post) = Some (length pre).
Proof.
  intros Hpre Hx. induction Hpre as [|y pre Hy _ IH]; cbn.
  - rewrite Hx. reflexivity.
  - rewrite Hy, IH. reflexivity.
Qed.

Lemma findIndex_None {A : Type} (p : A -> bool) (xs : list A) :
  findIndex p xs = None -> Forall (fun y => p y = false) xs.
Proof.
  induction xs as [|y xs IH]; cbn; [constructor|].
  destruct (p y) eqn:Hy; [discriminate|].
  destruct (findIndex p xs); cbn; [discriminate|].
  intros _. constructor; [exact Hy | apply IH; reflexivity].
Qed.

Lemma items_of_Some (h : Heap) (c : Cart) (its : list CartItem) :
  items_of h c = Some its <->
  exists arr, arrays h !! items c = Some arr /\ deref h arr = Some its.
Proof. unfold items_of. apply bind_Some. Qed.

Lemma deref_Forall2 (h : Heap) (arr : list loc) (its : list CartItem) :
  deref h arr = Some its <-> Forall2 (fun l it => cells h !! l = Some it) arr its.
Proof. unfold deref. apply mapM_Some. Qed.

Lemma deref_lookup (h : Heap) (arr : list loc) (its : list CartItem) (i : nat)
    (it : CartItem) :
  deref h arr = Some its -> its !! i = Some it ->
  exists l, arr !! i = Some l /\ cells h !! l = Some it.
Proof.
  rewrite deref_Forall2. intros HF Hi.
  destruct (Forall2_lookup_r _ _ _ _ _ HF Hi) as (l & Hl & Hc). eauto.
Qed.

(** ** The engine: merging into an existing line *)

Lemma pid_eqb_true (it : CartItem) (p : Product) :
  pid it = productId p -> String.eqb (productId (product it)) (productId p) = true.
Proof. unfold pid. intros ->. apply String.eqb_refl. Qed.

Lemma pid_eqb_false (p : Product) (its : list CartItem) :
  Forall (fun it => pid it <> productId p) its ->
  Forall (fun it => String.eqb (productId (product it)) (productId p) = false) its.
Proof. apply Forall_impl. intros it Hne. apply String.eqb_neq, Hne. Qed.

(** C2, as stated, fails for a stored cart that is past its expiration
    and has not been evicted yet: the read of [addItem] comes before the
    merge is looked at.  The store holds a cart created at time 0 with one
    line of 50 plans; a request for 50 more, made one millisecond after the
    deadline of five minutes, exceeds the maximum of 99, yet the call throws
    [CartExpiredError], not a [ValidationError], and the entry is gone from
    the store. *)
Lemma C2_expired_counterexample :
  let late := mkTicks 300001 300001 300001 300001 in
  let r := addItem defaultService late "item-2" sample_id
             (mkAddItemRequest plan 50%float) fifty_world in
  (exists e line,
     carts fifty_world !! sample_id = Some e
     /\ items_of (heap fifty_world) (entry_cart e) = Some [line]
     /\ pid line = productId plan
     /\ quantity line = 50%float
     /\ (maxQty defaultService <? quantity line + 50)%float = true)
  /\ fst r = Thrown (CartExpiredError sample_id)
  /\ (forall reason, fst r <> Thrown (ValidationError reason))
  /\ carts (snd r) !! sample_id = None
  /\ snd r <> fifty_world.
Proof.
  intros late r.
  assert (Hr : fst r = Thrown (CartExpiredError sample_id)) by (vm_compute; reflexivity).
  assert (Hgone : carts (snd r) !! sample_id = None) by (vm_compute; reflexivity).
  split; [|split; [exact Hr|split; [|split; [exact Hgone|]]]].
  - eexists. eexists. split; [vm_compute; reflexivity|].
    split; [vm_compute; reflexivity|].
    split; [reflexivity|]. split; reflexivity.
  - intros reason H. rewrite Hr in H. discriminate H.
  - intros H. rewrite H in Hgone. vm_compute in Hgone. discriminate Hgone.
Qed.

(** C2 (amended): when the stored cart, not past its expiration at the
    time of the call, holds a line for the requested product (the first such
    line, should there be several) and that line's quantity plus the
    requested one exceeds [maxQty], [addItem] throws a [ValidationError] and
    the world after the call is the world before it: the store entry, the
    line's quantity and [totalPrice] and the cart's pricing fields are all
    as they were. *)
Theorem C2_rejected_merge_changes_nothing (ttl : Z) (self : CartService.t) (tk : Ticks)
    (newItemId id : string) (request : AddItemRequest) (w : World)
    (e : CartEntry) (pre post : list CartItem) (item : CartItem) :
  wired ttl self ->
  carts w !! id = Some e ->
  isExpired ttl (t_read tk) e = false ->
  items_of (heap w) (entry_cart e) = Some (pre ++ item :: post) ->
  Forall (fun it => pid it <> productId (request_product request)) pre ->
  pid item = productId (request_product request) ->
  (maxQty self <? quantity item + request_quantity request)%float = true ->
  exists reason,
    addItem self tk newItemId id request w = (Thrown (ValidationError reason), w).
Proof.
  intros Hw He Hlive Hits Hpre Hitem Hover.
  unfold addItem.
  destruct (validateCartId_verdict id w) as [[Hid Hv] | [_ Hv]];
    [step Hv | stop Hv; eauto].
  destruct (validateQuantity_verdict self (request_quantity request) w)
    as [[_ Hq] | [r Hq]]; [step Hq | stop Hq; eauto].
  destruct (validateProduct_verdict (request_product request) w)
    as [Hp | [r Hp]]; [step Hp | stop Hp; eauto].
  assert (Hget : CartService.getCart self (t_read tk) id w = (Returned (entry_cart e), w)).
  { rewrite (service_getCart_valid _ _ _ _ _ Hw Hid).
    rewrite (store_getCart_live _ _ _ _ _ He Hlive). reflexivity. }
  step Hget.
  destruct (proj1 (items_of_Some _ _ _) Hits) as (arr & Harr & Hderef).
  assert (Hread : array_read (items (entry_cart e)) w = (Returned arr, w))
    by (unfold array_read; rewrite Harr; reflexivity).
  step Hread.
  assert (Hitems : items_read (entry_cart e) w = (Returned (pre ++ item :: post), w))
    by (unfold items_read; rewrite Hits; reflexivity).
  step Hitems.
  rewrite (findIndex_first _ pre item post (pid_eqb_false _ _ Hpre)
             (pid_eqb_true _ _ Hitem)).
  destruct (deref_lookup _ _ _ (length pre) item Hderef (list_lookup_middle _ _ _ _ eq_refl))
    as (l & Hl & Hcell).
  rewrite Hl.
  assert (Hrd : item_read l w = (Returned item, w))
    by (unfold item_read; rewrite Hcell; reflexivity).
  unfold bind at 1. rewrite (bind_returned _ _ _ _ _ Hrd), Hover.
  unfold throw. eauto.
Qed.

Lemma C2_rejected_merge_changes_nothing_witness :
  exists reason,
    addItem defaultService sample_ticks "item-2" sample_id
      (mkAddItemRequest plan 50%float) fifty_world
    = (Thrown (ValidationError reason), fifty_world).
Proof.
  eapply (C2_rejected_merge_changes_nothing 5 defaultService sample_ticks "item-2"
            sample_id (mkAddItemRequest plan 50%float) fifty_world _ [] []).
  - split; reflexivity.
  - vm_compute. reflexivity.
  - vm_compute. reflexivity.
  - vm_compute. reflexivity.
  - constructor.
  - reflexivity.
  - vm_compute. reflexivity.
Defined.

Lemma calculatePricing_run (now : Z) (cart : Cart) (w : World) (its : list CartItem) :
  items_of (heap w) cart = Some its ->
  exists priced,
    calculatePricing now cart w = (Returned priced, w)
    /\ cartId priced = cartId cart /\ items priced = items cart.
Proof.
  intros Hits. unfold calculatePricing, bind, items_read. rewrite Hits.
  eexists. split; [reflexivity|]. split; reflexivity.
Qed.

Lemma updateCart_returned (ttl now : Z) (c c' : Cart) (w w' : World) :
  updateCart ttl now c w = (Returned c', w') ->
  c' = c
  /\ exists e, carts w !! cartId c = Some e
               /\ isExpired ttl now e = false
               /\ w' = mkWorld (<[cartId c := mkCartEntry c (entry_createdAt e)]> (carts w))
                               (heap w).
Proof.
  run_store. cbn.
  destruct (carts w !! cartId c) as [e|]; cbn; [|discriminate].
  destruct (isExpired ttl now e) eqn:X; cbn; [discriminate|].
  intros [= <- <-]. split; [reflexivity|]. exists e. repeat split. exact X.
Qed.

(** Overwriting one item object leaves the other lines of an array alone. *)
Lemma deref_insert_others (h : Heap) (l : loc) (it it' : CartItem) (p : string)
    (arr : list loc) (its : list CartItem) :
  cells h !! l = Some it -> pid it = p ->
  Forall2 (fun l' x => cells h !! l' = Some x) arr its ->
  Forall (fun x => pid x <> p) its ->
  Forall2 (fun l' x => <[l := it']> (cells h) !! l' = Some x) arr its.
Proof.
  intros Hl Hp HF. induction HF as [|l' x arr its Hx _ IH]; intros Hne; [constructor|].
  inversion Hne as [|? ? Hx' Hrest]; subst.
  constructor; [|apply IH, Hrest].
  rewrite list_lookup_insert_ne; [exact Hx|].
  intros <-. rewrite Hl in Hx. injection Hx as ->. apply Hx'. reflexivity.
Qed.

Lemma deref_insert_line (h : Heap) (l : loc) (it it' : CartItem)
    (arr : list loc) (pre post : list CartItem) :
  deref h arr = Some (pre ++ it :: post) ->
  arr !! length pre = Some l ->
  Forall (fun x => pid x <> pid it) pre ->
  Forall (fun x => pid x <> pid it) post ->
  deref (mkHeap (arrays h) (<[l := it']> (cells h))) arr = Some (pre ++ it' :: post).
Proof.
  rewrite !deref_Forall2. cbn. intros HF Hl Hpre Hpost.
  apply Forall2_app_inv_r in HF as (arrp & arr2 & Hp & H2 & ->).
  inversion H2 as [|l0 x arrq ? Hl0 Hq]; subst.
  assert (Hlen : length arrp = length pre) by (eapply Forall2_length; exact Hp).
  rewrite <- Hlen, list_lookup_middle in Hl by reflexivity. injection Hl as ->.
  apply Forall2_app.
  - apply (deref_insert_others h l it it' (pid it)); auto.
  - constructor.
    + apply list_lookup_insert_eq. eapply lookup_lt_Some. exact Hl0.
    + apply (deref_insert_others h l it it' (pid it)); auto.
Qed.

(** What a successful [addItem] does when the cart has a line for the
    product. *)
Lemma addItem_merge (ttl : Z) (self : CartService.t) (tk : Ticks) (newItemId id : string)
    (request : AddItemRequest) (w w' : World) (e : CartEntry)
    (pre post : list CartItem) (item : CartItem) (c' : Cart) :
  wired ttl self ->
  carts w !! id = Some e ->
  items_of (heap w) (entry_cart e) = Some (pre ++ item :: post) ->
  Forall (fun it => pid it <> productId (request_product request)) pre ->
  Forall (fun it => pid it <> productId (request_product request)) post ->
  pid item = productId (request_product request) ->
  addItem self tk newItemId id request w = (Returned c', w') ->
  let q' := (quantity item + request_quantity request)%float in
  let merged := mkCartItem (itemId item) (product item) q' (unitPrice item)
                  (round2 (unitPrice item * q')) (addedAt item) in
  (maxQty self <? q')%float = false
  /\ items_of (heap w') c' = Some (pre ++ merged :: post)
  /\ cartId c' = cartId (entry_cart e)
  /\ exists e', carts w' !! cartId c' = Some e' /\ entry_cart e' = c'.
Proof.
  intros Hw He Hits Hpre Hpost Hitem Hrun q' merged.
  unfold addItem in Hrun.
  rewrite (wired_updateCart ttl self Hw), (wired_calculatePricing ttl self Hw) in Hrun.
  destruct (validateCartId_verdict id w) as [[Hid Hv] | [_ Hv]];
    [step Hv in Hrun | stop Hv in Hrun; discriminate].
  destruct (validateQuantity_verdict self (request_quantity request) w)
    as [[_ Hq] | [r Hq]]; [step Hq in Hrun | stop Hq in Hrun; discriminate].
  destruct (validateProduct_verdict (request_product request) w)
    as [Hp | [r Hp]]; [step Hp in Hrun | stop Hp in Hrun; discriminate].
  destruct (isExpired ttl (t_read tk) e) eqn:Hlive.
  { assert (Hget : CartService.getCart self (t_read tk) id w
                   = (Thrown (CartExpiredError id),
                      mkWorld (delete id (carts w)) (heap w))).
    { rewrite (service_getCart_valid _ _ _ _ _ Hw Hid).
      rewrite (store_getCart_expired _ _ _ _ _ He Hlive). reflexivity. }
    stop Hget in Hrun. discriminate. }
  assert (Hget : CartService.getCart self (t_read tk) id w = (Returned (entry_cart e), w)).
  { rewrite (service_getCart_valid _ _ _ _ _ Hw Hid).
    rewrite (store_getCart_live _ _ _ _ _ He Hlive). reflexivity. }
  step Hget in Hrun.
  destruct (proj1 (items_of_Some _ _ _) Hits) as (arr & Harr & Hderef).
  assert (Hread : array_read (items (entry_cart e)) w = (Returned arr, w))
    by (unfold array_read; rewrite Harr; reflexivity).
  step Hread in Hrun.
  assert (Hitems : items_read (entry_cart e) w = (Returned (pre ++ item :: post), w))
    by (unfold items_read; rewrite Hits; reflexivity).
  step Hitems in Hrun.
  rewrite (findIndex_first _ pre item post (pid_eqb_false _ _ Hpre)
             (pid_eqb_true _ _ Hitem)) in Hrun.
  destruct (deref_lookup _ _ _ (length pre) item Hderef (list_lookup_middle _ _ _ _ eq_refl))
    as (l & Hl & Hcell).
  rewrite Hl in Hrun.
  assert (Hrd : item_read l w = (Returned item, w))
    by (unfold item_read; rewrite Hcell; reflexivity).
  destruct (maxQty self <? q')%float eqn:Hmax.
  { match type of Hrun with
    | context [bind (item_read l) ?k] =>
        assert (Hth : exists err, bind (item_read l) k w = (Thrown err, w))
    end.
    { rewrite (bind_returned _ _ _ _ _ Hrd). fold q'. rewrite Hmax.
      unfold throw. eauto. }
    destruct Hth as [err Hth]. stop Hth in Hrun. discriminate. }
  split; [reflexivity|].
  set (h1 := mkHeap (arrays (heap w)) (<[l := merged]> (cells (heap w)))).
  set (w1 := mkWorld (carts w) h1).
  match type of Hrun with
  | context [bind (item_read l) ?k] =>
      assert (Hwr : bind (item_read l) k w = (Returned tt, w1))
  end.
  { rewrite (bind_returned _ _ _ _ _ Hrd). fold q'. rewrite Hmax.
    unfold item_write. rewrite Hcell. reflexivity. }
  step Hwr in Hrun.
  assert (Hits1 : items_of (heap w1) (entry_cart e) = Some (pre ++ merged :: post)).
  { apply items_of_Some. exists arr. split; [exact Harr|].
    apply (deref_insert_line (heap w) l item merged arr pre post Hderef Hl);
      rewrite Hitem; assumption. }
  destruct (calculatePricing_run (t_priced tk) _ _ _ Hits1) as (priced & Hpr & Hpid & Hpit).
  step Hpr in Hrun.
  destruct (updateCart_returned _ _ _ _ _ _ Hrun) as (-> & e2 & He2 & _ & ->).
  cbn. split; [|split; [exact Hpid|]].
  - rewrite <- Hits1. unfold items_of. rewrite Hpit. reflexivity.
  - eexists. split; [apply lookup_insert_eq | reflexivity].
Qed.

Lemma findIndex_all_false {A : Type} (p : A -> bool) (xs : list A) :
  Forall (fun y => p y = false) xs -> findIndex p xs = None.
Proof.
  induction 1 as [|y xs Hy _ IH]; cbn; [reflexivity|].
  rewrite Hy, IH. reflexivity.
Qed.

Lemma deref_cells_app (h : Heap) (extra : list CartItem) (arr : list loc)
    (its : list CartItem) :
  deref h arr = Some its ->
  deref (mkHeap (arrays h) (cells h ++ extra)) arr = Some its.
Proof.
  rewrite !deref_Forall2. cbn. apply Forall2_impl.
  intros l it Hl. apply lookup_app_l_Some, Hl.
Qed.

(** What a successful [addItem] does when the cart has no line for the
    product. *)
Lemma addItem_push (ttl : Z) (self : CartService.t) (tk : Ticks) (newItemId id : string)
    (request : AddItemRequest) (w w' : World) (e : CartEntry)
    (its : list CartItem) (c' : Cart) :
  wired ttl self ->
  carts w !! id = Some e ->
  items_of (heap w) (entry_cart e) = Some its ->
  Forall (fun it => pid it <> productId (request_product request)) its ->
  addItem self tk newItemId id request w = (Returned c', w') ->
  let fresh := mkCartItem newItemId (request_product request)
                 (request_quantity request) (price (request_product request))
                 (round2 (price (request_product request) * request_quantity request))
                 (t_added tk) in
  items_of (heap w') c' = Some (its ++ [fresh])
  /\ cartId c' = cartId (entry_cart e)
  /\ exists e', carts w' !! cartId c' = Some e' /\ entry_cart e' = c'.
Proof.
  intros Hw He Hits Hnone Hrun fresh.
  unfold addItem in Hrun.
  rewrite (wired_updateCart ttl self Hw), (wired_calculatePricing ttl self Hw) in Hrun.
  destruct (validateCartId_verdict id w) as [[Hid Hv] | [_ Hv]];
    [step Hv in Hrun | stop Hv in Hrun; discriminate].
  destruct (validateQuantity_verdict self (request_quantity request) w)
    as [[_ Hq] | [r Hq]]; [step Hq in Hrun | stop Hq in Hrun; discriminate].
  destruct (validateProduct_verdict (request_product request) w)
    as [Hp | [r Hp]]; [step Hp in Hrun | stop Hp in Hrun; discriminate].
  destruct (isExpired ttl (t_read tk) e) eqn:Hlive.
  { assert (Hget : CartService.getCart self (t_read tk) id w
                   = (Thrown (CartExpiredError id),
                      mkWorld (delete id (carts w)) (heap w))).
    { rewrite (service_getCart_valid _ _ _ _ _ Hw Hid).
      rewrite (store_getCart_expired _ _ _ _ _ He Hlive). reflexivity. }
    stop Hget in Hrun. discriminate. }
  assert (Hget : CartService.getCart self (t_read tk) id w = (Returned (entry_cart e), w)).
  { rewrite (service_getCart_valid _ _ _ _ _ Hw Hid).
    rewrite (store_getCart_live _ _ _ _ _ He Hlive). reflexivity. }
  step Hget in Hrun.
  destruct (proj1 (items_of_Some _ _ _) Hits) as (arr & Harr & Hderef).
  assert (Hread : array_read (items (entry_cart e)) w = (Returned arr, w))
    by (unfold array_read; rewrite Harr; reflexivity).
  step Hread in Hrun.
  assert (Hitems : items_read (entry_cart e) w = (Returned its, w))
    by (unfold items_read; rewrite Hits; reflexivity).
  step Hitems in Hrun.
  rewrite (findIndex_all_false _ its (pid_eqb_false _ _ Hnone)) in Hrun.
  set (l := length (cells (heap w))).
  set (h2 := mkHeap (<[items (entry_cart e) := arr ++ [l]]> (arrays (heap w)))
                    (cells (heap w) ++ [fresh])).
  set (w2 := mkWorld (carts w) h2).
  match type of Hrun with
  | context [bind (item_new ?it) ?k] =>
      assert (Hpush : bind (item_new it) k w = (Returned tt, w2))
  end.
  { unfold bind, item_new, array_write. cbn. rewrite Harr. reflexivity. }
  step Hpush in Hrun.
  assert (Hits2 : items_of (heap w2) (entry_cart e) = Some (its ++ [fresh])).
  { apply items_of_Some. exists (arr ++ [l]). split.
    - cbn. apply list_lookup_insert_eq. eapply lookup_lt_Some. exact Harr.
    - apply deref_Forall2. cbn. apply Forall2_app.
      + apply (proj1 (deref_Forall2 _ _ _)
                 (deref_cells_app (heap w) [fresh] arr its Hderef)).
      + constructor; [|constructor].
        apply list_lookup_middle. reflexivity. }
  destruct (calculatePricing_run (t_priced tk) _ _ _ Hits2) as (priced & Hpr & Hpid & Hpit).
  step Hpr in Hrun.
  destruct (updateCart_returned _ _ _ _ _ _ Hrun) as (-> & e2 & He2 & _ & ->).
  cbn. split; [|split; [exact Hpid|]].
  - rewrite <- Hits2. unfold items_of. rewrite Hpit. reflexivity.
  - eexists. split; [apply lookup_insert_eq | reflexivity].
Qed.

Lemma cents_double_from_sound (fuel : nat) :
  forall k, cents_double_from fuel k = true ->
            forall j, k <= j < k + Z.of_nat fuel -> doubles_exactly (cents j) = true.
Proof.
  induction fuel as [|fuel IH]; intros k Hall j Hj; [lia|].
  cbn [cents_double_from] in Hall.
  destruct (doubles_exactly (cents k)) eqn:Hk; [|discriminate].
  destruct (decide (j = k)) as [->|Hne]; [exact Hk|].
  apply (IH (k + 1) Hall). lia.
Qed.

(** For a price of a whole number of cents, twice the price is unchanged by
    the rounding to cents. *)
Lemma round2_doubles_cents (k : Z) :
  0 <= k < checked_cents ->
  round2 (cents k * 2) = (cents k * 2)%float.
Proof.
  intros Hk. apply FloatAxioms.Leibniz.eqb_spec.
  apply (cents_double_from_sound (Z.to_nat checked_cents) 0);
    [vm_compute; reflexivity|].
  rewrite Z2Nat.id by (unfold checked_cents; lia). lia.
Qed.

(** C4, as stated, fails in its last clause: the line's [totalPrice] is
    rounded to cents after the multiplication.  [validateProduct] accepts a
    price of 33.333; adding quantity 1 of that product twice to an empty
    cart leaves one line of quantity 2 and unit price 33.333 whose
    [totalPrice] is 66.67, while the unit price times 2 is 66.666. *)
Lemma C4_total_counterexample :
  let p := mkProduct "prod-003" "Metered Plan" None 33.333%float "plan" in
  let once := exec defaultService
                (AddItem sample_ticks "item-1" sample_id (mkAddItemRequest p 1%float))
                empty_cart_world in
  let twice := exec defaultService
                 (AddItem sample_ticks "item-2" sample_id (mkAddItemRequest p 1%float))
                 (snd once) in
  validateProduct p empty_cart_world = (Returned tt, empty_cart_world)
  /\ items_of (heap empty_cart_world)
       (mkCart sample_id 0%nat 0%float 0%float 0%float 0 0 300000 None) = Some []
  /\ exists c1 c2 line,
       fst once = Returned (Some c1)
       /\ fst twice = Returned (Some c2)
       /\ items_of (heap (snd twice)) c2 = Some [line]
       /\ pid line = productId p
       /\ quantity line = 2%float
       /\ unitPrice line = 33.333%float
       /\ totalPrice line = 66.67%float
       /\ (unitPrice line * 2)%float = 66.666%float
       /\ totalPrice line <> (unitPrice line * 2)%float.
Proof.
  intros p once twice.
  split; [reflexivity|]. split; [vm_compute; reflexivity|].
  eexists. eexists. eexists.
  split; [vm_compute; reflexivity|].
  split; [vm_compute; reflexivity|].
  split; [vm_compute; reflexivity|].
  split; [reflexivity|].
  do 4 (split; [vm_compute; reflexivity|]).
  intros H. vm_compute in H. discriminate H.
Qed.

(** C4 (amended): when the cart holds one line for the requested product, with
    quantity q0 and unit price u, a call of [addItem] that returns leaves
    the lines as they were except that line, whose quantity is q0 + q and
    whose [totalPrice] is round2 (u * (q0 + q)); its [unitPrice] is still u
    and its product is the one stored, whatever price the request carries;
    the returned cart is the stored one.  In particular two returning calls
    adding quantity 1 of a product to an empty cart leave a single line of
    quantity 2, unit price u = the product's price and [totalPrice]
    round2 (u * 2), which is u * 2 whenever the rounding leaves u * 2 as it
    is, as it does for every price of a whole number of cents up to
    10485.75. *)
Theorem C4_merge_accumulates :
  (forall (ttl : Z) (self : CartService.t) (tk : Ticks) (newItemId id : string)
          (request : AddItemRequest) (w w' : World) (e : CartEntry)
          (pre post : list CartItem) (item : CartItem) (c' : Cart),
     wired ttl self ->
     carts w !! id = Some e ->
     items_of (heap w) (entry_cart e) = Some (pre ++ item :: post) ->
     Forall (fun it => pid it <> productId (request_product request)) pre ->
     Forall (fun it => pid it <> productId (request_product request)) post ->
     pid item = productId (request_product request) ->
     addItem self tk newItemId id request w = (Returned c', w') ->
     let q' := (quantity item + request_quantity request)%float in
     (maxQty self <? q')%float = false
     /\ items_of (heap w') c'
        = Some (pre ++ mkCartItem (itemId item) (product item) q' (unitPrice item)
                         (round2 (unitPrice item * q')) (addedAt item) :: post)
     /\ exists e', carts w' !! cartId c' = Some e' /\ entry_cart e' = c')
  /\ (forall (ttl : Z) (self : CartService.t) (tk1 tk2 : Ticks)
             (newItemId1 newItemId2 id : string)
             (p : Product) (w w1 w2 : World) (e : CartEntry) (c1 c2 : Cart),
        wired ttl self ->
        carts w !! id = Some e ->
        cartId (entry_cart e) = id ->
        items_of (heap w) (entry_cart e) = Some [] ->
        addItem self tk1 newItemId1 id (mkAddItemRequest p 1%float) w = (Returned c1, w1) ->
        addItem self tk2 newItemId2 id (mkAddItemRequest p 1%float) w1 = (Returned c2, w2) ->
        exists line,
          items_of (heap w2) c2 = Some [line]
          /\ pid line = productId p
          /\ quantity line = 2%float
          /\ unitPrice line = price p
          /\ totalPrice line = round2 (price p * 2)
          /\ (round2 (price p * 2) = (price p * 2)%float ->
              totalPrice line = (price p * 2)%float)
          /\ (forall k, 0 <= k < checked_cents -> price p = cents k ->
              totalPrice line = (price p * 2)%float)).
Proof.
  split.
  - intros ttl self tk newItemId id request w w' e pre post item c'
      Hw He Hits Hpre Hpost Hitem Hrun q'.
    destruct (addItem_merge ttl self tk newItemId id request w w' e pre post item c'
                Hw He Hits Hpre Hpost Hitem Hrun) as (H1 & H2 & _ & H3).
    split; [exact H1|]. split; [exact H2 | exact H3].
  - intros ttl self tk1 tk2 iid1 iid2 id p w w1 w2 e c1 c2 Hw He Hkey Hempty Hrun1 Hrun2.
    destruct (addItem_push ttl self tk1 iid1 id (mkAddItemRequest p 1%float) w w1 e [] c1
                Hw He Hempty (Forall_nil_2 _) Hrun1) as (Hits1 & Hid1 & e1 & He1 & Hc1).
    cbn in Hits1. rewrite Hid1, Hkey in He1. rewrite <- Hc1 in Hits1.
    assert (Hsame : pid (mkCartItem iid1 p 1%float (price p) (round2 (price p * 1))
                           (t_added tk1))
                    = productId (request_product (mkAddItemRequest p 1%float)))
      by reflexivity.
    destruct (addItem_merge ttl self tk2 iid2 id (mkAddItemRequest p 1%float) w1 w2 e1
                [] [] _ c2 Hw He1 Hits1 (Forall_nil_2 _) (Forall_nil_2 _) Hsame Hrun2)
      as (_ & Hits2 & _).
    cbn in Hits2. eexists. split; [exact Hits2|].
    cbn. do 4 (split; [reflexivity|]). split.
    + intros ->. reflexivity.
    + intros k Hk ->. apply (round2_doubles_cents k Hk).
Qed.

Lemma outcome_eta {A : Type} (r : Outcome A * World) (a : A) :
  fst r = Returned a -> r = (Returned a, snd r).
Proof. destruct r as [o w]. cbn. intros ->. reflexivity. Qed.

Lemma C4_merge_accumulates_witness :
  let twice :=
    addItem defaultService sample_ticks "item-2" sample_id
      (mkAddItemRequest plan 1%float) one_line_world in
  exists line,
    items_of (heap (snd twice))
      (mkCart sample_id 0%nat 150%float 13.5%float 163.5%float 0 1002 300000 None)
    = Some [line]
    /\ quantity line = 2%float
    /\ unitPrice line = 75%float
    /\ totalPrice line = 150%float.
Proof.
  intros twice.
  destruct C4_merge_accumulates as [_ Htwice].
  destruct (Htwice 5 defaultService sample_ticks sample_ticks "item-1" "item-2"
              sample_id plan empty_cart_world one_line_world (snd twice)
              (mkCartEntry (mkCart sample_id 0%nat 0%float 0%float 0%float 0 0 300000 None) 0)
              (mkCart sample_id 0%nat 75%float 6.75%float 81.75%float 0 1002 300000 None)
              (mkCart sample_id 0%nat 150%float 13.5%float 163.5%float 0 1002 300000 None))
    as (line & Hline & _ & Hq & Hu & _ & _ & Ht).
  - split; reflexivity.
  - vm_compute. reflexivity.
  - reflexivity.
  - vm_compute. reflexivity.
  - apply outcome_eta. vm_compute. reflexivity.
  - apply outcome_eta. vm_compute. reflexivity.
  - exists line. split; [exact Hline|]. split; [exact Hq|]. split; [exact Hu|].
    rewrite (Ht 7500); [reflexivity | unfold checked_cents; lia | reflexivity].
Defined.

(** ** The invariant of the heap and the store *)

Lemma heap_ok_array_new (h : Heap) (xs : list loc) :
  heap_ok h ->
  (exists its, deref h xs = Some its /\ NoDup (pid <$> its)) ->
  heap_ok (mkHeap (arrays h ++ [xs]) (cells h)).
Proof.
  intros [Harr Hcells] Hxs. split; [|exact Hcells].
  intros a ys. cbn. rewrite lookup_app_Some.
  intros [Hold | [_ Hnew]]; [exact (Harr a ys Hold)|].
  destruct (arrays h) as [|? ?] eqn:E.
  - destruct (a - length (@nil (list loc)))%nat; cbn in Hnew; [|discriminate].
    injection Hnew as <-. exact Hxs.
  - apply list_lookup_singleton_Some in Hnew as [_ <-]. exact Hxs.
Qed.

Lemma heap_ok_array_write (h : Heap) (a : loc) (xs : list loc) :
  heap_ok h ->
  (exists its, deref h xs = Some its /\ NoDup (pid <$> its)) ->
  heap_ok (mkHeap (<[a := xs]> (arrays h)) (cells h)).
Proof.
  intros [Harr Hcells] Hxs. split; [|exact Hcells].
  intros b ys. cbn. rewrite list_lookup_insert_Some.
  intros [(_ & <- & _) | [_ Hold]]; [exact Hxs | exact (Harr b ys Hold)].
Qed.

Lemma heap_ok_item_new (h : Heap) (it : CartItem) :
  heap_ok h -> price_derived it ->
  heap_ok (mkHeap (arrays h) (cells h ++ [it])).
Proof.
  intros [Harr Hcells] Hit. split.
  - intros a xs Ha. destruct (Harr a xs Ha) as (its & Hd & Hnd).
    exists its. split; [|exact Hnd]. apply deref_cells_app, Hd.
  - cbn. apply Forall_app. split; [exact Hcells|]. constructor; [exact Hit | constructor].
Qed.

(** Overwriting an item object by one with the same product keeps the
    product ids of every array. *)
Lemma deref_insert_same_pid (h : Heap) (l : loc) (it it' : CartItem)
    (xs : list loc) (its : list CartItem) :
  cells h !! l = Some it -> pid it' = pid it ->
  Forall2 (fun l' x => cells h !! l' = Some x) xs its ->
  exists its',
    Forall2 (fun l' x => <[l := it']> (cells h) !! l' = Some x) xs its'
    /\ pid <$> its' = pid <$> its.
Proof.
  intros Hl Hp HF. induction HF as [|l' x xs its Hx _ (its' & IH & Hpids)].
  - exists []. split; [constructor | reflexivity].
  - destruct (decide (l' = l)) as [->|Hne].
    + exists (it' :: its'). split.
      * constructor; [|exact IH].
        apply list_lookup_insert_eq. eapply lookup_lt_Some. exact Hl.
      * cbn. rewrite Hpids. f_equal. rewrite Hl in Hx. injection Hx as <-. exact Hp.
    + exists (x :: its'). split.
      * constructor; [|exact IH]. rewrite list_lookup_insert_ne by congruence. exact Hx.
      * cbn. rewrite Hpids. reflexivity.
Qed.

Lemma heap_ok_item_write (h : Heap) (l : loc) (it it' : CartItem) :
  heap_ok h -> cells h !! l = Some it -> pid it' = pid it -> price_derived it' ->
  heap_ok (mkHeap (arrays h) (<[l := it']> (cells h))).
Proof.
  intros [Harr Hcells] Hl Hp Hit'. split.
  - intros a xs Ha. destruct (Harr a xs Ha) as (its & Hd & Hnd).
    apply deref_Forall2 in Hd.
    destruct (deref_insert_same_pid h l it it' xs its Hl Hp Hd) as (its' & HF & Hpids).
    exists its'. split; [apply deref_Forall2; exact HF|]. rewrite Hpids. exact Hnd.
  - cbn. apply Forall_insert; assumption.
Qed.

(** A good world resolves every valid array reference to good lines. *)
Lemma world_ok_items (w : World) (c : Cart) :
  world_ok w -> ref_ok (items c) w ->
  exists its, items_of (heap w) c = Some its /\ cart_items_ok its.
Proof.
  intros [[Harr Hcells] _] [xs Hxs].
  destruct (Harr _ _ Hxs) as (its & Hd & Hnd).
  exists its. split; [apply items_of_Some; eauto|]. split; [exact Hnd|].
  apply deref_Forall2 in Hd. apply Forall_lookup. intros i x Hi.
  destruct (Forall2_lookup_r _ _ _ _ _ Hd Hi) as (l & _ & Hl).
  exact (proj1 (Forall_lookup _ _) Hcells l x Hl).
Qed.

Lemma world_ok_carts_delete (w : World) (id : string) :
  world_ok w -> world_ok (mkWorld (delete id (carts w)) (heap w)).
Proof.
  intros [Hh Hc]. split; [exact Hh|]. intros id' e. cbn.
  rewrite lookup_delete_Some. intros [_ He]. exact (Hc id' e He).
Qed.

Lemma world_ok_carts_set (w : World) (id : string) (e : CartEntry) :
  world_ok w -> ref_ok (items (entry_cart e)) w ->
  world_ok (mkWorld (<[id := e]> (carts w)) (heap w)).
Proof.
  intros [Hh Hc] Hr. split; [exact Hh|]. intros id' e'. cbn.
  rewrite lookup_insert_Some. intros [[_ <-] | [_ He]]; [exact Hr | exact (Hc id' e' He)].
Qed.

(** Heap updates that keep the number of arrays, or add one, keep every
    array reference valid. *)
Lemma world_ok_heap (w : World) (h : Heap) :
  heap_ok h -> world_ok w ->
  (forall a, is_Some (arrays (heap w) !! a) -> is_Some (arrays h !! a)) ->
  world_ok (mkWorld (carts w) h).
Proof.
  intros Hh [_ Hc] Hmono. split; [exact Hh|].
  intros id e He. apply Hmono. exact (Hc id e He).
Qed.

(** ** Rules for [ensures] *)

Lemma ensures_bind {A B : Type} (P : World -> Prop) (m : M A) (Q : A -> World -> Prop)
    (k : A -> M B) (R : B -> World -> Prop) :
  ensures P m Q -> (forall a, ensures (Q a) (k a) R) -> ensures P (bind m k) R.
Proof.
  intros Hm Hk w Hok HP. unfold bind.
  destruct (Hm w Hok HP) as [Hok1 HQ].
  destruct (m w) as [[a|err|] w1]; cbn in *.
  - apply (Hk a w1 Hok1). apply HQ. reflexivity.
  - split; [exact Hok1 | discriminate].
  - split; [exact Hok1 | discriminate].
Qed.

Lemma ensures_conseq {A : Type} (P P' : World -> Prop) (m : M A)
    (Q Q' : A -> World -> Prop) :
  ensures P m Q ->
  (forall w, world_ok w -> P' w -> P w) ->
  (forall a w, world_ok w -> Q a w -> Q' a w) ->
  ensures P' m Q'.
Proof.
  intros Hm HP HQ w Hok HP'.
  destruct (Hm w Hok (HP w Hok HP')) as [Hok1 H1].
  split; [exact Hok1|]. intros a Ha. apply HQ; [exact Hok1 | exact (H1 a Ha)].
Qed.

(** A computation that never changes the world keeps whatever held. *)
Lemma ensures_frame {A : Type} (P : World -> Prop) (m : M A) :
  (forall w, snd (m w) = w) -> ensures P m (fun _ => P).
Proof.
  intros Hsame w Hok HP. rewrite Hsame. split; [exact Hok|]. intros _ _. exact HP.
Qed.

Lemma ensures_throw {A : Type} (P : World -> Prop) (err : DomainError)
    (Q : A -> World -> Prop) :
  ensures P (throw err) Q.
Proof. intros w Hok _. cbn. split; [exact Hok | discriminate]. Qed.

Lemma ensures_fault {A : Type} (P : World -> Prop) (Q : A -> World -> Prop) :
  ensures P (fun w => (@Fault A, w)) Q.
Proof. intros w Hok _. cbn. split; [exact Hok | discriminate]. Qed.

Lemma ensures_validateCartId (P : World -> Prop) (id : string) :
  ensures P (validateCartId id) (fun _ => P).
Proof.
  apply ensures_frame. intros w.
  destruct (validateCartId_verdict id w) as [[_ ->] | [_ ->]]; reflexivity.
Qed.

Lemma ensures_validateQuantity (P : World -> Prop) (self : CartService.t) (q : float) :
  ensures P (validateQuantity self q) (fun _ => P).
Proof.
  apply ensures_frame. intros w.
  destruct (validateQuantity_verdict self q w) as [[_ ->] | [r ->]]; reflexivity.
Qed.

Lemma ensures_validateProduct (P : World -> Prop) (p : Product) :
  ensures P (validateProduct p) (fun _ => P).
Proof.
  apply ensures_frame. intros w.
  destruct (validateProduct_verdict p w) as [-> | [r ->]]; reflexivity.
Qed.

Lemma ensures_array_read (P : World -> Prop) (a : loc) :
  ensures P (array_read a)
    (fun xs w => arrays (heap w) !! a = Some xs /\ P w).
Proof.
  intros w Hok HP. unfold array_read.
  destruct (arrays (heap w) !! a) as [xs|] eqn:E; cbn.
  - split; [exact Hok|]. intros ? [= <-]. split; assumption.
  - split; [exact Hok | discriminate].
Qed.

Lemma ensures_items_read (P : World -> Prop) (c : Cart) :
  ensures P (items_read c)
    (fun its w => items_of (heap w) c = Some its /\ P w).
Proof.
  intros w Hok HP. unfold items_read.
  destruct (items_of (heap w) c) as [its|] eqn:E; cbn.
  - split; [exact Hok|]. intros ? [= <-]. split; assumption.
  - split; [exact Hok | discriminate].
Qed.

Lemma ensures_item_read (P : World -> Prop) (l : loc) :
  ensures P (item_read l)
    (fun it w => cells (heap w) !! l = Some it /\ P w).
Proof.
  intros w Hok HP. unfold item_read.
  destruct (cells (heap w) !! l) as [it|] eqn:E; cbn.
  - split; [exact Hok|]. intros ? [= <-]. split; assumption.
  - split; [exact Hok | discriminate].
Qed.

Lemma ensures_item_write (a : loc) (l : loc) (it it' : CartItem) :
  pid it' = pid it -> price_derived it' ->
  ensures (fun w => cells (heap w) !! l = Some it /\ ref_ok a w)
    (item_write l it') (fun _ w => ref_ok a w).
Proof.
  intros Hp Hd w Hok [Hl Ha]. unfold item_write. rewrite Hl. cbn.
  split; [|intros _ _; exact Ha].
  apply world_ok_heap; [|exact Hok|trivial].
  apply (heap_ok_item_write _ _ it); [apply Hok | assumption..].
Qed.

Lemma ensures_array_write (a : loc) (xs : list loc) :
  ensures (fun w => exists its, deref (heap w) xs = Some its /\ NoDup (pid <$> its))
    (array_write a xs) (fun _ w => ref_ok a w).
Proof.
  intros w Hok Hxs. unfold array_write.
  destruct (arrays (heap w) !! a) as [ys|] eqn:E; cbn; [|split; [exact Hok | discriminate]].
  assert (Hlt : (a < length (arrays (heap w)))%nat) by (eapply lookup_lt_Some; exact E).
  split.
  - apply world_ok_heap; [|exact Hok|].
    + apply heap_ok_array_write; [apply Hok | exact Hxs].
    + intros b [zs Hb]. cbn. apply lookup_lt_is_Some. rewrite length_insert.
      eapply lookup_lt_Some. exact Hb.
  - intros _ _. unfold ref_ok. cbn. apply lookup_lt_is_Some.
    rewrite length_insert. exact Hlt.
Qed.

Lemma ensures_array_new_empty (P : World -> Prop) :
  ensures P (array_new []) (fun a w => ref_ok a w).
Proof.
  intros w Hok _. unfold array_new. cbn. split.
  - apply world_ok_heap; [|exact Hok|].
    + apply heap_ok_array_new; [apply Hok|].
      exists []. split; [reflexivity | constructor].
    + intros b [zs Hb]. cbn. apply lookup_lt_is_Some. rewrite length_app.
      apply lookup_lt_Some in Hb. lia.
  - intros ? [= <-]. unfold ref_ok. cbn. apply lookup_lt_is_Some.
    rewrite length_app. cbn. lia.
Qed.

Lemma ensures_store_getCart (ttl now : Z) (id : string) :
  ensures (fun _ => True) (SalesforceCartClientMock.getCart ttl now id)
    (fun found w => forall c, found = Some c -> ref_ok (items c) w).
Proof.
  intros w Hok _. run_store. cbn.
  destruct (carts w !! id) as [e|] eqn:E; cbn.
  - destruct (isExpired ttl now e); cbn.
    + split; [apply world_ok_carts_delete, Hok | discriminate].
    + split; [exact Hok|]. intros ? [= <-] c [= <-]. exact (proj2 Hok id e E).
  - split; [exact Hok|]. intros ? [= <-] c. discriminate.
Qed.

Lemma ensures_calculatePricing (now : Z) (c : Cart) :
  ensures (ref_ok (items c)) (calculatePricing now c)
    (fun priced w => ref_ok (items priced) w).
Proof.
  unfold calculatePricing.
  eapply ensures_bind; [apply ensures_items_read|]. intros its.
  intros w Hok [_ Hr]. cbn. split; [exact Hok|]. intros ? [= <-]. exact Hr.
Qed.

Lemma ensures_updateCart (ttl now : Z) (c : Cart) :
  ensures (ref_ok (items c)) (updateCart ttl now c)
    (fun c' w => ref_ok (items c') w).
Proof.
  intros w Hok Hr. run_store. cbn.
  destruct (carts w !! cartId c) as [e|] eqn:E; cbn; [|split; [exact Hok | discriminate]].
  destruct (isExpired ttl now e); cbn.
  - split; [apply world_ok_carts_delete, Hok | discriminate].
  - split; [apply world_ok_carts_set; [exact Hok | exact Hr]|].
    intros ? [= <-]. exact Hr.
Qed.

Lemma ensures_store_createCart (c : Cart) :
  ensures (ref_ok (items c)) (SalesforceCartClientMock.createCart c)
    (fun c' w => ref_ok (items c') w).
Proof.
  intros w Hok Hr. run_store. cbn.
  split; [apply world_ok_carts_set; [exact Hok | exact Hr]|].
  intros ? [= <-]. exact Hr.
Qed.

(** The common tail of the mutating calls: price the cart and write it
    back. *)
Lemma ensures_price_and_store (ttl : Z) (tk : Ticks) (c : Cart) :
  ensures (ref_ok (items c))
    (bind (calculatePricing (t_priced tk) c)
       (fun priced => updateCart ttl (t_write tk) priced))
    (fun c' w => ref_ok (items c') w).
Proof.
  eapply ensures_bind; [apply ensures_calculatePricing|].
  intros priced. apply ensures_updateCart.
Qed.

Lemma ensures_item_new (a : loc) (arr : list loc) (its : list CartItem)
    (fresh : CartItem) :
  price_derived fresh ->
  ensures (fun w => arrays (heap w) !! a = Some arr /\ deref (heap w) arr = Some its)
    (item_new fresh)
    (fun l w => deref (heap w) (arr ++ [l]) = Some (its ++ [fresh])).
Proof.
  intros Hd w Hok [Harr Hderef]. unfold item_new. cbn. split.
  - apply world_ok_heap; [|exact Hok|trivial].
    apply heap_ok_item_new; [apply Hok | exact Hd].
  - intros ? [= <-]. apply deref_Forall2. cbn. apply Forall2_app.
    + apply (proj1 (deref_Forall2 _ _ _) (deref_cells_app (heap w) [fresh] arr its Hderef)).
    + constructor; [|constructor]. apply list_lookup_middle. reflexivity.
Qed.

Lemma pid_fresh_not_in (p : Product) (its : list CartItem) (fresh : CartItem) :
  pid fresh = productId p ->
  findIndex (fun item => String.eqb (productId (product item)) (productId p)) its = None ->
  NoDup (pid <$> its) -> NoDup (pid <$> (its ++ [fresh])).
Proof.
  intros Hf Hnone Hnd. rewrite fmap_app. apply (proj2 (list.NoDup_app _ _)).
  split; [exact Hnd|]. split; [|cbn; apply NoDup_singleton].
  intros x Hx. cbn. rewrite list_elem_of_singleton. intros ->.
  apply list_elem_of_fmap in Hx as (it & Hpid & Hin).
  apply findIndex_None in Hnone.
  pose proof (proj1 (list.Forall_forall _ _) Hnone it Hin) as Hneq. cbn in Hneq.
  apply String.eqb_neq in Hneq. apply Hneq. unfold pid in *. congruence.
Qed.

(** In a good world the lines read through a cart are those of its array
    and have distinct products. *)
Lemma world_ok_lines (w : World) (a : loc) (arr : list loc) (c : Cart)
    (its : list CartItem) :
  world_ok w -> items c = a ->
  arrays (heap w) !! a = Some arr -> items_of (heap w) c = Some its ->
  deref (heap w) arr = Some its /\ NoDup (pid <$> its).
Proof.
  intros [[Harrs _] _] <- Harr Hits.
  apply items_of_Some in Hits as (arr' & Harr' & Hd).
  rewrite Harr in Harr'. injection Harr' as <-.
  split; [exact Hd|].
  destruct (Harrs _ _ Harr) as (its' & Hd' & Hnd). congruence.
Qed.

Lemma initial_ok : world_ok initial.
Proof.
  split; [split|].
  - intros a xs. cbn. rewrite lookup_nil. discriminate.
  - constructor.
  - intros id e. cbn. rewrite lookup_empty. discriminate.
Qed.

(** ** Every call of the engine keeps the invariant *)

Section Wired.

(** A service wired as the composition root wires it. *)
Variables (ttl : Z) (self : CartService.t).
Hypothesis Hw : wired ttl self.

Lemma ensures_service_getCart (now : Z) (id : string) :
  ensures (fun _ => True) (CartService.getCart self now id)
    (fun c w => ref_ok (items c) w).
Proof.
  unfold CartService.getCart.
  rewrite (wired_getCart ttl self Hw).
  eapply ensures_bind; [apply ensures_validateCartId|]. intros ?.
  eapply ensures_bind; [apply ensures_store_getCart|]. intros [c|].
  - intros w Hok H. cbn. split; [exact Hok|]. intros c' [= Hc]. subst c'.
    apply H. reflexivity.
  - apply ensures_throw.
Qed.

Lemma ensures_addItem (tk : Ticks) (newItemId id : string)
    (request : AddItemRequest) :
  ensures (fun _ => True) (addItem self tk newItemId id request)
    (fun c w => ref_ok (items c) w).
Proof.
  unfold addItem.
  rewrite (wired_updateCart ttl self Hw), (wired_calculatePricing ttl self Hw).
  eapply ensures_bind; [apply ensures_validateCartId|]; intros ?.
  eapply ensures_bind; [apply ensures_validateQuantity|]; intros ?.
  eapply ensures_bind; [apply ensures_validateProduct|]; intros ?.
  eapply ensures_bind; [apply ensures_service_getCart|]; intros cart.
  eapply ensures_bind; [apply ensures_array_read|]; intros arr.
  eapply ensures_bind; [apply ensures_items_read|]; intros its.
  eapply ensures_bind; [|intros ?; apply (ensures_price_and_store ttl)].
  destruct (findIndex _ its) as [idx|] eqn:Hfind.
  - destruct (arr !! idx) as [l|] eqn:Hl; [|apply ensures_fault].
    eapply ensures_bind; [apply ensures_item_read|]; intros item.
    destruct (maxQty self <? _)%float; [apply ensures_throw|].
    eapply ensures_conseq.
    + apply (ensures_item_write (items cart) l item); reflexivity.
    + intros w _ (Hcell & _ & _ & Href). split; assumption.
    + intros ? w _ Href. exact Href.
  - set (fresh := mkCartItem _ _ _ _ _ _).
    intros w Hok (Hits & Harr & Href).
    destruct (world_ok_lines w _ arr cart its Hok eq_refl Harr Hits) as [Hderef Hnd].
    assert (Hnew : NoDup (pid <$> (its ++ [fresh])))
      by (apply (pid_fresh_not_in (request_product request)); [reflexivity|assumption..]).
    assert (Hfresh : price_derived fresh) by reflexivity.
    assert (Hens : ensures
                     (fun w => arrays (heap w) !! items cart = Some arr
                               /\ deref (heap w) arr = Some its)
                     (bind (item_new fresh)
                        (fun l => array_write (items cart) (arr ++ [l])))
                     (fun _ w' => ref_ok (items cart) w'));
      [|exact (Hens w Hok (conj Harr Hderef))].
    eapply ensures_bind; [apply (ensures_item_new (items cart) arr its fresh Hfresh)|].
    intros l. eapply ensures_conseq; [apply ensures_array_write| |].
    + intros w' _ Hd. exists (its ++ [fresh]). split; assumption.
    + intros ? w' _ H. exact H.
Qed.


Lemma ensures_removeItem (tk : Ticks) (id targetItemId : string) :
  ensures (fun _ => True) (removeItem self tk id targetItemId)
    (fun c w => ref_ok (items c) w).
Proof.
  unfold removeItem.
  rewrite (wired_updateCart ttl self Hw), (wired_calculatePricing ttl self Hw).
  eapply ensures_bind; [apply ensures_validateCartId|]; intros ?.
  eapply ensures_bind; [apply ensures_service_getCart|]; intros cart.
  eapply ensures_bind; [apply ensures_array_read|]; intros arr.
  eapply ensures_bind; [apply ensures_items_read|]; intros its.
  eapply ensures_bind; [|intros ?; apply (ensures_price_and_store ttl)].
  destruct (findIndex _ its) as [idx|]; [|apply ensures_throw].
  eapply ensures_conseq; [apply ensures_array_write| |].
  - intros w Hok (Hits & Harr & _).
    destruct (world_ok_lines w _ arr cart its Hok eq_refl Harr Hits) as [Hderef Hnd].
    exists (delete idx its). split.
    + apply deref_Forall2, Forall2_delete, deref_Forall2, Hderef.
    + rewrite list_fmap_delete. eapply sublist_NoDup; [exact Hnd | apply sublist_delete].
  - intros ? w _ H. exact H.
Qed.

Lemma ensures_updateItemQuantity (tk : Ticks) (id targetItemId : string)
    (q : float) :
  ensures (fun _ => True) (updateItemQuantity self tk id targetItemId q)
    (fun c w => ref_ok (items c) w).
Proof.
  unfold updateItemQuantity.
  rewrite (wired_updateCart ttl self Hw), (wired_calculatePricing ttl self Hw).
  eapply ensures_bind; [apply ensures_validateCartId|]; intros ?.
  eapply ensures_bind; [apply ensures_validateQuantity|]; intros ?.
  eapply ensures_bind; [apply ensures_service_getCart|]; intros cart.
  eapply ensures_bind; [apply ensures_array_read|]; intros arr.
  eapply ensures_bind; [apply ensures_items_read|]; intros its.
  eapply ensures_bind; [|intros ?; apply (ensures_price_and_store ttl)].
  destruct (findIndex _ its) as [idx|]; [|apply ensures_throw].
  destruct (arr !! idx) as [l|]; [|apply ensures_fault].
  eapply ensures_bind; [apply ensures_item_read|]; intros item.
  eapply ensures_conseq.
  - apply (ensures_item_write (items cart) l item); reflexivity.
  - intros w _ (Hcell & _ & _ & Href). split; assumption.
  - intros ? w _ Href. exact Href.
Qed.

Lemma ensures_clearCart (tk : Ticks) (id : string) :
  ensures (fun _ => True) (clearCart self tk id) (fun c w => ref_ok (items c) w).
Proof.
  unfold clearCart.
  rewrite (wired_updateCart ttl self Hw), (wired_calculatePricing ttl self Hw).
  eapply ensures_bind; [apply ensures_validateCartId|]; intros ?.
  eapply ensures_bind; [apply ensures_service_getCart|]; intros cart.
  eapply ensures_bind; [apply ensures_array_new_empty|]; intros arr.
  apply (ensures_price_and_store ttl tk
           (mkCart (cartId cart) arr (subtotal cart) (tax cart) (total cart)
              (createdAt cart) (updatedAt cart) (expiresAt cart) (metadata cart))).
Qed.

Lemma ensures_createCart (now : Z) (newCartId : string)
    (meta : option CartMetadata) :
  ensures (fun _ => True) (CartService.createCart self now newCartId meta)
    (fun c w => ref_ok (items c) w).
Proof.
  unfold CartService.createCart.
  rewrite (wired_createCart ttl self Hw).
  eapply ensures_bind; [apply ensures_array_new_empty|]; intros arr.
  apply (ensures_store_createCart
           (mkCart newCartId arr 0%float 0%float 0%float now now
              (now + ttlMinutes self * 60 * 1000) meta)).
Qed.

Lemma ensures_deleteCart (id : string) :
  ensures (fun _ => True) (CartService.deleteCart self id) (fun _ _ => True).
Proof.
  unfold CartService.deleteCart.
  rewrite (wired_deleteCart ttl self Hw).
  eapply ensures_bind; [apply ensures_validateCartId|]; intros ?.
  intros w Hok _. cbn. split; [apply world_ok_carts_delete, Hok | trivial].
Qed.

Lemma exec_ok (op : EngineOp) (w : World) :
  world_ok w ->
  world_ok (snd (exec self op w))
  /\ forall c, fst (exec self op w) = Returned (Some c) ->
               ref_ok (items c) (snd (exec self op w)).
Proof.
  intros Hok.
  assert (Hcart : forall m : M Cart,
             ensures (fun _ => True) m (fun c w' => ref_ok (items c) w') ->
             let r := m w in
             world_ok (snd r)
             /\ forall c, match fst r with
                          | Returned c0 => Returned (Some c0)
                          | Thrown err => Thrown err
                          | Fault => Fault
                          end = Returned (Some c) -> ref_ok (items c) (snd r)).
  { intros m Hm r. destruct (Hm w Hok I) as [Hok' Hret]. fold r in Hok', Hret.
    split; [exact Hok'|]. intros c Hc. apply Hret.
    destruct (fst r); [injection Hc as ->; reflexivity | discriminate..]. }
  destruct op; cbn [exec].
  - apply Hcart, ensures_createCart.
  - apply Hcart, ensures_service_getCart.
  - apply Hcart, ensures_addItem.
  - apply Hcart, ensures_removeItem.
  - apply Hcart, ensures_updateItemQuantity.
  - apply Hcart, ensures_clearCart.
  - destruct (ensures_deleteCart id w Hok I) as [Hok' _].
    destruct (CartService.deleteCart self id w) as [[u|err|] w']; cbn in *;
      (split; [exact Hok' | discriminate]).
Qed.

Lemma reachable_ok (w : World) :
  reachable self w -> world_ok w.
Proof.
  induction 1 as [|op w _ IH]; [apply initial_ok|].
  apply exec_ok, IH.
Qed.

End Wired.

(** C7: in every world the engine's operations lead to, each stored cart
    has readable lines, no two of them for the same product id, and each
    line's [totalPrice] is round2 of its [unitPrice] times its quantity; the
    same holds for the cart any engine call returns from such a world. *)
Theorem C7_reachable_carts_are_consistent (ttl : Z) (self : CartService.t) (w : World) :
  wired ttl self ->
  reachable self w ->
  (forall id e, carts w !! id = Some e ->
     exists its, items_of (heap w) (entry_cart e) = Some its
                 /\ NoDup (pid <$> its)
                 /\ Forall (fun it => totalPrice it = round2 (unitPrice it * quantity it)) its)
  /\ (forall op c, fst (exec self op w) = Returned (Some c) ->
        exists its, items_of (heap (snd (exec self op w))) c = Some its
                    /\ NoDup (pid <$> its)
                    /\ Forall (fun it => totalPrice it = round2 (unitPrice it * quantity it))
                         its).
Proof.
  intros Hw Hreach. pose proof (reachable_ok ttl self Hw w Hreach) as Hok. split.
  - intros id e He.
    destruct (world_ok_items w (entry_cart e) Hok (proj2 Hok id e He))
      as (its & Hits & Hnd & Hpr).
    exists its. split; [exact Hits|]. split; [exact Hnd | exact Hpr].
  - intros op c Hc. destruct (exec_ok ttl self Hw op w Hok) as [Hok' Href].
    destruct (world_ok_items _ c Hok' (Href c Hc)) as (its & Hits & Hnd & Hpr).
    exists its. split; [exact Hits|]. split; [exact Hnd | exact Hpr].
Qed.

Lemma C7_reachable_carts_are_consistent_witness :
  exists its,
    items_of (heap one_line_world)
      (mkCart sample_id 0%nat 75%float 6.75%float 81.75%float 0 1002 300000 None)
    = Some its
    /\ NoDup (pid <$> its)
    /\ Forall (fun it => totalPrice it = round2 (unitPrice it * quantity it)) its.
Proof.
  assert (Hreach : reachable defaultService one_line_world).
  { exact (reachable_exec defaultService
             (AddItem sample_ticks "item-1" sample_id (mkAddItemRequest plan 1%float)) _
             (reachable_exec defaultService (CreateCart 0 sample_id None) _
                (reachable_initial defaultService))). }
  assert (Hstored :
            carts one_line_world !! sample_id
            = Some (mkCartEntry
                      (mkCart sample_id 0%nat 75%float 6.75%float 81.75%float
                         0 1002 300000 None) 0))
    by (vm_compute; reflexivity).
  destruct (C7_reachable_carts_are_consistent 5 defaultService one_line_world
              ltac:(split; reflexivity) Hreach)
    as [Hcarts _].
  exact (Hcarts sample_id _ Hstored).
Defined.

(** ** What the store hands out *)

(** C9 fails on the source: [getCart] copies the top-level cart object
    only.  In the world with one stored line of quantity 1, a caller that
    sets [items[0].quantity] to 50 on the cart it got from Get, or empties
    that cart's [items] array, and never calls Update, changes what the next
    Get of the same id shows: the store's map is untouched, yet the line
    read through the second cart has quantity 50, respectively is gone. *)
Theorem C9_get_shares_items_with_the_store :
  let w := one_line_world in
  exists c,
    SalesforceCartClientMock.getCart 5 2000 sample_id w = (Returned (Some c), w)
    /\ quantities_of (heap w) c = Some [1%float]
    /\ (let w' := snd (caller_set_quantity c 0 50%float w) in
        carts w' = carts w
        /\ exists c',
             SalesforceCartClientMock.getCart 5 2001 sample_id w' = (Returned (Some c'), w')
             /\ quantities_of (heap w') c' = Some [50%float])
    /\ (let w' := snd (caller_truncate_items c w) in
        carts w' = carts w
        /\ exists c',
             SalesforceCartClientMock.getCart 5 2001 sample_id w' = (Returned (Some c'), w')
             /\ items_of (heap w') c' = Some []).
Proof.
  intros w.
  exists (mkCart sample_id 0%nat 75%float 6.75%float 81.75%float 0 1002 300000 None).
  split; [vm_compute; reflexivity|]. split; [vm_compute; reflexivity|]. split.
  - split; [reflexivity|]. eexists. split; vm_compute; reflexivity.
  - split; [reflexivity|]. eexists. split; vm_compute; reflexivity.
Qed.

(** * Further properties of the code *)

(** ** The session store on its own *)

(** X1: [createCart] puts the cart under its own id, replacing whatever entry
    was there and taking the cart's [createdAt] as the new anchor; no other
    entry and nothing of the heap changes.  A Get for the id then returns
    the cart exactly while the clock has not passed that anchor plus the
    TTL. *)
Theorem store_createCart_replaces (ttl now : Z) (c : Cart) (w : World) :
  exists w',
    Store.createCart c w = (Returned c, w')
    /\ carts w' !! cartId c = Some (mkCartEntry c (createdAt c))
    /\ (forall id, id <> cartId c -> carts w' !! id = carts w !! id)
    /\ heap w' = heap w
    /\ (fst (Store.getCart ttl now (cartId c) w') = Returned (Some c)
        <-> now <= createdAt c + ttl * 60 * 1000).
Proof.
  eexists. split; [reflexivity|]. cbn.
  split; [apply lookup_insert_eq|].
  split; [intros id Hne; apply lookup_insert_ne; congruence|].
  split; [reflexivity|].
  run_store. cbn. rewrite lookup_insert_eq. unfold Store.isExpired. cbn.
  destruct (createdAt c + ttl * 60 * 1000 <? now) eqn:E; cbn.
  - apply Z.ltb_lt in E. split; [discriminate | lia].
  - apply Z.ltb_ge in E. split; [intros _; exact E | reflexivity].
Qed.

(** X2: [updateCart] has three outcomes.  Without an entry for the cart's id it
    throws [ResourceNotFoundError] and changes nothing.  With an expired
    entry it throws [CartExpiredError] and deletes the entry: the cart it
    was given is not stored.  Otherwise it returns the cart and stores it
    under the entry's old anchor, so that a later Get returns this cart as
    long as the old deadline allows.  In every case the other entries and
    the heap are untouched. *)
Theorem store_updateCart_outcomes (ttl now : Z) (c : Cart) (w : World) :
  let w' := snd (Store.updateCart ttl now c w) in
  match carts w !! cartId c with
  | None =>
      Store.updateCart ttl now c w
      = (Thrown (ResourceNotFoundError "Cart" (cartId c)), w)
  | Some e =>
      if Store.isExpired ttl now e then
        fst (Store.updateCart ttl now c w) = Thrown (CartExpiredError (cartId c))
        /\ carts w' !! cartId c = None
      else
        fst (Store.updateCart ttl now c w) = Returned c
        /\ carts w' !! cartId c = Some (mkCartEntry c (entry_createdAt e))
        /\ forall later, later <= entry_createdAt e + ttl * 60 * 1000 ->
             Store.getCart ttl later (cartId c) w' = (Returned (Some c), w')
  end
  /\ (forall id, id <> cartId c -> carts w' !! id = carts w !! id)
  /\ heap w' = heap w.
Proof.
  intros w'. unfold w'. clear w'.
  destruct (carts w !! cartId c) as [e|] eqn:He.
  - destruct (Store.isExpired ttl now e) eqn:X.
    + run_store. cbn. rewrite He, X. cbn.
      split; [split; [reflexivity | apply lookup_delete_eq]|].
      split; [intros id Hne; apply lookup_delete_ne; congruence | reflexivity].
    + run_store. cbn. rewrite He, X. cbn.
      split; [split; [reflexivity|split; [apply lookup_insert_eq|]]|].
      * intros later Hlater. rewrite lookup_insert_eq.
        unfold Store.isExpired. cbn.
        rewrite (proj2 (Z.ltb_ge _ _) Hlater). reflexivity.
      * split; [intros id Hne; apply lookup_insert_ne; congruence | reflexivity].
  - run_store. cbn. rewrite He. cbn.
    split; [reflexivity|]. split; reflexivity.
Qed.

(** X3: Neither [getCart] nor [deleteCart] touches the heap or the entry of
    another id; [deleteCart] leaves no entry for its id, so that the next
    Get answers null, and apart from evicting an expired entry [getCart]
    changes nothing. *)
Theorem store_get_delete_frame (ttl now : Z) (id : string) (w : World) :
  let wg := snd (Store.getCart ttl now id w) in
  let wd := snd (Store.deleteCart id w) in
  (forall id', id' <> id -> carts wg !! id' = carts w !! id'
                           /\ carts wd !! id' = carts w !! id')
  /\ heap wg = heap w /\ heap wd = heap w
  /\ (forall c, fst (Store.getCart ttl now id w) = Returned c -> wg = w)
  /\ (forall later, Store.getCart ttl later id wd = (Returned None, wd)).
Proof.
  intros wg wd. unfold wg, wd. clear wg wd. run_store. cbn.
  destruct (carts w !! id) as [e|] eqn:He; cbn;
    [destruct (Store.isExpired ttl now e) eqn:X; cbn|].
  all: repeat split; try reflexivity; try discriminate.
  all: try (rewrite lookup_delete_ne by congruence; reflexivity).
  all: try (intros later; rewrite lookup_delete_eq; reflexivity).
Qed.

Lemma lookup_fold_delete {A : Type} (ids : list string) :
  forall (m : gmap string A) (id : string),
    fold_left (fun m' i => delete i m') ids m !! id
    = if decide (id ∈ ids) then None else m !! id.
Proof.
  induction ids as [|i ids IH]; intros m id; cbn.
  - destruct (decide (id ∈ [])) as [Hin|_]; [|reflexivity].
    apply elem_of_nil in Hin. destruct Hin.
  - rewrite IH. destruct (decide (id ∈ ids)) as [Hin|Hnin].
    + rewrite decide_True by (right; exact Hin). reflexivity.
    + destruct (decide (id = i)) as [->|Hne].
      * rewrite decide_True by left. apply lookup_delete_eq.
      * rewrite decide_False by (rewrite elem_of_cons; tauto).
        apply lookup_delete_ne. congruence.
Qed.

Lemma expiredCartIds_spec (ttl : Z) (now : string -> Z) (w : World) (id : string) :
  id ∈ Store.expiredCartIds ttl now w
  <-> exists e, carts w !! id = Some e /\ Store.isExpired ttl (now id) e = true.
Proof.
  unfold Store.expiredCartIds. rewrite list_elem_of_fmap. split.
  - intros ([id' e] & -> & Hin). apply list_elem_of_filter in Hin as [Hx Hin].
    apply elem_of_map_to_list in Hin. exists e. split; assumption.
  - intros (e & He & Hx). exists (id, e). split; [reflexivity|].
    apply list_elem_of_filter. split; [exact Hx|].
    apply elem_of_map_to_list. exact He.
Qed.

Lemma expiredCartIds_NoDup (ttl : Z) (now : string -> Z) (w : World) :
  NoDup (Store.expiredCartIds ttl now w).
Proof.
  unfold Store.expiredCartIds.
  eapply (NoDup_fmap_fst _); [|apply list.NoDup_filter, NoDup_map_to_list].
  intros id e1 e2 H1 H2.
  apply list_elem_of_filter in H1 as [_ H1]. apply list_elem_of_filter in H2 as [_ H2].
  apply elem_of_map_to_list in H1. apply elem_of_map_to_list in H2. congruence.
Qed.

Lemma size_fold_delete {A : Type} (ids : list string) :
  forall (m : gmap string A),
    NoDup ids -> (forall i, i ∈ ids -> is_Some (m !! i)) ->
    (size (fold_left (fun m' i => delete i m') ids m) + length ids = size m)%nat.
Proof.
  induction ids as [|i ids IH]; intros m Hnd Hin; cbn; [lia|].
  apply list.NoDup_cons in Hnd as [Hi Hnd].
  destruct (Hin i ltac:(left)) as [x Hx].
  assert (Hrest : forall j, j ∈ ids -> is_Some (delete i m !! j)).
  { intros j Hj. rewrite lookup_delete_ne by (intros ->; contradiction).
    apply Hin. right. exact Hj. }
  pose proof (IH (delete i m) Hnd Hrest) as Hsz.
  rewrite map_size_delete_Some in Hsz by eauto.
  assert (size m <> 0%nat) by (apply map_size_ne_0_lookup; eauto). lia.
Qed.

(** X4: The sweep [cleanupExpiredCarts] removes exactly the entries that are
    expired at the clock reading taken for them and leaves every other
    entry, and the heap, as they were; the number of entries goes down by
    the number of ids it collected; afterwards a Get for an id at the
    reading taken for it does not throw, and a second sweep with the same
    readings changes nothing. *)
Theorem store_cleanup_removes_the_expired (ttl : Z) (now : string -> Z) (w : World) :
  let w' := snd (Store.cleanupExpiredCarts ttl now w) in
  fst (Store.cleanupExpiredCarts ttl now w) = Returned tt
  /\ (forall id,
        carts w' !! id
        = match carts w !! id with
          | Some e => if Store.isExpired ttl (now id) e then None else Some e
          | None => None
          end)
  /\ heap w' = heap w
  /\ (size (carts w') + length (Store.expiredCartIds ttl now w) = size (carts w))%nat
  /\ (forall id, Store.getCart ttl (now id) id w'
                 = (Returned (entry_cart <$> carts w' !! id), w'))
  /\ snd (Store.cleanupExpiredCarts ttl now w') = w'.
Proof.
  intros w'.
  assert (Hlook : forall id,
             carts w' !! id
             = match carts w !! id with
               | Some e => if Store.isExpired ttl (now id) e then None else Some e
               | None => None
               end).
  { intros id. unfold w'. cbn. rewrite lookup_fold_delete.
    destruct (decide (id ∈ Store.expiredCartIds ttl now w)) as [Hin|Hnin].
    - apply expiredCartIds_spec in Hin as (e & -> & ->). reflexivity.
    - destruct (carts w !! id) as [e|] eqn:He; [|reflexivity].
      destruct (Store.isExpired ttl (now id) e) eqn:X; [|reflexivity].
      exfalso. apply Hnin. apply expiredCartIds_spec. eauto. }
  assert (Hlive : forall id e, carts w' !! id = Some e ->
                               Store.isExpired ttl (now id) e = false).
  { intros id e. rewrite Hlook. destruct (carts w !! id) as [e0|]; [|discriminate].
    destruct (Store.isExpired ttl (now id) e0) eqn:X; [discriminate|]. congruence. }
  split; [reflexivity|]. split; [exact Hlook|]. split; [reflexivity|]. split; [|split].
  - unfold w'. cbn. apply size_fold_delete; [apply expiredCartIds_NoDup|].
    intros i Hi. apply expiredCartIds_spec in Hi as (e & -> & _). eauto.
  - clearbody w'. intros id. run_store. cbn.
    destruct (carts w' !! id) as [e|] eqn:He; cbn; [|reflexivity].
    rewrite (Hlive id e He). reflexivity.
  - clearbody w'. assert (Hnone : Store.expiredCartIds ttl now w' = []).
    { destruct (Store.expiredCartIds ttl now w') as [|i rest] eqn:E; [reflexivity|].
      assert (Hi : i ∈ Store.expiredCartIds ttl now w') by (rewrite E; left).
      apply expiredCartIds_spec in Hi as (e & He & X).
      rewrite (Hlive i e He) in X. discriminate. }
    unfold Store.cleanupExpiredCarts. cbn. rewrite Hnone. cbn.
    destruct w' as [cs h]. reflexivity.
Qed.

(** X5: [getCartCount] counts every entry, expired ones included, until they
    are evicted: storing a cart under a new id adds one and under a known
    id adds none; a Get that finds its entry expired takes one away and any
    other Get none; after [clearAllCarts] the count is zero and every Get
    answers null. *)
Theorem store_count_follows_entries (ttl now : Z) (c : Cart) (id : string) (w : World) :
  let count w0 := size (carts w0) in
  Store.getCartCount w = (Returned (count w), w)
  /\ count (snd (Store.createCart c w))
     = match carts w !! cartId c with Some _ => count w | None => S (count w) end
  /\ (count (snd (Store.getCart ttl now id w))
      + (match carts w !! id with
         | Some e => if Store.isExpired ttl now e then 1 else 0
         | None => 0
         end)
      = count w)%nat
  /\ count (snd (Store.clearAllCarts w)) = 0%nat
  /\ (forall later id',
        Store.getCart ttl later id' (snd (Store.clearAllCarts w))
        = (Returned None, snd (Store.clearAllCarts w))).
Proof.
  intros count. unfold count. split; [reflexivity|]. split; [|split; [|split]].
  - run_store. cbn. rewrite map_size_insert.
    destruct (carts w !! cartId c); reflexivity.
  - run_store. cbn.
    destruct (carts w !! id) as [e|] eqn:He; cbn; [|lia].
    destruct (Store.isExpired ttl now e); cbn; [|lia].
    rewrite map_size_delete_Some by eauto.
    assert (size (carts w) <> 0%nat) by (apply map_size_ne_0_lookup; eauto). lia.
  - cbn. apply map_size_empty.
  - intros later id'. run_store. cbn. rewrite lookup_empty. reflexivity.
Qed.

(** ** The engine's checks of its arguments *)

Lemma regex_test_length (pat : list CharClass) :
  forall s, regex_test pat s = true -> String.length s = length pat.
Proof.
  induction pat as [|cls pat IH]; intros [|c s]; cbn; try discriminate; [reflexivity|].
  intros H. apply andb_true_iff in H as [_ H]. rewrite (IH s H). reflexivity.
Qed.

Lemma regex_test_get (pat : list CharClass) :
  forall s i cls, regex_test pat s = true -> pat !! i = Some cls ->
                  exists c, String.get i s = Some c /\ class_matches cls c = true.
Proof.
  induction pat as [|cls0 pat IH]; intros [|c s] i cls; cbn; try discriminate.
  intros H Hi. apply andb_true_iff in H as [Hc H]. destruct i as [|i]; cbn in *.
  - injection Hi as <-. eauto.
  - apply (IH s i cls H Hi).
Qed.

(** X6: An id that [validateCartId] lets through has exactly 36 characters,
    a dash at positions 8, 13, 18 and 23, the version digit 4 at position
    14, and one of 8, 9, a, b (in either case) at position 19; all other
    characters are hexadecimal digits. *)
Theorem validateCartId_accepts_v4_shape (id : string) (w : World) :
  validateCartId id w = (Returned tt, w) ->
  String.length id = 36%nat
  /\ (forall i, i ∈ [8; 13; 18; 23]%nat -> String.get i id = Some "-"%char)
  /\ String.get 14 id = Some "4"%char
  /\ (exists v, String.get 19 id = Some v
                /\ v ∈ ["8"; "9"; "a"; "b"; "A"; "B"]%char)
  /\ (forall i c, String.get i id = Some c -> i ∉ [8; 13; 14; 18; 19; 23]%nat ->
                  is_hex c = true).
Proof.
  intros Hrun.
  destruct (validateCartId_verdict id w) as [[Hid _] | [_ Hv]];
    [|rewrite Hv in Hrun; discriminate].
  pose proof (regex_test_length _ _ Hid) as Hlen. change (length uuidRegex) with 36%nat in Hlen.
  assert (Hdash : forall i, uuidRegex !! i = Some Dash -> String.get i id = Some "-"%char).
  { intros i Hi. destruct (regex_test_get _ _ _ _ Hid Hi) as (c & Hc & Hm).
    cbn in Hm. apply Ascii.eqb_eq in Hm as ->. exact Hc. }
  split; [exact Hlen|]. split; [|split; [|split]].
  - intros i Hi. apply Hdash.
    repeat (apply elem_of_cons in Hi as [-> | Hi]; [reflexivity|]).
    apply elem_of_nil in Hi. destruct Hi.
  - destruct (regex_test_get _ id 14%nat Four Hid eq_refl) as (c & Hc & Hm).
    cbn in Hm. apply Ascii.eqb_eq in Hm as ->. exact Hc.
  - destruct (regex_test_get _ id 19%nat Variant Hid eq_refl) as (c & Hc & Hm).
    exists c. split; [exact Hc|]. cbn in Hm.
    repeat (apply orb_true_iff in Hm as [Hm | Hm]);
      apply Ascii.eqb_eq in Hm as ->; set_solver.
  - intros i c Hc Hi.
    assert (Hlt : (i < 36)%nat).
    { rewrite <- Hlen. clear -Hc. revert i Hc.
      induction id as [|c0 s IH]; intros [|i] Hc; cbn in *; try discriminate; try lia.
      specialize (IH i Hc). lia. }
    assert (Hcls : uuidRegex !! i = Some Hex).
    { do 36 (destruct i as [|i]; [first [reflexivity | exfalso; apply Hi; set_solver]|]).
      lia. }
    destruct (regex_test_get _ _ _ _ Hid Hcls) as (c' & Hc' & Hm).
    rewrite Hc in Hc'. injection Hc' as <-. exact Hm.
Qed.

Lemma validateCartId_accepts_v4_shape_witness :
  String.length sample_id = 36%nat /\ String.get 14 sample_id = Some "4"%char.
Proof.
  destruct (validateCartId_accepts_v4_shape sample_id initial eq_refl)
    as (Hlen & _ & Hfour & _).
  split; [exact Hlen | exact Hfour].
Defined.

(** X7: A cart id that is not of the UUID shape stops every method that takes
    one: each throws the [ValidationError] of the id check and leaves the
    world as it was, whatever client and pricing strategy the service was
    given and whatever the other arguments are; no method of the client
    has run, and the id is judged before the quantity and the product. *)
Theorem malformed_id_rejected_everywhere (self : CartService.t) (tk : Ticks) (now : Z)
    (newItemId id targetItemId : string) (request : AddItemRequest) (q : float)
    (w : World) :
  regex_test uuidRegex id = false ->
  CartService.getCart self now id w = (Thrown (ValidationError InvalidCartIdFormat), w)
  /\ addItem self tk newItemId id request w
     = (Thrown (ValidationError InvalidCartIdFormat), w)
  /\ removeItem self tk id targetItemId w
     = (Thrown (ValidationError InvalidCartIdFormat), w)
  /\ updateItemQuantity self tk id targetItemId q w
     = (Thrown (ValidationError InvalidCartIdFormat), w)
  /\ clearCart self tk id w = (Thrown (ValidationError InvalidCartIdFormat), w)
  /\ CartService.deleteCart self id w
     = (Thrown (ValidationError InvalidCartIdFormat), w).
Proof.
  intros Hid.
  assert (Hv : validateCartId id w = (Thrown (ValidationError InvalidCartIdFormat), w))
    by (unfold validateCartId; rewrite Hid; reflexivity).
  unfold CartService.getCart, addItem, removeItem, updateItemQuantity, clearCart,
    CartService.deleteCart.
  repeat split; stop Hv; reflexivity.
Qed.

Lemma malformed_id_rejected_everywhere_witness :
  addItem defaultService sample_ticks "item-1" "not-a-uuid"
    (mkAddItemRequest plan 1000%float) odd_world
  = (Thrown (ValidationError InvalidCartIdFormat), odd_world)
  /\ CartService.deleteCart defaultService "not-a-uuid" odd_world
     = (Thrown (ValidationError InvalidCartIdFormat), odd_world).
Proof.
  destruct (malformed_id_rejected_everywhere defaultService sample_ticks 0 "item-1"
              "not-a-uuid" "item-1" (mkAddItemRequest plan 1000%float) 1%float
              odd_world eq_refl) as (_ & Hadd & _ & _ & _ & Hdel).
  split; [exact Hadd | exact Hdel].
Defined.

Lemma SFcompare_refl (s : SpecFloat.spec_float) :
  s <> SpecFloat.S754_nan -> SpecFloat.SFcompare s s = Some Eq.
Proof.
  destruct s as [sg| sg | |sg m ex]; cbn; try reflexivity; try congruence.
  - destruct sg; reflexivity.
  - intros _. rewrite Z.compare_refl, Pos.compare_refl. destruct sg; reflexivity.
Qed.

(** A NaN is below nothing: the comparison [x < y] of the source is false. *)
Lemma nan_ltb (x y : float) : is_nan x = true -> (x <? y)%float = false.
Proof.
  unfold is_nan. rewrite FloatAxioms.eqb_spec, FloatAxioms.ltb_spec.
  unfold SpecFloat.SFeqb, SpecFloat.SFltb. intros Hnan.
  destruct (Prim2SF x) as [sg| sg | |sg m ex] eqn:E; try reflexivity;
    rewrite SFcompare_refl in Hnan by discriminate; discriminate.
Qed.

(** X8: [validateProduct] returns exactly for a product with a non-empty id, a
    non-empty name, a price that is not below zero and one of the four
    categories; in every other case it throws a [ValidationError]; it never
    changes the world.  The id is judged first.  The price test is the one
    comparison [price < 0], which lets through NaN and both zeros. *)
Theorem validateProduct_accepts_iff (p : Product) (w : World) :
  (validateProduct p w = (Returned tt, w)
   <-> productId p <> ""%string /\ name p <> ""%string
       /\ (price p <? 0)%float = false /\ category p ∈ validCats)
  /\ (validateProduct p w = (Returned tt, w)
      \/ exists reason, validateProduct p w = (Thrown (ValidationError reason), w))
  /\ (validateProduct (mkProduct "" (name p) (description p) (price p) (category p)) w
      = (Thrown (ValidationError ProductIdRequired), w))
  /\ (forall x, is_nan x = true \/ x = 0%float \/ x = (-0)%float ->
                validateProduct (mkProduct (productId p) (name p) (description p) x
                                   (category p)) w
                = validateProduct (mkProduct (productId p) (name p) (description p)
                                     1%float (category p)) w).
Proof.
  assert (Hcat : forall c, existsb (String.eqb c) validCats = true <-> c ∈ validCats).
  { intros c. unfold validCats. cbn. rewrite !orb_true_iff, !String.eqb_eq.
    rewrite !elem_of_cons, elem_of_nil. intuition discriminate. }
  split; [|split; [apply validateProduct_verdict|split; [reflexivity|]]].
  - unfold validateProduct, ret, throw.
    destruct (String.eqb (productId p) "") eqn:Hp.
    { apply String.eqb_eq in Hp. split; [discriminate | intros (H & _); contradiction]. }
    destruct (String.eqb (name p) "") eqn:Hn.
    { apply String.eqb_eq in Hn.
      split; [discriminate | intros (_ & H & _); contradiction]. }
    apply String.eqb_neq in Hp, Hn.
    destruct (price p <? 0)%float.
    { split; [discriminate | intros (_ & _ & H & _); discriminate]. }
    destruct (existsb (String.eqb (category p)) validCats) eqn:Hc; cbn.
    + apply Hcat in Hc. tauto.
    + split; [discriminate|]. intros (_ & _ & _ & H). apply Hcat in H. congruence.
  - intros x Hx. unfold validateProduct. cbn.
    assert (Hlt : (x <? 0)%float = false).
    { destruct Hx as [Hx | [-> | ->]]; [apply nan_ltb, Hx | reflexivity | reflexivity]. }
    rewrite Hlt. reflexivity.
Qed.

(** X9: With a well-formed cart id the quantity is judged next and the product
    last, whatever client the service was given, and the world is left as it
    was: a quantity that is not an integer (NaN and the infinities included)
    is reported as such even when it is out of the bounds as well, an integer
    out of the bounds is reported with the bounds of the service, and a
    product [validateProduct] rejects makes [addItem] throw that very
    error. *)
Theorem checks_run_in_order (self : CartService.t) (tk : Ticks)
    (newItemId id targetItemId : string) (request : AddItemRequest) (w : World) :
  regex_test uuidRegex id = true ->
  let q := request_quantity request in
  (Number_isInteger q = false ->
     addItem self tk newItemId id request w
     = (Thrown (ValidationError QuantityNotInteger), w)
     /\ updateItemQuantity self tk id targetItemId q w
        = (Thrown (ValidationError QuantityNotInteger), w))
  /\ (Number_isInteger q = true ->
      (q <? minQty self)%float || (maxQty self <? q)%float = true ->
      addItem self tk newItemId id request w
      = (Thrown (ValidationError (QuantityOutOfBounds (minQty self) (maxQty self))), w)
      /\ updateItemQuantity self tk id targetItemId q w
         = (Thrown (ValidationError (QuantityOutOfBounds (minQty self) (maxQty self))), w))
  /\ (forall err,
        quantity_rejected self q = false ->
        validateProduct (request_product request) w = (Thrown err, w) ->
        addItem self tk newItemId id request w = (Thrown err, w)).
Proof.
  intros Hid q.
  assert (Hv : validateCartId id w = (Returned tt, w))
    by (unfold validateCartId; rewrite Hid; reflexivity).
  unfold addItem, updateItemQuantity. fold q. split; [|split].
  - intros Hint.
    assert (Hq : validateQuantity self q w = (Thrown (ValidationError QuantityNotInteger), w))
      by (unfold validateQuantity; rewrite Hint; reflexivity).
    split; step Hv; stop Hq; reflexivity.
  - intros Hint Hout.
    assert (Hq : validateQuantity self q w
                 = (Thrown (ValidationError
                              (QuantityOutOfBounds (minQty self) (maxQty self))), w))
      by (unfold validateQuantity; rewrite Hint, Hout; reflexivity).
    split; step Hv; stop Hq; reflexivity.
  - intros err Hq Hp. apply validateQuantity_accepts with (w := w) in Hq.
    step Hv. step Hq. stop Hp. reflexivity.
Qed.

Lemma checks_run_in_order_witness :
  addItem defaultService sample_ticks "item-1" sample_id
    (mkAddItemRequest plan 100.5%float) initial
  = (Thrown (ValidationError QuantityNotInteger), initial)
  /\ updateItemQuantity defaultService sample_ticks sample_id "item-1" 100%float initial
     = (Thrown (ValidationError (QuantityOutOfBounds 1%float 99%float)), initial)
  /\ addItem defaultService sample_ticks "item-1" sample_id
       (mkAddItemRequest (mkProduct "prod-001" "Plan" None 75%float "gift") 1%float)
       initial
     = (Thrown (ValidationError (InvalidProductCategory "gift")), initial).
Proof.
  split; [|split].
  - exact (proj1 (proj1 (checks_run_in_order defaultService sample_ticks "item-1"
                           sample_id "item-1" (mkAddItemRequest plan 100.5%float)
                           initial eq_refl) eq_refl)).
  - exact (proj2 (proj1 (proj2 (checks_run_in_order defaultService sample_ticks "item-1"
                                  sample_id "item-1" (mkAddItemRequest plan 100%float)
                                  initial eq_refl)) eq_refl eq_refl)).
  - exact (proj2 (proj2 (checks_run_in_order defaultService sample_ticks "item-1"
                           sample_id "item-1"
                           (mkAddItemRequest
                              (mkProduct "prod-001" "Plan" None 75%float "gift") 1%float)
                           initial eq_refl))
             _ eq_refl eq_refl).
Defined.

(** ** The engine's operations on a live session *)

(** The store accepts the write while the entry has not expired and evicts
    the entry otherwise. *)
Lemma price_and_store_run (ttl : Z) (self : CartService.t) (tk : Ticks) (c : Cart)
    (w : World) (e : CartEntry) (its : list CartItem) :
  wired ttl self ->
  carts w !! cartId c = Some e ->
  items_of (heap w) c = Some its ->
  exists priced,
    same_session priced c /\ items priced = items c
    /\ updatedAt priced = t_priced tk /\ priced_from its priced
    /\ settle self tk c w
       = if isExpired ttl (t_write tk) e
         then (Thrown (CartExpiredError (cartId c)),
               mkWorld (delete (cartId c) (carts w)) (heap w))
         else (Returned priced,
               mkWorld (<[cartId c := mkCartEntry priced (entry_createdAt e)]> (carts w))
                       (heap w)).
Proof.
  intros Hw He Hits.
  rewrite (wired_updateCart ttl self Hw), (wired_calculatePricing ttl self Hw).
  exists (mkCart (cartId c) (items c)
            (round2 (sum_totalPrice its))
            (round2 (sum_totalPrice its * TAX_RATE))
            (round2 (sum_totalPrice its + round2 (sum_totalPrice its * TAX_RATE)))
            (createdAt c) (t_priced tk) (expiresAt c) (metadata c)).
  split; [repeat split|]. split; [reflexivity|]. split; [reflexivity|].
  split; [repeat split|].
  unfold calculatePricing, items_read. unfold bind, ret. rewrite Hits.
  run_store. cbn. rewrite He. destruct (isExpired ttl (t_write tk) e); reflexivity.
Qed.

Lemma deref_delete (h : Heap) (arr : list loc) (its : list CartItem) (i : nat) :
  deref h arr = Some its -> deref h (delete i arr) = Some (delete i its).
Proof. rewrite !deref_Forall2. apply Forall2_delete. Qed.

Lemma deref_arrays_irrelevant (h : Heap) (arrs : list (list loc)) (arr : list loc) :
  deref (mkHeap arrs (cells h)) arr = deref h arr.
Proof. reflexivity. Qed.

Lemma findIndex_Some {A : Type} (p : A -> bool) (xs : list A) :
  forall i, findIndex p xs = Some i ->
            exists x, xs !! i = Some x /\ p x = true
                      /\ Forall (fun y => p y = false) (take i xs).
Proof.
  induction xs as [|y xs IH]; intros i; cbn; [discriminate|].
  destruct (p y) eqn:Hy.
  - intros [= <-]. exists y. cbn. repeat split; [exact Hy | constructor].
  - destruct (findIndex p xs) as [j|]; cbn; [|discriminate].
    intros [= <-]. destruct (IH j eq_refl) as (x & Hx & Hpx & Hbefore).
    exists x. cbn. repeat split; [exact Hx | exact Hpx |].
    constructor; assumption.
Qed.

Section LiveSession.

Variables (ttl : Z) (self : CartService.t) (tk : Ticks) (id : string) (w : World)
  (e : CartEntry) (arr : list loc) (its : list CartItem).
Hypothesis Hw : wired ttl self.
Hypothesis Hid : regex_test uuidRegex id = true.
Hypothesis He : carts w !! id = Some e.
Hypothesis Hlive : isExpired ttl (t_read tk) e = false.
Hypothesis Harr : arrays (heap w) !! items (entry_cart e) = Some arr.
Hypothesis Hderef : deref (heap w) arr = Some its.

Lemma live_validateCartId : validateCartId id w = (Returned tt, w).
Proof. unfold validateCartId. rewrite Hid. reflexivity. Qed.

Lemma live_getCart : CartService.getCart self (t_read tk) id w = (Returned (entry_cart e), w).
Proof.
  rewrite (service_getCart_valid _ _ _ _ _ Hw Hid).
  rewrite (store_getCart_live _ _ _ _ _ He Hlive). reflexivity.
Qed.

Lemma live_array_read : array_read (items (entry_cart e)) w = (Returned arr, w).
Proof. unfold array_read. rewrite Harr. reflexivity. Qed.

Lemma live_items_read : items_read (entry_cart e) w = (Returned its, w).
Proof. unfold items_read, items_of. rewrite Harr. cbn. rewrite Hderef. reflexivity. Qed.

Lemma removeItem_run (targetItemId : string) :
  removeItem self tk id targetItemId w
  = match findIndex (fun item => String.eqb (itemId item) targetItemId) its with
    | None => (Thrown (ResourceNotFoundError "Item" targetItemId), w)
    | Some idx =>
        settle self tk (entry_cart e)
          (mkWorld (carts w)
             (mkHeap (<[items (entry_cart e) := delete idx arr]> (arrays (heap w)))
                     (cells (heap w))))
    end.
Proof.
  unfold removeItem. step live_validateCartId. step live_getCart.
  step live_array_read. step live_items_read.
  destruct (findIndex _ its) as [idx|]; [|reflexivity].
  unfold bind at 1, array_write. rewrite Harr. reflexivity.
Qed.

Lemma updateItemQuantity_run (targetItemId : string) (q : float) (idx : nat) (l : loc)
    (item : CartItem) :
  quantity_rejected self q = false ->
  findIndex (fun i => String.eqb (itemId i) targetItemId) its = Some idx ->
  arr !! idx = Some l ->
  cells (heap w) !! l = Some item ->
  updateItemQuantity self tk id targetItemId q w
  = settle self tk (entry_cart e)
      (mkWorld (carts w)
         (mkHeap (arrays (heap w))
            (<[l := mkCartItem (itemId item) (product item) q (unitPrice item)
                      (round2 (unitPrice item * q)) (addedAt item)]> (cells (heap w))))).
Proof.
  intros Hq Hfind Hl Hcell. unfold updateItemQuantity.
  step live_validateCartId. step (validateQuantity_accepts self q w Hq).
  step live_getCart. step live_array_read. step live_items_read.
  rewrite Hfind, Hl.
  unfold bind at 1, bind at 1, item_read. rewrite Hcell.
  unfold item_write. rewrite Hcell. reflexivity.
Qed.

Lemma updateItemQuantity_missing (targetItemId : string) (q : float) :
  quantity_rejected self q = false ->
  findIndex (fun i => String.eqb (itemId i) targetItemId) its = None ->
  updateItemQuantity self tk id targetItemId q w
  = (Thrown (ResourceNotFoundError "Item" targetItemId), w).
Proof.
  intros Hq Hfind. unfold updateItemQuantity.
  step live_validateCartId. step (validateQuantity_accepts self q w Hq).
  step live_getCart. step live_array_read. step live_items_read.
  rewrite Hfind. reflexivity.
Qed.

Lemma addItem_merge_run (newItemId : string) (request : AddItemRequest) (idx : nat)
    (l : loc) (item : CartItem) :
  quantity_rejected self (request_quantity request) = false ->
  validateProduct (request_product request) w = (Returned tt, w) ->
  findIndex (fun item' => String.eqb (productId (product item'))
                                     (productId (request_product request))) its
  = Some idx ->
  arr !! idx = Some l ->
  cells (heap w) !! l = Some item ->
  let newQty := (quantity item + request_quantity request)%float in
  addItem self tk newItemId id request w
  = if (maxQty self <? newQty)%float
    then (Thrown (ValidationError
                    (MergedQuantityExceeds (name (request_product request))
                                           (maxQty self))), w)
    else settle self tk (entry_cart e)
           (mkWorld (carts w)
              (mkHeap (arrays (heap w))
                 (<[l := mkCartItem (itemId item) (product item) newQty (unitPrice item)
                           (round2 (unitPrice item * newQty)) (addedAt item)]>
                    (cells (heap w))))).
Proof.
  intros Hq Hp Hfind Hl Hcell newQty. unfold addItem.
  step live_validateCartId. step (validateQuantity_accepts self _ w Hq). step Hp.
  step live_getCart. step live_array_read. step live_items_read.
  rewrite Hfind, Hl.
  unfold bind at 1, bind at 1, item_read. rewrite Hcell. fold newQty.
  destruct (maxQty self <? newQty)%float; [reflexivity|].
  unfold item_write. rewrite Hcell. reflexivity.
Qed.

Lemma addItem_push_run (newItemId : string) (request : AddItemRequest) :
  quantity_rejected self (request_quantity request) = false ->
  validateProduct (request_product request) w = (Returned tt, w) ->
  findIndex (fun item' => String.eqb (productId (product item'))
                                     (productId (request_product request))) its
  = None ->
  addItem self tk newItemId id request w
  = settle self tk (entry_cart e)
      (mkWorld (carts w)
         (mkHeap (<[items (entry_cart e) := arr ++ [length (cells (heap w))]]>
                    (arrays (heap w)))
            (cells (heap w)
             ++ [mkCartItem newItemId (request_product request)
                   (request_quantity request) (price (request_product request))
                   (round2 (price (request_product request) * request_quantity request))
                   (t_added tk)]))).
Proof.
  intros Hq Hp Hfind. unfold addItem.
  step live_validateCartId. step (validateQuantity_accepts self _ w Hq). step Hp.
  step live_getCart. step live_array_read. step live_items_read.
  rewrite Hfind.
  unfold bind at 1, bind at 1, item_new, array_write. cbn. rewrite Harr. reflexivity.
Qed.

Lemma clearCart_run :
  clearCart self tk id w
  = settle self tk (mkCart (cartId (entry_cart e)) (length (arrays (heap w)))
              (subtotal (entry_cart e)) (tax (entry_cart e)) (total (entry_cart e))
              (createdAt (entry_cart e)) (updatedAt (entry_cart e))
              (expiresAt (entry_cart e)) (metadata (entry_cart e)))
      (mkWorld (carts w) (mkHeap (arrays (heap w) ++ [[]]) (cells (heap w)))).
Proof.
  unfold clearCart. step live_validateCartId. step live_getCart. reflexivity.
Qed.

End LiveSession.

Lemma settle_returns (ttl : Z) (self : CartService.t) (tk : Ticks) (c : Cart) (w : World)
    (e : CartEntry) (its : list CartItem) (id : string) :
  wired ttl self ->
  carts w !! id = Some e ->
  cartId c = id ->
  items_of (heap w) c = Some its ->
  isExpired ttl (t_write tk) e = false ->
  exists c',
    settle self tk c w
    = (Returned c',
       mkWorld (<[id := mkCartEntry c' (entry_createdAt e)]> (carts w)) (heap w))
    /\ items c' = items c /\ items_of (heap w) c' = Some its
    /\ priced_from its c' /\ same_session c' c /\ updatedAt c' = t_priced tk.
Proof.
  intros Hw He Hkey Hits Hlive. subst id.
  destruct (price_and_store_run ttl self tk c w e its Hw He Hits)
    as (c' & Hsess & Hit & Hupd & Hpr & Hrun).
  rewrite Hlive in Hrun. exists c'. split; [exact Hrun|].
  split; [exact Hit|]. split; [|auto].
  unfold items_of. rewrite Hit. exact Hits.
Qed.

Lemma settle_expired (ttl : Z) (self : CartService.t) (tk : Ticks) (c : Cart) (w : World)
    (e : CartEntry) (its : list CartItem) (id : string) :
  wired ttl self ->
  carts w !! id = Some e ->
  cartId c = id ->
  items_of (heap w) c = Some its ->
  isExpired ttl (t_write tk) e = true ->
  settle self tk c w
  = (Thrown (CartExpiredError id), mkWorld (delete id (carts w)) (heap w)).
Proof.
  intros Hw He Hkey Hits Hdead. subst id.
  destruct (price_and_store_run ttl self tk c w e its Hw He Hits)
    as (c' & _ & _ & _ & _ & Hrun).
  rewrite Hdead in Hrun. exact Hrun.
Qed.

(** The lines a cart shows after each kind of mutation of its array or of
    one of its item objects. *)
Lemma items_of_after_delete (h : Heap) (c : Cart) (arr : list loc)
    (its : list CartItem) (i : nat) :
  arrays h !! items c = Some arr -> deref h arr = Some its ->
  items_of (mkHeap (<[items c := delete i arr]> (arrays h)) (cells h)) c
  = Some (delete i its).
Proof.
  intros Harr Hd. apply items_of_Some. exists (delete i arr). split.
  - cbn. apply list_lookup_insert_eq. eapply lookup_lt_Some. exact Harr.
  - apply (deref_delete h arr its i Hd).
Qed.

Lemma items_of_after_push (h : Heap) (c : Cart) (arr : list loc)
    (its : list CartItem) (fresh : CartItem) :
  arrays h !! items c = Some arr -> deref h arr = Some its ->
  items_of (mkHeap (<[items c := arr ++ [length (cells h)]]> (arrays h))
                   (cells h ++ [fresh])) c
  = Some (its ++ [fresh]).
Proof.
  intros Harr Hd. apply items_of_Some. exists (arr ++ [length (cells h)]). split.
  - cbn. apply list_lookup_insert_eq. eapply lookup_lt_Some. exact Harr.
  - apply deref_Forall2. cbn. apply Forall2_app.
    + apply (proj1 (deref_Forall2 _ _ _) (deref_cells_app h [fresh] arr its Hd)).
    + constructor; [|constructor]. apply list_lookup_middle. reflexivity.
Qed.

(** Overwriting the object of one line changes that line and no line that
    is another object. *)
Lemma deref_insert_at (h : Heap) (l : loc) (it' : CartItem) (arr : list loc) :
  forall (its : list CartItem) (i : nat),
    deref h arr = Some its -> arr !! i = Some l ->
    (forall j, arr !! j = Some l -> j = i) ->
    deref (mkHeap (arrays h) (<[l := it']> (cells h))) arr = Some (<[i := it']> its).
Proof.
  intros its i. rewrite !deref_Forall2. cbn. intros HF Hl Honly.
  apply Forall2_same_length_lookup. split.
  - rewrite length_insert. eapply Forall2_length. exact HF.
  - intros j l' x Hj Hx. destruct (decide (j = i)) as [->|Hne].
    + rewrite Hl in Hj. injection Hj as <-.
      destruct (Forall2_lookup_l _ _ _ _ _ HF Hl) as (y & Hy & Hc).
      rewrite list_lookup_insert_eq in Hx by (eapply lookup_lt_Some; exact Hy).
      injection Hx as <-. apply list_lookup_insert_eq.
      eapply lookup_lt_Some. exact Hc.
    + rewrite list_lookup_insert_ne in Hx by congruence.
      rewrite list_lookup_insert_ne.
      * destruct (Forall2_lookup_l _ _ _ _ _ HF Hj) as (y & Hy & Hc).
        rewrite Hy in Hx. injection Hx as <-. exact Hc.
      * intros <-. apply Hne. apply Honly. exact Hj.
Qed.

(** A line whose value differs from every other line of the array is an
    object of its own. *)
Lemma line_object_unique (h : Heap) (arr : list loc) (pre post : list CartItem)
    (it : CartItem) (l : loc) :
  deref h arr = Some (pre ++ it :: post) ->
  arr !! length pre = Some l ->
  Forall (fun x => x <> it) pre -> Forall (fun x => x <> it) post ->
  forall j, arr !! j = Some l -> j = length pre.
Proof.
  rewrite deref_Forall2. intros HF Hl Hpre Hpost j Hj.
  destruct (Forall2_lookup_l _ _ _ _ _ HF Hl) as (x & Hx & Hcx).
  rewrite list_lookup_middle in Hx by reflexivity. injection Hx as <-.
  destruct (Forall2_lookup_l _ _ _ _ _ HF Hj) as (y & Hy & Hcy).
  assert (y = it) by (rewrite Hcx in Hcy; injection Hcy as <-; reflexivity). subst y.
  destruct (Nat.lt_trichotomy j (length pre)) as [Hlt | [-> | Hgt]]; [|reflexivity|].
  - rewrite lookup_app_l in Hy by exact Hlt.
    rewrite list.Forall_forall in Hpre. exfalso.
    apply (Hpre it); [|reflexivity]. eapply list_elem_of_lookup_2. exact Hy.
  - rewrite lookup_app_r in Hy by lia.
    destruct (j - length pre)%nat as [|k] eqn:Hk; [lia|]. cbn in Hy.
    rewrite list.Forall_forall in Hpost. exfalso.
    apply (Hpost it); [|reflexivity]. eapply list_elem_of_lookup_2. exact Hy.
Qed.

Lemma items_of_after_write (h : Heap) (c : Cart) (arr : list loc)
    (pre post : list CartItem) (it it' : CartItem) (l : loc) :
  arrays h !! items c = Some arr ->
  deref h arr = Some (pre ++ it :: post) ->
  arr !! length pre = Some l ->
  Forall (fun x => x <> it) pre -> Forall (fun x => x <> it) post ->
  items_of (mkHeap (arrays h) (<[l := it']> (cells h))) c = Some (pre ++ it' :: post).
Proof.
  intros Harr Hd Hl Hpre Hpost. apply items_of_Some. exists arr. split; [exact Harr|].
  rewrite (deref_insert_at h l it' arr (pre ++ it :: post) (length pre) Hd Hl
             (line_object_unique h arr pre post it l Hd Hl Hpre Hpost)).
  rewrite insert_app_r_alt by lia. rewrite Nat.sub_diag. reflexivity.
Qed.

Lemma live_until (ttl now : Z) (e : CartEntry) :
  now <= deadline ttl e -> isExpired ttl now e = false.
Proof. apply isExpired_not_after. Qed.

Lemma dead_after (ttl now : Z) (e : CartEntry) :
  deadline ttl e < now -> isExpired ttl now e = true.
Proof. apply isExpired_after. Qed.

Lemma itemId_eqb_false (target : string) (its : list CartItem) :
  Forall (fun it => itemId it <> target) its ->
  Forall (fun it => String.eqb (itemId it) target = false) its.
Proof. apply Forall_impl. intros it Hne. apply String.eqb_neq, Hne. Qed.

Lemma settled_intro (ttl : Z) (self : CartService.t) (tk : Ticks) (w w1 : World)
    (id : string) (e : CartEntry) (c : Cart) (its' : list CartItem) :
  wired ttl self ->
  carts w !! id = Some e ->
  carts w1 = carts w ->
  cartId c = id ->
  same_session c (entry_cart e) ->
  items_of (heap w1) c = Some its' ->
  t_write tk <= deadline ttl e ->
  exists c' w',
    settle self tk c w1 = (Returned c', w')
    /\ heap w' = heap w1 /\ items c' = items c
    /\ settled_as tk w id e its' c' w'.
Proof.
  intros Hw He Hcarts Hkey Hsame Hits Hwrite.
  assert (He1 : carts w1 !! id = Some e) by (rewrite Hcarts; exact He).
  destruct (settle_returns ttl self tk c w1 e its' id Hw He1 Hkey Hits
              (live_until _ _ _ Hwrite))
    as (c' & Hrun & Hit & Hits' & Hpr & Hsess & Hupd).
  exists c', (mkWorld (<[id := mkCartEntry c' (entry_createdAt e)]> (carts w1)) (heap w1)).
  split; [exact Hrun|]. split; [reflexivity|]. split; [exact Hit|].
  split; [exact Hits'|]. split; [exact Hpr|]. split; [|split; [exact Hupd|]].
  - destruct Hsess as (H1 & H2 & H3 & H4), Hsame as (G1 & G2 & G3 & G4).
    repeat split; congruence.
  - cbn. rewrite Hcarts. reflexivity.
Qed.

(** X10: [createCart] returns, in every world: the new cart has the given id, no
    lines, zero amounts, the clock reading as [createdAt] and [updatedAt],
    and [expiresAt] that reading plus the TTL of the service; its array of
    items is a new one.  The store files it under its id with the reading
    as anchor, replacing whatever was there.  A Get of the engine for it
    returns it until the anchor plus the TTL of the store and throws
    [CartExpiredError] after; when service and store have the same TTL, as
    in the composition root, the cart is served exactly until the
    [expiresAt] it shows. *)
Theorem createCart_opens_a_session (ttl : Z) (self : CartService.t) (now : Z)
    (newCartId : string) (meta : option CartMetadata) (w : World) :
  wired ttl self ->
  let c := mkCart newCartId (length (arrays (heap w))) 0%float 0%float 0%float
             now now (now + ttlMinutes self * 60 * 1000) meta in
  let w' := mkWorld (<[newCartId := mkCartEntry c now]> (carts w))
                    (mkHeap (arrays (heap w) ++ [[]]) (cells (heap w))) in
  CartService.createCart self now newCartId meta w = (Returned c, w')
  /\ items_of (heap w') c = Some []
  /\ (forall id e, carts w !! id = Some e -> items (entry_cart e) <> items c ->
                   items_of (heap w') (entry_cart e) = items_of (heap w) (entry_cart e))
  /\ (regex_test uuidRegex newCartId = true ->
      forall later,
        (later <= now + ttl * 60 * 1000 ->
         CartService.getCart self later newCartId w' = (Returned c, w'))
        /\ (now + ttl * 60 * 1000 < later ->
            fst (CartService.getCart self later newCartId w')
            = Thrown (CartExpiredError newCartId))
        /\ (ttlMinutes self = ttl ->
            (fst (CartService.getCart self later newCartId w') = Returned c
             <-> later <= expiresAt c))).
Proof.
  intros Hw c w'.
  assert (Hin : carts w' !! newCartId = Some (mkCartEntry c now))
    by apply lookup_insert_eq.
  assert (Hlive : forall later, later <= now + ttl * 60 * 1000 ->
            CartService.getCart self later newCartId w' = (Returned c, w')
            \/ regex_test uuidRegex newCartId = false).
  { intros later Hl. destruct (regex_test uuidRegex newCartId) eqn:Hid; [left|right; easy].
    rewrite (service_getCart_valid _ _ _ _ _ Hw Hid).
    rewrite (store_getCart_live _ _ _ _ _ Hin); [reflexivity|].
    apply isExpired_not_after. exact Hl. }
  assert (Hdead : forall later, now + ttl * 60 * 1000 < later ->
            fst (CartService.getCart self later newCartId w')
            = Thrown (CartExpiredError newCartId)
            \/ regex_test uuidRegex newCartId = false).
  { intros later Hl. destruct (regex_test uuidRegex newCartId) eqn:Hid; [left|right; easy].
    rewrite (service_getCart_valid _ _ _ _ _ Hw Hid).
    rewrite (store_getCart_expired _ _ _ _ _ Hin); [reflexivity|].
    apply isExpired_after. exact Hl. }
  split; [|split; [|split]].
  - unfold CartService.createCart. rewrite (wired_createCart ttl self Hw). reflexivity.
  - apply items_of_Some. exists []. split; [|reflexivity].
    cbn. apply list_lookup_middle. reflexivity.
  - intros id e _ Hne. unfold items_of. cbn.
    destruct (arrays (heap w) !! items (entry_cart e)) as [xs|] eqn:Hx.
    + rewrite (lookup_app_l_Some _ _ _ _ Hx). reflexivity.
    + apply lookup_ge_None in Hx. rewrite lookup_app_r by exact Hx.
      destruct (items (entry_cart e) - length (arrays (heap w)))%nat as [|k] eqn:Hk;
        [|reflexivity].
      exfalso. apply Hne. cbn. lia.
  - intros Hid later. split; [|split].
    + intros Hl. destruct (Hlive later Hl) as [H | H]; [exact H | congruence].
    + intros Hl. destruct (Hdead later Hl) as [H | H]; [exact H | congruence].
    + intros Httl. cbn [expiresAt c]. rewrite Httl. split.
      * intros Hret. destruct (Z_le_gt_dec later (now + ttl * 60 * 1000)) as [Hl|Hl];
          [exact Hl|].
        destruct (Hdead later ltac:(lia)) as [H | H]; congruence.
      * intros Hl. destruct (Hlive later Hl) as [-> | H]; [reflexivity | congruence].
Qed.

Lemma createCart_opens_a_session_witness :
  CartService.getCart defaultService 300000 sample_id empty_cart_world
  = (Returned (mkCart sample_id 0%nat 0%float 0%float 0%float 0 0 300000 None),
     empty_cart_world).
Proof.
  assert (Hwired : wired 5 defaultService) by (split; reflexivity).
  destruct (createCart_opens_a_session 5 defaultService 0 sample_id None initial Hwired)
    as (_ & _ & _ & Hget).
  destruct (Hget eq_refl 300000) as (Hlive & _).
  exact (Hlive ltac:(lia)).
Defined.

Lemma addItem_push_settled (ttl : Z) (self : CartService.t) (tk : Ticks)
    (newItemId id : string) (request : AddItemRequest) (w : World) (e : CartEntry)
    (its : list CartItem) :
  wired ttl self ->
  regex_test uuidRegex id = true ->
  quantity_rejected self (request_quantity request) = false ->
  validateProduct (request_product request) w = (Returned tt, w) ->
  session_at w id e its ->
  t_read tk <= deadline ttl e ->
  t_write tk <= deadline ttl e ->
  Forall (fun it => pid it <> productId (request_product request)) its ->
  let fresh := mkCartItem newItemId (request_product request)
                 (request_quantity request) (price (request_product request))
                 (round2 (price (request_product request) * request_quantity request))
                 (t_added tk) in
  exists c' w',
    addItem self tk newItemId id request w = (Returned c', w')
    /\ settled_as tk w id e (its ++ [fresh]) c' w'.
Proof.
  intros Hw Hid Hq Hp (He & Hkey & Hits) Hread Hwrite Hnone fresh.
  destruct (proj1 (items_of_Some _ _ _) Hits) as (arr & Harr & Hderef).
  rewrite (addItem_push_run ttl self tk id w e arr its Hw Hid He (live_until _ _ _ Hread)
             Harr Hderef newItemId request Hq Hp
             (findIndex_all_false _ its (pid_eqb_false _ _ Hnone))).
  fold fresh.
  match goal with
  | |- context [settle self tk _ ?w1] =>
      destruct (settled_intro ttl self tk w w1 id e (entry_cart e) (its ++ [fresh])
                  Hw He eq_refl Hkey ltac:(repeat split)
                  (items_of_after_push (heap w) _ arr its fresh Harr Hderef) Hwrite)
        as (c' & w' & Hrun & _ & _ & Hdone)
  end.
  exists c', w'. split; [exact Hrun | exact Hdone].
Qed.

(** X11: [addItem] of a product the cart has no line for, with an accepted
    quantity and product, on a session that is live when read and when
    written: the call returns; the cart shows the old lines followed by a
    new line with the given item id, the requested quantity, the product's
    price as unit price and a [totalPrice] of their product rounded to
    cents; it is priced from these lines, keeps the identity of the session
    and is stored under the old anchor. *)
Theorem addItem_appends_new_line (ttl : Z) (self : CartService.t) (tk : Ticks)
    (newItemId id : string) (request : AddItemRequest) (w : World) (e : CartEntry)
    (its : list CartItem) :
  wired ttl self ->
  regex_test uuidRegex id = true ->
  quantity_rejected self (request_quantity request) = false ->
  validateProduct (request_product request) w = (Returned tt, w) ->
  session_at w id e its ->
  t_read tk <= deadline ttl e ->
  t_write tk <= deadline ttl e ->
  Forall (fun it => pid it <> productId (request_product request)) its ->
  let fresh := mkCartItem newItemId (request_product request)
                 (request_quantity request) (price (request_product request))
                 (round2 (price (request_product request) * request_quantity request))
                 (t_added tk) in
  exists c' w',
    addItem self tk newItemId id request w = (Returned c', w')
    /\ settled_as tk w id e (its ++ [fresh]) c' w'.
Proof. intros. eapply addItem_push_settled; eassumption. Qed.

Lemma addItem_appends_new_line_witness :
  exists c' w',
    addItem defaultService sample_ticks "item-2" sample_id
      (mkAddItemRequest phone 2%float) one_line_world = (Returned c', w')
    /\ quantities_of (heap w') c' = Some [1%float; 2%float]
    /\ subtotal c' = 2074.98%float.
Proof.
  destruct (addItem_appends_new_line 5 defaultService sample_ticks "item-2" sample_id
              (mkAddItemRequest phone 2%float) one_line_world
              (mkCartEntry
                 (mkCart sample_id 0%nat 75%float 6.75%float 81.75%float 0 1002 300000 None)
                 0)
              [mkCartItem "item-1" plan 1%float 75%float 75%float 1001])
    as (c' & w' & Hrun & Hits & (Hsub & _) & _).
  - split; reflexivity.
  - reflexivity.
  - reflexivity.
  - reflexivity.
  - split; [|split]; vm_compute; reflexivity.
  - vm_compute. discriminate.
  - vm_compute. discriminate.
  - repeat constructor. vm_compute. discriminate.
  - exists c', w'. split; [exact Hrun|]. split.
    + unfold quantities_of. rewrite Hits. reflexivity.
    + rewrite Hsub. vm_compute. reflexivity.
Defined.

(** X12: [addItem] of a product the cart has a line for, when the summed
    quantity does not exceed [maxQty] and the session is live when read
    and when written: the call returns, and the cart shows the same lines
    in the same order, that line with the summed quantity and a
    [totalPrice] recomputed from the unit price it had; the price the
    request carries is not looked at.  No line is added. *)
Theorem addItem_merge_returns (ttl : Z) (self : CartService.t) (tk : Ticks)
    (newItemId id : string) (request : AddItemRequest) (w : World) (e : CartEntry)
    (pre post : list CartItem) (item : CartItem) :
  wired ttl self ->
  regex_test uuidRegex id = true ->
  quantity_rejected self (request_quantity request) = false ->
  validateProduct (request_product request) w = (Returned tt, w) ->
  session_at w id e (pre ++ item :: post) ->
  t_read tk <= deadline ttl e ->
  t_write tk <= deadline ttl e ->
  Forall (fun it => pid it <> productId (request_product request)) pre ->
  Forall (fun it => pid it <> productId (request_product request)) post ->
  pid item = productId (request_product request) ->
  let newQty := (quantity item + request_quantity request)%float in
  (maxQty self <? newQty)%float = false ->
  let merged := mkCartItem (itemId item) (product item) newQty (unitPrice item)
                  (round2 (unitPrice item * newQty)) (addedAt item) in
  exists c' w',
    addItem self tk newItemId id request w = (Returned c', w')
    /\ settled_as tk w id e (pre ++ merged :: post) c' w'
    /\ cells (heap w') !! length (cells (heap w)) = None.
Proof.
  intros Hw Hid Hq Hp (He & Hkey & Hits) Hread Hwrite Hpre Hpost Hitem newQty Hmax merged.
  destruct (proj1 (items_of_Some _ _ _) Hits) as (arr & Harr & Hderef).
  destruct (deref_lookup _ _ _ (length pre) item Hderef (list_lookup_middle _ _ _ _ eq_refl))
    as (l & Hl & Hcell).
  pose proof (addItem_merge_run ttl self tk id w e arr _ Hw Hid He (live_until _ _ _ Hread)
                Harr Hderef newItemId request (length pre) l item Hq Hp
                (findIndex_first _ pre item post (pid_eqb_false _ _ Hpre)
                   (pid_eqb_true _ _ Hitem)) Hl Hcell) as Hrun0.
  cbv zeta in Hrun0. fold newQty in Hrun0. rewrite Hmax in Hrun0. fold merged in Hrun0.
  rewrite Hrun0.
  assert (Hother : forall xs, Forall (fun it => pid it <> productId (request_product request)) xs ->
                              Forall (fun x => x <> item) xs).
  { intros xs. apply Forall_impl. intros x Hx ->. apply Hx, Hitem. }
  match goal with
  | |- context [settle self tk _ ?w1] =>
      destruct (settled_intro ttl self tk w w1 id e (entry_cart e) (pre ++ merged :: post)
                  Hw He eq_refl Hkey ltac:(repeat split)
                  (items_of_after_write (heap w) _ arr pre post item merged l Harr Hderef Hl
                     (Hother _ Hpre) (Hother _ Hpost)) Hwrite)
        as (c' & w' & Hrun & Hheap & _ & Hdone)
  end.
  exists c', w'. split; [exact Hrun|]. split; [exact Hdone|].
  rewrite Hheap. cbn. apply lookup_ge_None. rewrite length_insert. lia.
Qed.

Lemma addItem_merge_returns_witness :
  exists c' w',
    addItem defaultService sample_ticks "item-2" sample_id
      (mkAddItemRequest (mkProduct "prod-001" "5G Unlimited Plan" None 10%float "plan")
         2%float)
      one_line_world = (Returned c', w')
    /\ items_of (heap w') c'
       = Some [mkCartItem "item-1" plan 3%float 75%float 225%float 1001].
Proof.
  destruct (addItem_merge_returns 5 defaultService sample_ticks "item-2" sample_id
              (mkAddItemRequest
                 (mkProduct "prod-001" "5G Unlimited Plan" None 10%float "plan") 2%float)
              one_line_world
              (mkCartEntry
                 (mkCart sample_id 0%nat 75%float 6.75%float 81.75%float 0 1002 300000 None)
                 0)
              [] [] (mkCartItem "item-1" plan 1%float 75%float 75%float 1001))
    as (c' & w' & Hrun & (Hits & _) & _).
  - split; reflexivity.
  - reflexivity.
  - reflexivity.
  - reflexivity.
  - split; [|split]; vm_compute; reflexivity.
  - vm_compute. discriminate.
  - vm_compute. discriminate.
  - constructor.
  - constructor.
  - reflexivity.
  - reflexivity.
  - exists c', w'. split; [exact Hrun|]. rewrite Hits. reflexivity.
Defined.

Lemma removeItem_settled (ttl : Z) (self : CartService.t) (tk : Ticks)
    (id targetItemId : string) (w : World) (e : CartEntry)
    (pre post : list CartItem) (item : CartItem) :
  wired ttl self ->
  regex_test uuidRegex id = true ->
  session_at w id e (pre ++ item :: post) ->
  t_read tk <= deadline ttl e ->
  t_write tk <= deadline ttl e ->
  Forall (fun it => itemId it <> targetItemId) pre ->
  itemId item = targetItemId ->
  exists c' w',
    removeItem self tk id targetItemId w = (Returned c', w')
    /\ settled_as tk w id e (pre ++ post) c' w'
    /\ cells (heap w') = cells (heap w).
Proof.
  intros Hw Hid (He & Hkey & Hits) Hread Hwrite Hpre Hitem.
  destruct (proj1 (items_of_Some _ _ _) Hits) as (arr & Harr & Hderef).
  rewrite (removeItem_run ttl self tk id w e arr _ Hw Hid He (live_until _ _ _ Hread)
             Harr Hderef targetItemId).
  rewrite (findIndex_first _ pre item post (itemId_eqb_false _ _ Hpre))
    by (apply String.eqb_eq, Hitem).
  pose proof (items_of_after_delete (heap w) _ arr _ (length pre) Harr Hderef) as Hits1.
  rewrite delete_middle in Hits1.
  match goal with
  | |- context [settle self tk _ ?w1] =>
      destruct (settled_intro ttl self tk w w1 id e (entry_cart e) (pre ++ post)
                  Hw He eq_refl Hkey ltac:(repeat split) Hits1 Hwrite)
        as (c' & w' & Hrun & Hheap & _ & Hdone)
  end.
  exists c', w'. split; [exact Hrun|]. split; [exact Hdone|].
  rewrite Hheap. reflexivity.
Qed.

(** X13: [removeItem] of an item id the cart has a line for, on a session live
    when read and when written: the call returns, and the cart shows the
    other lines in their order and is priced from them; the line removed is
    the first one with that item id. *)
Theorem removeItem_removes_one_line (ttl : Z) (self : CartService.t) (tk : Ticks)
    (id targetItemId : string) (w : World) (e : CartEntry)
    (pre post : list CartItem) (item : CartItem) :
  wired ttl self ->
  regex_test uuidRegex id = true ->
  session_at w id e (pre ++ item :: post) ->
  t_read tk <= deadline ttl e ->
  t_write tk <= deadline ttl e ->
  Forall (fun it => itemId it <> targetItemId) pre ->
  itemId item = targetItemId ->
  exists c' w',
    removeItem self tk id targetItemId w = (Returned c', w')
    /\ settled_as tk w id e (pre ++ post) c' w'
    /\ cells (heap w') = cells (heap w).
Proof. intros. eapply removeItem_settled; eassumption. Qed.

Lemma removeItem_removes_one_line_witness :
  exists c' w',
    removeItem defaultService sample_ticks sample_id "item-1" one_line_world
    = (Returned c', w')
    /\ items_of (heap w') c' = Some []
    /\ subtotal c' = 0%float /\ tax c' = 0%float /\ total c' = 0%float.
Proof.
  destruct (removeItem_removes_one_line 5 defaultService sample_ticks sample_id "item-1"
              one_line_world
              (mkCartEntry
                 (mkCart sample_id 0%nat 75%float 6.75%float 81.75%float 0 1002 300000 None)
                 0)
              [] [] (mkCartItem "item-1" plan 1%float 75%float 75%float 1001))
    as (c' & w' & Hrun & (Hits & (Hs & Ht & Htot) & _) & _).
  - split; reflexivity.
  - reflexivity.
  - split; [|split]; vm_compute; reflexivity.
  - vm_compute. discriminate.
  - vm_compute. discriminate.
  - constructor.
  - reflexivity.
  - exists c', w'. split; [exact Hrun|]. split; [exact Hits|].
    rewrite Hs, Ht, Htot. repeat split; vm_compute; reflexivity.
Defined.

(** X14: [updateItemQuantity] of an item id the cart has one line for, with an
    accepted quantity, on a session live when read and when written: the
    call returns, and the cart shows the same lines in the same order, that
    line with the new quantity and a [totalPrice] of the unit price it had
    times the new quantity, rounded to cents; item id, product, unit price
    and [addedAt] of the line are as they were. *)
Theorem updateItemQuantity_sets_the_line (ttl : Z) (self : CartService.t) (tk : Ticks)
    (id targetItemId : string) (q : float) (w : World) (e : CartEntry)
    (pre post : list CartItem) (item : CartItem) :
  wired ttl self ->
  regex_test uuidRegex id = true ->
  quantity_rejected self q = false ->
  session_at w id e (pre ++ item :: post) ->
  t_read tk <= deadline ttl e ->
  t_write tk <= deadline ttl e ->
  Forall (fun it => itemId it <> targetItemId) pre ->
  Forall (fun it => itemId it <> targetItemId) post ->
  itemId item = targetItemId ->
  let updated := mkCartItem (itemId item) (product item) q (unitPrice item)
                   (round2 (unitPrice item * q)) (addedAt item) in
  exists c' w',
    updateItemQuantity self tk id targetItemId q w = (Returned c', w')
    /\ settled_as tk w id e (pre ++ updated :: post) c' w'.
Proof.
  intros Hw Hid Hq (He & Hkey & Hits) Hread Hwrite Hpre Hpost Hitem updated.
  destruct (proj1 (items_of_Some _ _ _) Hits) as (arr & Harr & Hderef).
  destruct (deref_lookup _ _ _ (length pre) item Hderef (list_lookup_middle _ _ _ _ eq_refl))
    as (l & Hl & Hcell).
  rewrite (updateItemQuantity_run ttl self tk id w e arr _ Hw Hid He
             (live_until _ _ _ Hread) Harr Hderef targetItemId q (length pre) l item Hq
             (findIndex_first _ pre item post (itemId_eqb_false _ _ Hpre)
                (proj2 (String.eqb_eq _ _) Hitem)) Hl Hcell).
  fold updated.
  assert (Hother : forall xs, Forall (fun it => itemId it <> targetItemId) xs ->
                              Forall (fun x => x <> item) xs).
  { intros xs. apply Forall_impl. intros x Hx ->. apply Hx, Hitem. }
  match goal with
  | |- context [settle self tk _ ?w1] =>
      destruct (settled_intro ttl self tk w w1 id e (entry_cart e) (pre ++ updated :: post)
                  Hw He eq_refl Hkey ltac:(repeat split)
                  (items_of_after_write (heap w) _ arr pre post item updated l Harr Hderef Hl
                     (Hother _ Hpre) (Hother _ Hpost)) Hwrite)
        as (c' & w' & Hrun & _ & _ & Hdone)
  end.
  exists c', w'. split; [exact Hrun | exact Hdone].
Qed.

Lemma updateItemQuantity_sets_the_line_witness :
  exists c' w',
    updateItemQuantity defaultService sample_ticks sample_id "item-1" 4%float
      one_line_world = (Returned c', w')
    /\ items_of (heap w') c'
       = Some [mkCartItem "item-1" plan 4%float 75%float 300%float 1001]
    /\ total c' = 327%float.
Proof.
  destruct (updateItemQuantity_sets_the_line 5 defaultService sample_ticks sample_id
              "item-1" 4%float one_line_world
              (mkCartEntry
                 (mkCart sample_id 0%nat 75%float 6.75%float 81.75%float 0 1002 300000 None)
                 0)
              [] [] (mkCartItem "item-1" plan 1%float 75%float 75%float 1001))
    as (c' & w' & Hrun & Hits & (_ & _ & Htot) & _).
  - split; reflexivity.
  - reflexivity.
  - reflexivity.
  - split; [|split]; vm_compute; reflexivity.
  - vm_compute. discriminate.
  - vm_compute. discriminate.
  - constructor.
  - constructor.
  - reflexivity.
  - exists c', w'. split; [exact Hrun|]. split; [rewrite Hits; reflexivity|].
    rewrite Htot. vm_compute. reflexivity.
Defined.

(** X15: [clearCart] on a session live when read and when written: the call
    returns a cart without lines and with zero subtotal, tax and total that
    keeps the identity of the session and is stored under the old anchor, so
    the session's expiration is not moved.  The cart now refers to a new
    array; the array the cart had is left with its lines, so that a cart
    object handed out by an earlier Get still shows them. *)
Theorem clearCart_empties_the_cart (ttl : Z) (self : CartService.t) (tk : Ticks)
    (id : string) (w : World) (e : CartEntry) (its : list CartItem) :
  wired ttl self ->
  regex_test uuidRegex id = true ->
  session_at w id e its ->
  t_read tk <= deadline ttl e ->
  t_write tk <= deadline ttl e ->
  exists c' w',
    clearCart self tk id w = (Returned c', w')
    /\ settled_as tk w id e [] c' w'
    /\ subtotal c' = 0%float /\ tax c' = 0%float /\ total c' = 0%float
    /\ items c' <> items (entry_cart e)
    /\ items_of (heap w') (entry_cart e) = Some its.
Proof.
  intros Hw Hid (He & Hkey & Hits) Hread Hwrite.
  rewrite (clearCart_run ttl self tk id w e Hw Hid He (live_until _ _ _ Hread)).
  destruct (proj1 (items_of_Some _ _ _) Hits) as (arr & Harr & Hderef).
  match goal with
  | |- context [settle self tk ?c ?w1] =>
      assert (Hits1 : items_of (heap w1) c = Some [])
        by (apply items_of_Some; exists []; split;
            [cbn; apply list_lookup_middle; reflexivity | reflexivity]);
      destruct (settled_intro ttl self tk w w1 id e c [] Hw He eq_refl Hkey
                  ltac:(repeat split) Hits1 Hwrite)
        as (c' & w' & Hrun & Hheap & Hit & Hdone)
  end.
  exists c', w'. split; [exact Hrun|]. split; [exact Hdone|].
  destruct Hdone as (_ & (Hs & Ht & Htot) & _).
  split; [rewrite Hs; vm_compute; reflexivity|].
  split; [rewrite Ht; vm_compute; reflexivity|].
  split; [rewrite Htot; vm_compute; reflexivity|].
  split.
  - rewrite Hit. cbn. apply lookup_lt_Some in Harr. lia.
  - rewrite Hheap. apply items_of_Some. exists arr. split; [|exact Hderef].
    cbn. apply lookup_app_l_Some. exact Harr.
Qed.

Lemma clearCart_empties_the_cart_witness :
  exists c' w',
    clearCart defaultService sample_ticks sample_id one_line_world = (Returned c', w')
    /\ items_of (heap w') c' = Some []
    /\ total c' = 0%float
    /\ expiresAt c' = 300000.
Proof.
  destruct (clearCart_empties_the_cart 5 defaultService sample_ticks sample_id
              one_line_world
              (mkCartEntry
                 (mkCart sample_id 0%nat 75%float 6.75%float 81.75%float 0 1002 300000 None)
                 0)
              [mkCartItem "item-1" plan 1%float 75%float 75%float 1001])
    as (c' & w' & Hrun & (Hits & _ & (_ & _ & Hexp & _) & _) & _ & _ & Htot & _).
  - split; reflexivity.
  - reflexivity.
  - split; [|split]; vm_compute; reflexivity.
  - vm_compute. discriminate.
  - vm_compute. discriminate.
  - exists c', w'. split; [exact Hrun|]. split; [exact Hits|]. split; [exact Htot|].
    rewrite Hexp. reflexivity.
Defined.

Lemma items_of_after_write_some (h : Heap) (c : Cart) (arr : list loc)
    (its : list CartItem) (l : loc) (it' : CartItem) :
  arrays h !! items c = Some arr -> deref h arr = Some its ->
  exists its', items_of (mkHeap (arrays h) (<[l := it']> (cells h))) c = Some its'.
Proof.
  intros Harr Hd.
  assert (Hsome : is_Some (deref (mkHeap (arrays h) (<[l := it']> (cells h))) arr)).
  { unfold deref. apply mapM_is_Some. cbn.
    apply deref_Forall2 in Hd. apply list.Forall_forall. intros l' Hl'.
    apply list_elem_of_lookup in Hl' as [i Hi].
    destruct (Forall2_lookup_l _ _ _ _ _ Hd Hi) as (y & _ & Hy).
    apply lookup_lt_is_Some. rewrite length_insert. eapply lookup_lt_Some. exact Hy. }
  destruct Hsome as [its' Hits']. exists its'.
  apply items_of_Some. exists arr. split; [exact Harr | exact Hits'].
Qed.

(** X16: On a live session an item id that no line carries makes [removeItem]
    and [updateItemQuantity] throw [ResourceNotFoundError] for the item and
    leave the world as it was. *)
Theorem missing_item_changes_nothing (ttl : Z) (self : CartService.t) (tk : Ticks)
    (id targetItemId : string) (q : float) (w : World) (e : CartEntry)
    (its : list CartItem) :
  wired ttl self ->
  regex_test uuidRegex id = true ->
  session_at w id e its ->
  t_read tk <= deadline ttl e ->
  Forall (fun it => itemId it <> targetItemId) its ->
  removeItem self tk id targetItemId w
  = (Thrown (ResourceNotFoundError "Item" targetItemId), w)
  /\ (quantity_rejected self q = false ->
      updateItemQuantity self tk id targetItemId q w
      = (Thrown (ResourceNotFoundError "Item" targetItemId), w)).
Proof.
  intros Hw Hid (He & Hkey & Hits) Hread Hnone.
  destruct (proj1 (items_of_Some _ _ _) Hits) as (arr & Harr & Hderef).
  pose proof (findIndex_all_false _ its (itemId_eqb_false _ _ Hnone)) as Hfind.
  split.
  - rewrite (removeItem_run ttl self tk id w e arr its Hw Hid He (live_until _ _ _ Hread)
               Harr Hderef targetItemId).
    rewrite Hfind. reflexivity.
  - intros Hq.
    apply (updateItemQuantity_missing ttl self tk id w e arr its Hw Hid He
             (live_until _ _ _ Hread) Harr Hderef targetItemId q Hq Hfind).
Qed.

Lemma missing_item_changes_nothing_witness :
  removeItem defaultService sample_ticks sample_id "item-7" one_line_world
  = (Thrown (ResourceNotFoundError "Item" "item-7"), one_line_world)
  /\ updateItemQuantity defaultService sample_ticks sample_id "item-7" 2%float
       one_line_world
     = (Thrown (ResourceNotFoundError "Item" "item-7"), one_line_world).
Proof.
  destruct (missing_item_changes_nothing 5 defaultService sample_ticks sample_id "item-7"
              2%float one_line_world
              (mkCartEntry
                 (mkCart sample_id 0%nat 75%float 6.75%float 81.75%float 0 1002 300000 None)
                 0)
              [mkCartItem "item-1" plan 1%float 75%float 75%float 1001])
    as (Hrem & Hupd).
  - split; reflexivity.
  - reflexivity.
  - split; [|split]; vm_compute; reflexivity.
  - vm_compute. discriminate.
  - repeat constructor. vm_compute. discriminate.
  - split; [exact Hrem | exact (Hupd eq_refl)].
Defined.

(** X17: A mutating call that reads the session before its deadline and writes
    after it never returns a cart.  Either it throws before changing
    anything (a rejected argument, a missing item, a merge above [maxQty]),
    and the world is as it was, or the write throws [CartExpiredError] and
    the entry is gone from the store: the mutation is lost with the
    session. *)
Theorem write_after_deadline_evicts (ttl : Z) (self : CartService.t) (tk : Ticks)
    (newItemId id targetItemId : string) (request : AddItemRequest) (q : float)
    (w : World) (e : CartEntry) (its : list CartItem) :
  wired ttl self ->
  regex_test uuidRegex id = true ->
  session_at w id e its ->
  t_read tk <= deadline ttl e ->
  deadline ttl e < t_write tk ->
  let lost (r : Outcome Cart * World) :=
    (exists err, r = (Thrown err, w) /\ err <> CartExpiredError id)
    \/ (fst r = Thrown (CartExpiredError id)
        /\ carts (snd r) = delete id (carts w)) in
  lost (addItem self tk newItemId id request w)
  /\ lost (removeItem self tk id targetItemId w)
  /\ lost (updateItemQuantity self tk id targetItemId q w)
  /\ (fst (clearCart self tk id w) = Thrown (CartExpiredError id)
      /\ carts (snd (clearCart self tk id w)) = delete id (carts w)).
Proof.
  intros Hw Hid (He & Hkey & Hits) Hread Hwrite lost.
  destruct (proj1 (items_of_Some _ _ _) Hits) as (arr & Harr & Hderef).
  pose proof (live_until _ _ _ Hread) as Hlive.
  pose proof (dead_after _ _ _ Hwrite) as Hdead.
  assert (Hv : validateCartId id w = (Returned tt, w))
    by (unfold validateCartId; rewrite Hid; reflexivity).
  assert (Hevict : forall c w1 its1,
             carts w1 = carts w -> cartId c = id -> items_of (heap w1) c = Some its1 ->
             fst (settle self tk c w1) = Thrown (CartExpiredError id)
             /\ carts (snd (settle self tk c w1)) = delete id (carts w)).
  { intros c w1 its1 Hc Hk Hi.
    assert (He1 : carts w1 !! id = Some e) by (rewrite Hc; exact He).
    rewrite (settle_expired ttl self tk c w1 e its1 id Hw He1 Hk Hi Hdead).
    cbn. rewrite Hc. split; reflexivity. }
  assert (Hline : forall p idx, findIndex p its = Some idx ->
                    exists l item, arr !! idx = Some l /\ cells (heap w) !! l = Some item).
  { intros p idx Hf. destruct (findIndex_Some p its idx Hf) as (item & Hi & _).
    destruct (deref_lookup _ _ _ idx item Hderef Hi) as (l & Hl & Hc). eauto. }
  split; [|split; [|split]].
  - destruct (validateQuantity_verdict self (request_quantity request) w)
      as [[Hq _] | [r Hq]].
    2:{ left. exists (ValidationError r). split; [|discriminate].
        unfold addItem. step Hv. stop Hq. reflexivity. }
    destruct (validateProduct_verdict (request_product request) w) as [Hp | [r Hp]].
    2:{ left. exists (ValidationError r). split; [|discriminate].
        unfold addItem. step Hv. step (validateQuantity_accepts self _ w Hq). stop Hp.
        reflexivity. }
    destruct (findIndex (fun item' => String.eqb (productId (product item'))
                                        (productId (request_product request))) its)
      as [idx|] eqn:Hfind.
    + destruct (Hline _ idx Hfind) as (l & item & Hl & Hcell).
      pose proof (addItem_merge_run ttl self tk id w e arr its Hw Hid He Hlive Harr Hderef
                    newItemId request idx l item Hq Hp Hfind Hl Hcell) as Hrun.
      cbv zeta in Hrun. rewrite Hrun.
      destruct (maxQty self <? quantity item + request_quantity request)%float.
      * left. eexists. split; [reflexivity | discriminate].
      * right. destruct (items_of_after_write_some (heap w) (entry_cart e) arr its l
                           (mkCartItem (itemId item) (product item)
                              (quantity item + request_quantity request) (unitPrice item)
                              (round2 (unitPrice item
                                       * (quantity item + request_quantity request)))
                              (addedAt item))
                           Harr Hderef) as [its1 Hits1].
        match goal with
        | |- context [settle self tk ?c ?w1] =>
            apply (Hevict c w1 its1 eq_refl Hkey Hits1)
        end.
    + right.
      rewrite (addItem_push_run ttl self tk id w e arr its Hw Hid He Hlive Harr Hderef
                 newItemId request Hq Hp Hfind).
      match goal with
      | |- context [settle self tk ?c ?w1] =>
          apply (Hevict c w1 _ eq_refl Hkey
                   (items_of_after_push (heap w) _ arr its _ Harr Hderef))
      end.
  - rewrite (removeItem_run ttl self tk id w e arr its Hw Hid He Hlive Harr Hderef
               targetItemId).
    destruct (findIndex _ its) as [idx|].
    + right.
      match goal with
      | |- context [settle self tk ?c ?w1] =>
          apply (Hevict c w1 _ eq_refl Hkey
                   (items_of_after_delete (heap w) _ arr its idx Harr Hderef))
      end.
    + left. eexists. split; [reflexivity | discriminate].
  - destruct (validateQuantity_verdict self q w) as [[Hq _] | [r Hq]].
    2:{ left. exists (ValidationError r). split; [|discriminate].
        unfold updateItemQuantity. step Hv. stop Hq. reflexivity. }
    destruct (findIndex (fun i => String.eqb (itemId i) targetItemId) its)
      as [idx|] eqn:Hfind.
    + right. destruct (Hline _ idx Hfind) as (l & item & Hl & Hcell).
      rewrite (updateItemQuantity_run ttl self tk id w e arr its Hw Hid He Hlive Harr
                 Hderef targetItemId q idx l item Hq Hfind Hl Hcell).
      destruct (items_of_after_write_some (heap w) (entry_cart e) arr its l
                  (mkCartItem (itemId item) (product item) q (unitPrice item)
                     (round2 (unitPrice item * q)) (addedAt item))
                  Harr Hderef) as [its1 Hits1].
      match goal with
        | |- context [settle self tk ?c ?w1] =>
            apply (Hevict c w1 its1 eq_refl Hkey Hits1)
        end.
    + left. exists (ResourceNotFoundError "Item" targetItemId). split; [|discriminate].
      apply (updateItemQuantity_missing ttl self tk id w e arr its Hw Hid He Hlive Harr
               Hderef targetItemId q Hq Hfind).
  - rewrite (clearCart_run ttl self tk id w e Hw Hid He Hlive).
    match goal with
    | |- context [settle self tk ?c ?w1] => apply (Hevict c w1 [] eq_refl Hkey)
    end.
    apply items_of_Some. exists []. split; [|reflexivity].
    cbn. apply list_lookup_middle. reflexivity.
Qed.

Lemma write_after_deadline_evicts_witness :
  fst (clearCart defaultService (mkTicks 300000 300000 300000 300001) sample_id
         one_line_world)
  = Thrown (CartExpiredError sample_id)
  /\ carts (snd (clearCart defaultService (mkTicks 300000 300000 300000 300001)
                   sample_id one_line_world))
     = delete sample_id (carts one_line_world).
Proof.
  refine (proj2 (proj2 (proj2
            (write_after_deadline_evicts 5 defaultService
               (mkTicks 300000 300000 300000 300001) "item-2" sample_id "item-1"
               (mkAddItemRequest plan 1%float) 1%float one_line_world
               (mkCartEntry
                  (mkCart sample_id 0%nat 75%float 6.75%float 81.75%float 0 1002 300000
                     None) 0)
               [mkCartItem "item-1" plan 1%float 75%float 75%float 1001]
               _ _ _ _ _)))).
  - split; reflexivity.
  - reflexivity.
  - split; [|split]; vm_compute; reflexivity.
  - vm_compute. discriminate.
  - vm_compute. reflexivity.
Defined.

(** X18: With a well-formed id and accepted arguments, every method that reads
    the session stops at the read when the session cannot be served: when
    the store has no entry each throws [ResourceNotFoundError] for the cart
    and the world is as it was; when the entry is past its deadline each
    throws [CartExpiredError], the entry is removed and nothing else has
    changed.  No line is touched in either case. *)
Theorem unavailable_session_stops_every_call (ttl : Z) (self : CartService.t)
    (tk : Ticks) (newItemId id targetItemId : string) (request : AddItemRequest)
    (q : float) (w : World) :
  wired ttl self ->
  regex_test uuidRegex id = true ->
  quantity_rejected self (request_quantity request) = false ->
  validateProduct (request_product request) w = (Returned tt, w) ->
  quantity_rejected self q = false ->
  let every (r : Outcome Cart * World) :=
    CartService.getCart self (t_read tk) id w = r
    /\ addItem self tk newItemId id request w = r
    /\ removeItem self tk id targetItemId w = r
    /\ updateItemQuantity self tk id targetItemId q w = r
    /\ clearCart self tk id w = r in
  (carts w !! id = None -> every (Thrown (ResourceNotFoundError "Cart" id), w))
  /\ (forall e, carts w !! id = Some e -> deadline ttl e < t_read tk ->
                every (Thrown (CartExpiredError id),
                       mkWorld (delete id (carts w)) (heap w))).
Proof.
  intros Hw Hid Hq Hp Hq' every.
  assert (Hv : validateCartId id w = (Returned tt, w))
    by (unfold validateCartId; rewrite Hid; reflexivity).
  pose proof (validateQuantity_accepts self _ w Hq) as Hvq.
  pose proof (validateQuantity_accepts self _ w Hq') as Hvq'.
  assert (Hall : forall err w', CartService.getCart self (t_read tk) id w = (Thrown err, w') ->
                                every (Thrown err, w')).
  { intros err w' Hget. split; [exact Hget|].
    unfold addItem, removeItem, updateItemQuantity, clearCart.
    split; [step Hv; step Hvq; step Hp; stop Hget; reflexivity|].
    split; [step Hv; stop Hget; reflexivity|].
    split; [step Hv; step Hvq'; stop Hget; reflexivity|].
    step Hv. stop Hget. reflexivity. }
  split.
  - intros Hnone. apply Hall.
    rewrite (service_getCart_valid _ _ _ _ _ Hw Hid).
    rewrite (store_getCart_absent _ _ _ _ Hnone). reflexivity.
  - intros e He Hdead. apply Hall.
    rewrite (service_getCart_valid _ _ _ _ _ Hw Hid).
    rewrite (store_getCart_expired _ _ _ _ _ He (dead_after _ _ _ Hdead)). reflexivity.
Qed.

Lemma unavailable_session_stops_every_call_witness :
  addItem defaultService sample_ticks "item-1" sample_id (mkAddItemRequest plan 1%float)
    initial
  = (Thrown (ResourceNotFoundError "Cart" sample_id), initial)
  /\ clearCart defaultService (mkTicks 300001 300001 300001 300001) sample_id
       one_line_world
     = (Thrown (CartExpiredError sample_id),
        mkWorld (delete sample_id (carts one_line_world)) (heap one_line_world)).
Proof.
  assert (Hwired : wired 5 defaultService) by (split; reflexivity).
  split.
  - destruct (unavailable_session_stops_every_call 5 defaultService sample_ticks "item-1"
                sample_id "item-1" (mkAddItemRequest plan 1%float) 1%float initial
                Hwired eq_refl eq_refl eq_refl eq_refl) as [Habsent _].
    exact (proj1 (proj2 (Habsent eq_refl))).
  - destruct (unavailable_session_stops_every_call 5 defaultService
                (mkTicks 300001 300001 300001 300001) "item-1"
                sample_id "item-1" (mkAddItemRequest plan 1%float) 1%float one_line_world
                Hwired eq_refl eq_refl eq_refl eq_refl) as [_ Hexpired].
    assert (Hentry : carts one_line_world !! sample_id
                     = Some (mkCartEntry
                               (mkCart sample_id 0%nat 75%float 6.75%float 81.75%float
                                  0 1002 300000 None) 0))
      by (vm_compute; reflexivity).
    assert (Hlate : deadline 5 (mkCartEntry
                                  (mkCart sample_id 0%nat 75%float 6.75%float 81.75%float
                                     0 1002 300000 None) 0) < 300001)
      by (vm_compute; reflexivity).
    exact (proj2 (proj2 (proj2 (proj2 (Hexpired _ Hentry Hlate))))).
Defined.

(** ** What every reachable store satisfies *)

Lemma deref_ext (h h' : Heap) (arr : list loc) :
  (forall l, l ∈ arr -> cells h' !! l = cells h !! l) ->
  deref h' arr = deref h arr.
Proof.
  unfold deref. induction arr as [|l arr IH]; intros Hsame; [reflexivity|].
  cbn. rewrite (Hsame l) by left. rewrite IH; [reflexivity|].
  intros l' Hl'. apply Hsame. right. exact Hl'.
Qed.

Lemma deref_in_heap (h : Heap) (arr : list loc) (its : list CartItem) (l : loc) :
  deref h arr = Some its -> l ∈ arr -> is_Some (cells h !! l).
Proof.
  rewrite deref_Forall2. intros HF Hl. apply list_elem_of_lookup in Hl as [i Hi].
  destruct (Forall2_lookup_l _ _ _ _ _ HF Hi) as (y & _ & Hy). eauto.
Qed.

Lemma owned_items_of (h : Heap) (c : Cart) (its : list CartItem) :
  items_of h c = Some its ->
  arrays h !! items c = Some (owned h c) /\ deref h (owned h c) = Some its.
Proof.
  intros Hits. apply items_of_Some in Hits as (arr & Harr & Hd).
  unfold owned. rewrite Harr. cbn. split; [reflexivity | exact Hd].
Qed.

(** Entries taken from a coherent store stay coherent in a heap that kept
    their arrays and item objects. *)
Lemma sessions_ok_restrict (self : CartService.t) (w : World)
    (cs' : gmap string CartEntry) (h' : Heap) :
  sessions_ok self w ->
  (forall id e, cs' !! id = Some e -> carts w !! id = Some e) ->
  (forall id e, cs' !! id = Some e ->
     arrays h' !! items (entry_cart e) = arrays (heap w) !! items (entry_cart e)) ->
  (forall id e l, cs' !! id = Some e -> l ∈ owned (heap w) (entry_cart e) ->
     cells h' !! l = cells (heap w) !! l) ->
  sessions_ok self (mkWorld cs' h').
Proof.
  intros [Hent Hsep] Hsub Harrs Hcells.
  assert (Hown : forall id e, cs' !! id = Some e ->
                   owned h' (entry_cart e) = owned (heap w) (entry_cart e)).
  { intros id e He. unfold owned. rewrite (Harrs id e He). reflexivity. }
  split.
  - intros id e He. cbn in He. destruct (Hent id e (Hsub id e He)) as (H1 & H2 & H3 & its & Hits & Hpr).
    split; [exact H1|]. split; [exact H2|]. split; [exact H3|].
    exists its. split; [|exact Hpr]. cbn.
    destruct (owned_items_of _ _ _ Hits) as [Harr Hd].
    apply items_of_Some. exists (owned (heap w) (entry_cart e)). split.
    + rewrite (Harrs id e He). exact Harr.
    + rewrite (deref_ext (heap w) h'); [exact Hd|].
      intros l Hl. apply (Hcells id e l He Hl).
  - intros id1 id2 e1 e2 Hne H1 H2. cbn in H1, H2 |- *.
    rewrite (Hown id1 e1 H1), (Hown id2 e2 H2).
    apply (Hsep id1 id2 e1 e2 Hne (Hsub _ _ H1) (Hsub _ _ H2)).
Qed.

(** Filing a coherent entry that shares nothing with the other sessions. *)
Lemma sessions_ok_insert (self : CartService.t) (w : World) (id : string)
    (e' : CartEntry) :
  sessions_ok self w ->
  entry_ok self (heap w) id e' ->
  (forall id2 e2, id2 <> id -> carts w !! id2 = Some e2 ->
     items (entry_cart e') <> items (entry_cart e2)
     /\ forall l, l ∈ owned (heap w) (entry_cart e') ->
                  l ∉ owned (heap w) (entry_cart e2)) ->
  sessions_ok self (mkWorld (<[id := e']> (carts w)) (heap w)).
Proof.
  intros [Hent Hsep] Hnew Hapart. split.
  - intros id1 e1. cbn. destruct (decide (id1 = id)) as [->|Hne].
    + rewrite lookup_insert_eq. intros [= <-]. exact Hnew.
    + rewrite lookup_insert_ne by congruence. apply Hent.
  - intros id1 id2 e1 e2 Hne. cbn.
    destruct (decide (id1 = id)) as [->|H1]; destruct (decide (id2 = id)) as [->|H2].
    + contradiction.
    + rewrite lookup_insert_eq, lookup_insert_ne by congruence.
      intros [= <-] He2. apply (Hapart id2 e2 H2 He2).
    + rewrite lookup_insert_eq, lookup_insert_ne by congruence.
      intros He1 [= <-]. destruct (Hapart id1 e1 H1 He1) as [Ha Hl].
      split; [congruence|]. intros l Hl1 Hl2. apply (Hl l Hl2 Hl1).
    + rewrite !lookup_insert_ne by congruence. apply Hsep. exact Hne.
Qed.

Lemma sessions_ok_delete (self : CartService.t) (w : World) (id : string) :
  sessions_ok self w -> sessions_ok self (mkWorld (delete id (carts w)) (heap w)).
Proof.
  intros Hok. apply (sessions_ok_restrict self w); [exact Hok| | |].
  - intros id' e He. apply lookup_delete_Some in He as [_ He]. exact He.
  - reflexivity.
  - reflexivity.
Qed.

(** The sessions other than [id] after a change confined to the array and
    the item objects of [id]. *)
Lemma sessions_ok_evicted (self : CartService.t) (w : World) (id : string)
    (e : CartEntry) (h1 : Heap) :
  sessions_ok self w ->
  carts w !! id = Some e ->
  heap_kept (items (entry_cart e)) (owned (heap w) (entry_cart e)) (heap w) h1 ->
  sessions_ok self (mkWorld (delete id (carts w)) h1).
Proof.
  intros Hok He [Ha Hc]. pose proof Hok as [Hent Hsep].
  apply (sessions_ok_restrict self w); [exact Hok| | |].
  - intros id' e' He'. apply lookup_delete_Some in He' as [_ He']. exact He'.
  - intros id' e' He'. apply lookup_delete_Some in He' as [Hne He'].
    destruct (Hsep id' id e' e ltac:(congruence) He' He) as [Hitems _].
    destruct (Hent id' e' He') as (_ & _ & _ & its & Hits & _).
    apply Ha; [exact Hitems|].
    destruct (owned_items_of _ _ _ Hits) as [Harr _]. eauto.
  - intros id' e' l He' Hl. apply lookup_delete_Some in He' as [Hne He'].
    destruct (Hsep id' id e' e ltac:(congruence) He' He) as [_ Hapart].
    destruct (Hent id' e' He') as (_ & _ & _ & its & Hits & _).
    destruct (owned_items_of _ _ _ Hits) as [_ Hd].
    apply Hc; [apply Hapart, Hl|]. apply (deref_in_heap _ _ _ _ Hd Hl).
Qed.

Lemma sessions_ok_settled (self : CartService.t) (w : World) (id : string)
    (e : CartEntry) (h1 : Heap) (c' : Cart) (its' : list CartItem) :
  sessions_ok self w ->
  carts w !! id = Some e ->
  heap_kept (items (entry_cart e)) (owned (heap w) (entry_cart e)) (heap w) h1 ->
  same_session c' (entry_cart e) ->
  items_of h1 c' = Some its' -> priced_from its' c' ->
  (items c' = items (entry_cart e) \/ (length (arrays (heap w)) <= items c')%nat) ->
  (forall l, l ∈ owned h1 c' ->
             l ∈ owned (heap w) (entry_cart e) \/ (length (cells (heap w)) <= l)%nat) ->
  sessions_ok self (mkWorld (<[id := mkCartEntry c' (entry_createdAt e)]> (carts w)) h1).
Proof.
  intros Hok He Hkept (S1 & S2 & S3 & S4) Hits Hpr Harr Hcells.
  pose proof Hok as [Hent Hsep].
  destruct (Hent id e He) as (K1 & K2 & K3 & _).
  enough (Hfinal : sessions_ok self
                     (mkWorld (<[id := mkCartEntry c' (entry_createdAt e)]>
                                 (carts (mkWorld (delete id (carts w)) h1)))
                              (heap (mkWorld (delete id (carts w)) h1)))).
  { cbn in Hfinal. rewrite insert_delete_eq in Hfinal. exact Hfinal. }
  apply (sessions_ok_insert self (mkWorld (delete id (carts w)) h1) id).
  - apply (sessions_ok_evicted self w id e h1 Hok He Hkept).
  - unfold entry_ok. cbn.
    split; [congruence|]. split; [congruence|]. split; [congruence|].
    exists its'. split; [exact Hits | exact Hpr].
  - intros id2 e2 Hne He2. cbn in He2 |- *.
    apply lookup_delete_Some in He2 as [_ He2].
    destruct (Hsep id2 id e2 e Hne He2 He) as [Hitems Hapart].
    destruct (Hent id2 e2 He2) as (_ & _ & _ & its2 & Hits2 & _).
    destruct (owned_items_of _ _ _ Hits2) as [Harr2 Hd2].
    destruct Hkept as [Ha Hc].
    assert (Hown2 : owned h1 (entry_cart e2) = owned (heap w) (entry_cart e2)).
    { unfold owned. rewrite (Ha _ Hitems) by eauto. reflexivity. }
    split.
    + destruct Harr as [-> | Hfresh]; [congruence|].
      apply lookup_lt_Some in Harr2. lia.
    + intros l Hl. rewrite Hown2. intros Hl2.
      destruct (Hcells l Hl) as [Hold | Hfresh].
      * apply (Hapart l Hl2 Hold).
      * destruct (deref_in_heap _ _ _ _ Hd2 Hl2) as [x Hx].
        apply lookup_lt_Some in Hx. lia.
Qed.

Lemma heap_kept_item_write (a : loc) (ls : list loc) (h : Heap) (l : loc) (it : CartItem) :
  l ∈ ls -> heap_kept a ls h (mkHeap (arrays h) (<[l := it]> (cells h))).
Proof.
  intros Hl. split; [reflexivity|]. cbn. intros l' Hl' _.
  apply list_lookup_insert_ne. intros ->. contradiction.
Qed.

Lemma heap_kept_array_write (a : loc) (ls : list loc) (h : Heap) (xs : list loc)
    (extra : list CartItem) :
  heap_kept a ls h (mkHeap (<[a := xs]> (arrays h)) (cells h ++ extra)).
Proof.
  split; cbn.
  - intros a2 Ha2 _. apply list_lookup_insert_ne. congruence.
  - intros l _ [x Hx]. rewrite Hx. apply lookup_app_l_Some, Hx.
Qed.

Lemma owned_after_array_write (h : Heap) (c : Cart) (xs : list loc)
    (cs : list CartItem) :
  is_Some (arrays h !! items c) ->
  owned (mkHeap (<[items c := xs]> (arrays h)) cs) c = xs.
Proof.
  intros [ys Hy]. unfold owned. cbn.
  rewrite list_lookup_insert_eq by (eapply lookup_lt_Some; exact Hy). reflexivity.
Qed.

Lemma heap_kept_array_set (a : loc) (ls : list loc) (h : Heap) (xs : list loc) :
  heap_kept a ls h (mkHeap (<[a := xs]> (arrays h)) (cells h)).
Proof.
  split; cbn; [|reflexivity].
  intros a2 Ha2 _. apply list_lookup_insert_ne. congruence.
Qed.

Lemma heap_kept_array_new (a : loc) (ls : list loc) (h : Heap) (xs : list loc) :
  heap_kept a ls h (mkHeap (arrays h ++ [xs]) (cells h)).
Proof.
  split; cbn; [|reflexivity].
  intros a2 _ [x Hx]. rewrite Hx. apply lookup_app_l_Some, Hx.
Qed.

Lemma call_ok_thrown (self : CartService.t) (err : DomainError) (w : World) :
  sessions_ok self w -> call_ok self (Thrown err, w).
Proof. intros Hok. split; [exact Hok | discriminate]. Qed.

(** Pricing and storing after a change confined to the session of [id]
    leaves every session coherent, whether the store accepts the write or
    evicts the entry; the cart returned is the one stored. *)
Lemma settle_call_ok (ttl : Z) (self : CartService.t) (tk : Ticks) (w w1 : World)
    (id : string) (e : CartEntry) (c : Cart) (its' : list CartItem) :
  wired ttl self ->
  sessions_ok self w ->
  carts w !! id = Some e ->
  carts w1 = carts w ->
  heap_kept (items (entry_cart e)) (owned (heap w) (entry_cart e)) (heap w) (heap w1) ->
  cartId c = id ->
  same_session c (entry_cart e) ->
  items_of (heap w1) c = Some its' ->
  (items c = items (entry_cart e) \/ (length (arrays (heap w)) <= items c)%nat) ->
  (forall l, l ∈ owned (heap w1) c ->
             l ∈ owned (heap w) (entry_cart e) \/ (length (cells (heap w)) <= l)%nat) ->
  call_ok self (settle self tk c w1).
Proof.
  intros Hw Hok He Hcarts Hkept Hkey Hsame Hits Harr Hcells.
  assert (He1 : carts w1 !! cartId c = Some e) by (rewrite Hcarts, Hkey; exact He).
  destruct (price_and_store_run ttl self tk c w1 e its' Hw He1 Hits)
    as (priced & Hsess & Hit & _ & Hpr & Hrun).
  rewrite Hrun. destruct (isExpired ttl (t_write tk) e); rewrite Hcarts, Hkey.
  - apply call_ok_thrown.
    apply (sessions_ok_evicted self w id e (heap w1) Hok He Hkept).
  - split; cbn.
    + apply (sessions_ok_settled self w id e (heap w1) priced its' Hok He Hkept).
      * destruct Hsess as (H1 & H2 & H3 & H4), Hsame as (G1 & G2 & G3 & G4).
        repeat split; congruence.
      * unfold items_of. rewrite Hit. exact Hits.
      * exact Hpr.
      * rewrite Hit. exact Harr.
      * unfold owned. rewrite Hit. exact Hcells.
    + intros c' [= <-]. destruct Hsess as (H1 & _). rewrite H1, Hkey.
      eexists. split; [apply lookup_insert_eq | reflexivity].
Qed.

Lemma service_getCart_cases (ttl : Z) (self : CartService.t) (now : Z) (id : string)
    (w : World) :
  wired ttl self ->
  regex_test uuidRegex id = true ->
  (carts w !! id = None
   /\ CartService.getCart self now id w = (Thrown (ResourceNotFoundError "Cart" id), w))
  \/ (exists e, carts w !! id = Some e /\ isExpired ttl now e = true
                /\ CartService.getCart self now id w
                   = (Thrown (CartExpiredError id),
                      mkWorld (delete id (carts w)) (heap w)))
  \/ (exists e, carts w !! id = Some e /\ isExpired ttl now e = false
                /\ CartService.getCart self now id w = (Returned (entry_cart e), w)).
Proof.
  intros Hw Hid. rewrite (service_getCart_valid _ _ _ _ _ Hw Hid).
  destruct (carts w !! id) as [e|] eqn:He.
  - destruct (isExpired ttl now e) eqn:Hx.
    + right. left. exists e. rewrite (store_getCart_expired _ _ _ _ _ He Hx). auto.
    + right. right. exists e. rewrite (store_getCart_live _ _ _ _ _ He Hx). auto.
  - left. rewrite (store_getCart_absent _ _ _ _ He). auto.
Qed.

Section Coherence.

Variables (ttl : Z) (self : CartService.t).
Hypothesis Hw : wired ttl self.

Lemma getCart_call_ok (now : Z) (id : string) (w : World) :
  sessions_ok self w -> call_ok self (CartService.getCart self now id w).
Proof.
  intros Hok.
  destruct (validateCartId_verdict id w) as [[Hid Hv] | [_ Hv]];
    [|unfold CartService.getCart; stop Hv; apply call_ok_thrown, Hok].
  destruct (service_getCart_cases ttl self now id w Hw Hid)
    as [[_ ->] | [(e & _ & _ & ->) | (e & He & _ & ->)]].
  - apply call_ok_thrown, Hok.
  - apply call_ok_thrown, sessions_ok_delete, Hok.
  - split; [exact Hok|]. cbn. intros c [= <-]. exists e. split; [|reflexivity].
    destruct Hok as [Hent _]. destruct (Hent id e He) as (-> & _). exact He.
Qed.

Lemma deleteCart_sessions_ok (id : string) (w : World) :
  sessions_ok self w -> sessions_ok self (snd (CartService.deleteCart self id w)).
Proof.
  intros Hok. unfold CartService.deleteCart.
  destruct (validateCartId_verdict id w) as [[Hid Hv] | [_ Hv]];
    [step Hv | stop Hv; exact Hok].
  rewrite (wired_deleteCart ttl self Hw). apply sessions_ok_delete, Hok.
Qed.

Lemma createCart_call_ok (now : Z) (newCartId : string) (meta : option CartMetadata)
    (w : World) :
  sessions_ok self w ->
  call_ok self (CartService.createCart self now newCartId meta w).
Proof.
  intros Hok. unfold CartService.createCart. rewrite (wired_createCart ttl self Hw).
  set (h1 := mkHeap (arrays (heap w) ++ [[]]) (cells (heap w))).
  set (c := mkCart newCartId (length (arrays (heap w))) 0%float 0%float 0%float now now
              (now + ttlMinutes self * 60 * 1000) meta).
  assert (Hok1 : sessions_ok self (mkWorld (carts w) h1)).
  { apply (sessions_ok_restrict self w); [exact Hok | auto | |reflexivity].
    intros id e He. destruct Hok as [Hent _].
    destruct (Hent id e He) as (_ & _ & _ & its & Hits & _).
    destruct (owned_items_of _ _ _ Hits) as [Harr _].
    cbn. rewrite Harr. apply lookup_app_l_Some, Harr. }
  assert (Harr : arrays h1 !! items c = Some []) by (apply list_lookup_middle; reflexivity).
  split; cbn.
  2:{ intros c' [= <-]. eexists. split; [apply lookup_insert_eq | reflexivity]. }
  apply (sessions_ok_insert self (mkWorld (carts w) h1) newCartId (mkCartEntry c now) Hok1).
  - unfold entry_ok. cbn. repeat split.
    exists []. split; [|repeat split].
    apply items_of_Some. exists []. split; [exact Harr | reflexivity].
  - intros id2 e2 _ He2. cbn in He2 |- *. split.
    + destruct Hok as [Hent _].
      destruct (Hent id2 e2 He2) as (_ & _ & _ & its & Hits & _).
      destruct (owned_items_of _ _ _ Hits) as [Harr2 _].
      apply lookup_lt_Some in Harr2. lia.
    + intros l Hl. unfold owned in Hl. rewrite Harr in Hl. cbn in Hl.
      apply elem_of_nil in Hl. destruct Hl.
Qed.

End Coherence.

Section CoherentMutations.

Variables (ttl : Z) (self : CartService.t) (tk : Ticks) (id : string) (w : World).
Hypothesis Hw : wired ttl self.
Hypothesis Hok : sessions_ok self w.

(** What the read of a mutating method finds when it serves the session. *)
Lemma live_session_lines (e : CartEntry) :
  carts w !! id = Some e ->
  cartId (entry_cart e) = id
  /\ exists its,
       arrays (heap w) !! items (entry_cart e) = Some (owned (heap w) (entry_cart e))
       /\ deref (heap w) (owned (heap w) (entry_cart e)) = Some its.
Proof.
  intros He. destruct Hok as [Hent _].
  destruct (Hent id e He) as (Hkey & _ & _ & its & Hits & _).
  split; [exact Hkey|]. exists its. apply (owned_items_of _ _ _ Hits).
Qed.

Lemma clearCart_call_ok : call_ok self (clearCart self tk id w).
Proof.
  destruct (validateCartId_verdict id w) as [[Hid Hv] | [_ Hv]];
    [|unfold clearCart; stop Hv; apply call_ok_thrown, Hok].
  destruct (service_getCart_cases ttl self (t_read tk) id w Hw Hid)
    as [[_ Hget] | [(e & _ & _ & Hget) | (e & He & Hlive & _)]].
  - unfold clearCart. step Hv. stop Hget. apply call_ok_thrown, Hok.
  - unfold clearCart. step Hv. stop Hget. apply call_ok_thrown, sessions_ok_delete, Hok.
  - rewrite (clearCart_run ttl self tk id w e Hw Hid He Hlive).
    destruct (live_session_lines e He) as (Hkey & its & Harr & Hderef).
    match goal with
    | |- context [settle self tk ?c ?w1] =>
        assert (Ha1 : arrays (heap w1) !! items c = Some [])
          by (apply list_lookup_middle; reflexivity);
        apply (settle_call_ok ttl self tk w w1 id e c [] Hw Hok He eq_refl)
    end.
    + apply heap_kept_array_new.
    + exact Hkey.
    + repeat split.
    + apply items_of_Some. exists []. split; [exact Ha1 | reflexivity].
    + right. cbn. lia.
    + intros l Hl. unfold owned in Hl. rewrite Ha1 in Hl. cbn in Hl.
      apply elem_of_nil in Hl. destruct Hl.
Qed.

Lemma removeItem_call_ok (targetItemId : string) :
  call_ok self (removeItem self tk id targetItemId w).
Proof.
  destruct (validateCartId_verdict id w) as [[Hid Hv] | [_ Hv]];
    [|unfold removeItem; stop Hv; apply call_ok_thrown, Hok].
  destruct (service_getCart_cases ttl self (t_read tk) id w Hw Hid)
    as [[_ Hget] | [(e & _ & _ & Hget) | (e & He & Hlive & _)]].
  - unfold removeItem. step Hv. stop Hget. apply call_ok_thrown, Hok.
  - unfold removeItem. step Hv. stop Hget. apply call_ok_thrown, sessions_ok_delete, Hok.
  - destruct (live_session_lines e He) as (Hkey & its & Harr & Hderef).
    rewrite (removeItem_run ttl self tk id w e _ its Hw Hid He Hlive Harr Hderef
               targetItemId).
    destruct (findIndex _ its) as [idx|]; [|apply call_ok_thrown, Hok].
    pose proof (items_of_after_delete (heap w) _ _ its idx Harr Hderef) as Hits1.
    match goal with
    | |- context [settle self tk ?c ?w1] =>
        apply (settle_call_ok ttl self tk w w1 id e c (delete idx its) Hw Hok He
                 eq_refl)
    end.
    + apply heap_kept_array_set.
    + exact Hkey.
    + repeat split.
    + exact Hits1.
    + left. reflexivity.
    + intros l Hl. left. cbn [heap] in Hl.
      rewrite owned_after_array_write in Hl by eauto.
      eapply list_elem_of_delete_inv. exact Hl.
Qed.

Lemma updateItemQuantity_call_ok (targetItemId : string) (q : float) :
  call_ok self (updateItemQuantity self tk id targetItemId q w).
Proof.
  destruct (validateCartId_verdict id w) as [[Hid Hv] | [_ Hv]];
    [|unfold updateItemQuantity; stop Hv; apply call_ok_thrown, Hok].
  destruct (validateQuantity_verdict self q w) as [[Hq Hvq] | [r Hvq]];
    [|unfold updateItemQuantity; step Hv; stop Hvq; apply call_ok_thrown, Hok].
  destruct (service_getCart_cases ttl self (t_read tk) id w Hw Hid)
    as [[_ Hget] | [(e & _ & _ & Hget) | (e & He & Hlive & _)]].
  - unfold updateItemQuantity. step Hv. step Hvq. stop Hget. apply call_ok_thrown, Hok.
  - unfold updateItemQuantity. step Hv. step Hvq. stop Hget.
    apply call_ok_thrown, sessions_ok_delete, Hok.
  - destruct (live_session_lines e He) as (Hkey & its & Harr & Hderef).
    destruct (findIndex (fun i => String.eqb (itemId i) targetItemId) its)
      as [idx|] eqn:Hfind.
    2:{ rewrite (updateItemQuantity_missing ttl self tk id w e _ its Hw Hid He Hlive Harr
                   Hderef targetItemId q Hq Hfind). apply call_ok_thrown, Hok. }
    destruct (findIndex_Some _ its idx Hfind) as (item & Hi & _).
    destruct (deref_lookup _ _ _ idx item Hderef Hi) as (l & Hl & Hcell).
    rewrite (updateItemQuantity_run ttl self tk id w e _ its Hw Hid He Hlive Harr Hderef
               targetItemId q idx l item Hq Hfind Hl Hcell).
    destruct (items_of_after_write_some (heap w) (entry_cart e) _ its l
                (mkCartItem (itemId item) (product item) q (unitPrice item)
                   (round2 (unitPrice item * q)) (addedAt item))
                Harr Hderef) as [its1 Hits1].
    match goal with
    | |- context [settle self tk ?c ?w1] =>
        apply (settle_call_ok ttl self tk w w1 id e c its1 Hw Hok He eq_refl)
    end.
    + apply heap_kept_item_write. eapply list_elem_of_lookup_2. exact Hl.
    + exact Hkey.
    + repeat split.
    + exact Hits1.
    + left. reflexivity.
    + intros l' Hl'. left. exact Hl'.
Qed.

Lemma addItem_call_ok (newItemId : string) (request : AddItemRequest) :
  call_ok self (addItem self tk newItemId id request w).
Proof.
  destruct (validateCartId_verdict id w) as [[Hid Hv] | [_ Hv]];
    [|unfold addItem; stop Hv; apply call_ok_thrown, Hok].
  destruct (validateQuantity_verdict self (request_quantity request) w)
    as [[Hq Hvq] | [r Hvq]]; [|unfold addItem; step Hv; stop Hvq; apply call_ok_thrown, Hok].
  destruct (validateProduct_verdict (request_product request) w) as [Hp | [r Hp]];
    [|unfold addItem; step Hv; step Hvq; stop Hp; apply call_ok_thrown, Hok].
  destruct (service_getCart_cases ttl self (t_read tk) id w Hw Hid)
    as [[_ Hget] | [(e & _ & _ & Hget) | (e & He & Hlive & _)]].
  - unfold addItem. step Hv. step Hvq. step Hp. stop Hget. apply call_ok_thrown, Hok.
  - unfold addItem. step Hv. step Hvq. step Hp. stop Hget. apply call_ok_thrown, sessions_ok_delete, Hok.
  - destruct (live_session_lines e He) as (Hkey & its & Harr & Hderef).
    destruct (findIndex (fun item' => String.eqb (productId (product item'))
                                        (productId (request_product request))) its)
      as [idx|] eqn:Hfind.
    + destruct (findIndex_Some _ its idx Hfind) as (item & Hi & _).
      destruct (deref_lookup _ _ _ idx item Hderef Hi) as (l & Hl & Hcell).
      pose proof (addItem_merge_run ttl self tk id w e _ its Hw Hid He Hlive Harr Hderef
                    newItemId request idx l item Hq Hp Hfind Hl Hcell) as Hrun.
      cbv zeta in Hrun. rewrite Hrun.
      destruct (maxQty self <? quantity item + request_quantity request)%float;
        [apply call_ok_thrown, Hok|].
      destruct (items_of_after_write_some (heap w) (entry_cart e) _ its l
                  (mkCartItem (itemId item) (product item)
                     (quantity item + request_quantity request) (unitPrice item)
                     (round2 (unitPrice item * (quantity item + request_quantity request)))
                     (addedAt item))
                  Harr Hderef) as [its1 Hits1].
      match goal with
      | |- context [settle self tk ?c ?w1] =>
          apply (settle_call_ok ttl self tk w w1 id e c its1 Hw Hok He eq_refl)
      end.
      * apply heap_kept_item_write. eapply list_elem_of_lookup_2. exact Hl.
      * exact Hkey.
      * repeat split.
      * exact Hits1.
      * left. reflexivity.
      * intros l' Hl'. left. exact Hl'.
    + rewrite (addItem_push_run ttl self tk id w e _ its Hw Hid He Hlive Harr Hderef
                 newItemId request Hq Hp Hfind).
      pose proof (items_of_after_push (heap w) (entry_cart e) _ its
                    (mkCartItem newItemId (request_product request)
                       (request_quantity request) (price (request_product request))
                       (round2 (price (request_product request)
                                * request_quantity request))
                       (t_added tk))
                    Harr Hderef) as Hits1.
      match goal with
      | |- context [settle self tk ?c ?w1] =>
          apply (settle_call_ok ttl self tk w w1 id e c
                   (its ++ [mkCartItem newItemId (request_product request)
                              (request_quantity request) (price (request_product request))
                              (round2 (price (request_product request)
                                       * request_quantity request))
                              (t_added tk)])
                   Hw Hok He eq_refl)
      end.
      * apply heap_kept_array_write.
      * exact Hkey.
      * repeat split.
      * exact Hits1.
      * left. reflexivity.
      * intros l Hl. cbn [heap] in Hl.
        rewrite owned_after_array_write in Hl by eauto.
        apply elem_of_app in Hl as [Hl | Hl]; [left; exact Hl | right].
        apply list_elem_of_singleton in Hl. lia.
Qed.

End CoherentMutations.

Lemma initial_sessions_ok (self : CartService.t) : sessions_ok self initial.
Proof.
  split.
  - intros id e. cbn. rewrite lookup_empty. discriminate.
  - intros id1 id2 e1 e2 _. cbn. rewrite lookup_empty. discriminate.
Qed.

Lemma exec_sessions_ok (ttl : Z) (self : CartService.t) (op : EngineOp) (w : World) :
  wired ttl self ->
  sessions_ok self w ->
  sessions_ok self (snd (exec self op w))
  /\ forall c, fst (exec self op w) = Returned (Some c) ->
               exists e, carts (snd (exec self op w)) !! cartId c = Some e
                         /\ entry_cart e = c.
Proof.
  intros Hw Hok.
  assert (Hcart : forall r : Outcome Cart * World,
             call_ok self r ->
             sessions_ok self (snd r)
             /\ forall c, match fst r with
                          | Returned c0 => Returned (Some c0)
                          | Thrown err => Thrown err
                          | Fault => Fault
                          end = Returned (Some c) ->
                          exists e, carts (snd r) !! cartId c = Some e /\ entry_cart e = c).
  { intros r [Hs Hret]. split; [exact Hs|]. intros c Hc. apply Hret.
    destruct (fst r); [injection Hc as ->; reflexivity | discriminate..]. }
  destruct op; cbn [exec].
  - apply Hcart, (createCart_call_ok ttl self Hw), Hok.
  - apply Hcart, (getCart_call_ok ttl self Hw), Hok.
  - apply Hcart, (addItem_call_ok ttl self tk id w Hw Hok).
  - apply Hcart, (removeItem_call_ok ttl self tk id w Hw Hok).
  - apply Hcart, (updateItemQuantity_call_ok ttl self tk id w Hw Hok).
  - apply Hcart, (clearCart_call_ok ttl self tk id w Hw Hok).
  - pose proof (deleteCart_sessions_ok ttl self Hw id w Hok) as Hdel.
    destruct (CartService.deleteCart self id w) as [[u|err|] w']; cbn in *;
      (split; [exact Hdel | discriminate]).
Qed.

Lemma sweep_sessions_ok (ttl : Z) (now : string -> Z) (self : CartService.t)
    (w : World) :
  sessions_ok self w ->
  sessions_ok self (snd (Store.cleanupExpiredCarts ttl now w)).
Proof.
  intros Hok. cbn. apply (sessions_ok_restrict self w); [exact Hok| |reflexivity..].
  intros id e. rewrite lookup_fold_delete.
  destruct (decide (id ∈ Store.expiredCartIds ttl now w)); [discriminate | auto].
Qed.

Lemma sweep_world_ok (ttl : Z) (now : string -> Z) (w : World) :
  world_ok w -> world_ok (snd (Store.cleanupExpiredCarts ttl now w)).
Proof.
  intros [Hheap Hrefs]. split; [exact Hheap|]. cbn.
  intros id e. rewrite lookup_fold_delete.
  destruct (decide (id ∈ Store.expiredCartIds ttl now w)); [discriminate|].
  intros He. apply (Hrefs id e He).
Qed.

Lemma system_reachable_ok (ttl : Z) (self : CartService.t) (w : World) :
  wired ttl self -> system_reachable ttl self w -> sessions_ok self w /\ world_ok w.
Proof.
  intros Hw. induction 1 as [|op w _ [IHs IHw]].
  - split; [apply initial_sessions_ok | apply initial_ok].
  - destruct op as [op|now]; cbn [run_system].
    + split; [apply (exec_sessions_ok ttl self op w Hw IHs)
             | apply (exec_ok ttl self Hw op w IHw)].
    + split; [apply sweep_sessions_ok, IHs | apply sweep_world_ok, IHw].
Qed.

(** X19: In every world the running system reaches, by calls of the engine and
    runs of the periodic sweep in any order, every stored cart is filed
    under its own id, its expiration anchor is its [createdAt], its
    [expiresAt] is [createdAt] plus the TTL of the service, and its
    subtotal, tax and total are the ones the pricing strategy computes from
    the lines the cart has now; those lines are for distinct products and
    each has the [totalPrice] derived from its unit price and quantity.  No
    two stored carts share their array of items or an item object. *)
Theorem system_keeps_sessions_coherent (ttl : Z) (self : CartService.t) (w : World) :
  wired ttl self ->
  system_reachable ttl self w ->
  (forall id e, carts w !! id = Some e ->
     let c := entry_cart e in
     cartId c = id
     /\ entry_createdAt e = createdAt c
     /\ expiresAt c = createdAt c + ttlMinutes self * 60 * 1000
     /\ exists its, items_of (heap w) c = Some its
                    /\ priced_from its c
                    /\ NoDup (pid <$> its)
                    /\ Forall price_derived its)
  /\ separate w.
Proof.
  intros Hw Hreach.
  destruct (system_reachable_ok ttl self w Hw Hreach) as [[Hent Hsep] Hwok].
  split; [|exact Hsep].
  intros id e He c. destruct (Hent id e He) as (H1 & H2 & H3 & its & Hits & Hpr).
  split; [exact H1|]. split; [exact H2|]. split; [exact H3|].
  destruct (world_ok_items w c Hwok (proj2 Hwok id e He)) as (its' & Hits' & Hnd & Hder).
  exists its. split; [exact Hits|]. split; [exact Hpr|].
  assert (its' = its) by (unfold c in Hits'; congruence). subst its'.
  split; [exact Hnd | exact Hder].
Qed.

Lemma system_keeps_sessions_coherent_witness :
  exists its,
    items_of (heap one_line_world)
      (mkCart sample_id 0%nat 75%float 6.75%float 81.75%float 0 1002 300000 None)
    = Some its
    /\ priced_from its
         (mkCart sample_id 0%nat 75%float 6.75%float 81.75%float 0 1002 300000 None).
Proof.
  assert (Hreach : system_reachable 5 defaultService one_line_world).
  { exact (system_step 5 defaultService
             (Call (AddItem sample_ticks "item-1" sample_id
                      (mkAddItemRequest plan 1%float))) _
             (system_step 5 defaultService (Call (CreateCart 0 sample_id None)) _
                (system_initial 5 defaultService))). }
  assert (Hstored :
            carts one_line_world !! sample_id
            = Some (mkCartEntry
                      (mkCart sample_id 0%nat 75%float 6.75%float 81.75%float
                         0 1002 300000 None) 0))
    by (vm_compute; reflexivity).
  destruct (system_keeps_sessions_coherent 5 defaultService one_line_world
              ltac:(split; reflexivity) Hreach) as [Hcarts _].
  destruct (Hcarts sample_id _ Hstored) as (_ & _ & _ & its & Hits & Hpr & _).
  exists its. split; [exact Hits | exact Hpr].
Defined.

(** X20: From a world the system reaches, what a call of the engine hands back
    can be trusted.  A cart any call returns is the cart the store holds
    afterwards under that id, priced from the lines it shows and carrying
    [expiresAt = createdAt + TTL].  When service and store were given the
    same TTL, as the composition root does, a Get returns the stored cart
    exactly while the clock has not passed the [expiresAt] the cart shows,
    and never serves a cart later than that. *)
Theorem served_carts_are_stored_and_honest (ttl : Z) (self : CartService.t) (w : World) :
  wired ttl self ->
  system_reachable ttl self w ->
  (forall op c,
     fst (exec self op w) = Returned (Some c) ->
     let w' := snd (exec self op w) in
     (exists e, carts w' !! cartId c = Some e /\ entry_cart e = c)
     /\ expiresAt c = createdAt c + ttlMinutes self * 60 * 1000
     /\ exists its, items_of (heap w') c = Some its /\ priced_from its c)
  /\ (ttlMinutes self = ttl ->
      forall now id e,
        regex_test uuidRegex id = true ->
        carts w !! id = Some e ->
        (now <= expiresAt (entry_cart e) ->
         CartService.getCart self now id w = (Returned (entry_cart e), w))
        /\ (forall c, fst (CartService.getCart self now id w) = Returned c ->
                      c = entry_cart e /\ now <= expiresAt c)).
Proof.
  intros Hw Hreach.
  destruct (system_reachable_ok ttl self w Hw Hreach) as [Hok _]. split.
  - intros op c Hc w'.
    destruct (exec_sessions_ok ttl self op w Hw Hok) as [[Hent' _] Hret].
    destruct (Hret c Hc) as (e & He & <-). fold w' in He, Hent'.
    destruct (Hent' _ e He) as (_ & _ & H3 & its & Hits & Hpr).
    split; [eauto|]. split; [exact H3|]. eauto.
  - intros Httl now id e Hid He.
    destruct Hok as [Hent _]. destruct (Hent id e He) as (_ & H2 & H3 & _).
    assert (Hdl : expiresAt (entry_cart e) = entry_createdAt e + ttl * 60 * 1000)
      by (rewrite H3, H2, Httl; reflexivity).
    rewrite (service_getCart_valid _ _ _ _ _ Hw Hid). split.
    + intros Hnow. rewrite (store_getCart_live _ _ _ _ _ He); [reflexivity|].
      apply isExpired_not_after. lia.
    + intros c. destruct (isExpired ttl now e) eqn:Hx.
      * rewrite (store_getCart_expired _ _ _ _ _ He Hx). discriminate.
      * rewrite (store_getCart_live _ _ _ _ _ He Hx). cbn. intros [= <-].
        split; [reflexivity|]. apply isExpired_not_after in Hx. lia.
Qed.

Lemma served_carts_are_stored_and_honest_witness :
  CartService.getCart defaultService 300000 sample_id one_line_world
  = (Returned (mkCart sample_id 0%nat 75%float 6.75%float 81.75%float 0 1002 300000 None),
     one_line_world).
Proof.
  assert (Hreach : system_reachable 5 defaultService one_line_world).
  { exact (system_step 5 defaultService
             (Call (AddItem sample_ticks "item-1" sample_id
                      (mkAddItemRequest plan 1%float))) _
             (system_step 5 defaultService (Call (CreateCart 0 sample_id None)) _
                (system_initial 5 defaultService))). }
  assert (Hstored :
            carts one_line_world !! sample_id
            = Some (mkCartEntry
                      (mkCart sample_id 0%nat 75%float 6.75%float 81.75%float
                         0 1002 300000 None) 0))
    by (vm_compute; reflexivity).
  destruct (served_carts_are_stored_and_honest 5 defaultService one_line_world
              ltac:(split; reflexivity) Hreach) as [_ Hget].
  destruct (Hget eq_refl 300000 sample_id _ eq_refl Hstored) as [Hlive _].
  apply Hlive. cbn. lia.
Defined.

(** ** Item objects keep what they were created with *)

Lemma same_line_refl (it : CartItem) : same_line it it.
Proof. repeat split. Qed.

Lemma lines_kept_refl (h : Heap) : lines_kept h h.
Proof. intros l it Hl. exists it. split; [exact Hl | apply same_line_refl]. Qed.

Lemma lines_kept_trans (h1 h2 h3 : Heap) :
  lines_kept h1 h2 -> lines_kept h2 h3 -> lines_kept h1 h3.
Proof.
  intros H12 H23 l it Hl.
  destruct (H12 l it Hl) as (it2 & Hl2 & A1 & A2 & A3 & A4).
  destruct (H23 l it2 Hl2) as (it3 & Hl3 & B1 & B2 & B3 & B4).
  exists it3. split; [exact Hl3|]. repeat split; congruence.
Qed.

Lemma keeps_lines_same_heap {A : Type} (m : M A) :
  (forall w, heap (snd (m w)) = heap w) -> keeps_lines m.
Proof. intros Hsame w. rewrite Hsame. apply lines_kept_refl. Qed.

Lemma keeps_lines_bind {A B : Type} (m : M A) (k : A -> M B) :
  keeps_lines m -> (forall a, keeps_lines (k a)) -> keeps_lines (bind m k).
Proof.
  intros Hm Hk w. unfold bind. specialize (Hm w).
  destruct (m w) as [[a|err|] w1]; cbn in *; [|exact Hm..].
  eapply lines_kept_trans; [exact Hm | apply Hk].
Qed.

Lemma keeps_lines_ret {A : Type} (a : A) : keeps_lines (ret a).
Proof. apply keeps_lines_same_heap. reflexivity. Qed.

Lemma keeps_lines_throw {A : Type} (err : DomainError) : keeps_lines (@throw A err).
Proof. apply keeps_lines_same_heap. reflexivity. Qed.

Lemma keeps_lines_fault {A : Type} : keeps_lines (fun w => (@Fault A, w)).
Proof. apply keeps_lines_same_heap. reflexivity. Qed.

Lemma keeps_lines_array_new (xs : list loc) : keeps_lines (array_new xs).
Proof. intros w l0 it Hl. exists it. split; [exact Hl | apply same_line_refl]. Qed.

Lemma keeps_lines_array_read (a : loc) : keeps_lines (array_read a).
Proof.
  apply keeps_lines_same_heap. intros w. unfold array_read.
  destruct (arrays (heap w) !! a); reflexivity.
Qed.

Lemma keeps_lines_array_write (a : loc) (xs : list loc) : keeps_lines (array_write a xs).
Proof.
  intros w. unfold array_write. destruct (arrays (heap w) !! a); cbn;
    [|apply lines_kept_refl].
  intros l0 it Hl. exists it. split; [exact Hl | apply same_line_refl].
Qed.

Lemma keeps_lines_items_read (c : Cart) : keeps_lines (items_read c).
Proof.
  apply keeps_lines_same_heap. intros w. unfold items_read.
  destruct (items_of (heap w) c); reflexivity.
Qed.

Lemma keeps_lines_item_new (it : CartItem) : keeps_lines (item_new it).
Proof.
  intros w l0 it0 Hl. exists it0. split; [|apply same_line_refl].
  cbn. apply lookup_app_l_Some, Hl.
Qed.

(** Reading an item object and then doing something that depends on what
    was read. *)
Lemma keeps_lines_item_read (l : loc) {B : Type} (k : CartItem -> M B) :
  (forall item w, cells (heap w) !! l = Some item ->
                  lines_kept (heap w) (heap (snd (k item w)))) ->
  keeps_lines (bind (item_read l) k).
Proof.
  intros Hk w. unfold bind, item_read.
  destruct (cells (heap w) !! l) as [item|] eqn:Hl; [|apply lines_kept_refl].
  apply (Hk item w Hl).
Qed.

Lemma lines_kept_item_write (l : loc) (item it' : CartItem) (w : World) :
  cells (heap w) !! l = Some item -> same_line item it' ->
  lines_kept (heap w) (heap (snd (item_write l it' w))).
Proof.
  intros Hl Hsame. unfold item_write. rewrite Hl. intros l0 it0 Hl0.
  cbn [snd heap cells]. destruct (decide (l0 = l)) as [->|Hne].
  - exists it'. split.
    + apply list_lookup_insert_eq. eapply lookup_lt_Some. exact Hl.
    + rewrite Hl in Hl0. injection Hl0 as <-. exact Hsame.
  - exists it0. split; [|apply same_line_refl].
    rewrite list_lookup_insert_ne by congruence. exact Hl0.
Qed.

Lemma keeps_lines_store_getCart (ttl now : Z) (id : string) :
  keeps_lines (Store.getCart ttl now id).
Proof.
  apply keeps_lines_same_heap. intros w. run_store. cbn.
  destruct (carts w !! id) as [e|]; [|reflexivity].
  destruct (isExpired ttl now e); reflexivity.
Qed.

Lemma keeps_lines_store_updateCart (ttl now : Z) (c : Cart) :
  keeps_lines (Store.updateCart ttl now c).
Proof.
  apply keeps_lines_same_heap. intros w. run_store. cbn.
  destruct (carts w !! cartId c) as [e|]; [|reflexivity].
  destruct (isExpired ttl now e); reflexivity.
Qed.

Lemma keeps_lines_validateCartId (id : string) : keeps_lines (validateCartId id).
Proof.
  unfold validateCartId. destruct (regex_test uuidRegex id);
    [apply keeps_lines_ret | apply keeps_lines_throw].
Qed.

Lemma keeps_lines_validateQuantity (self : CartService.t) (q : float) :
  keeps_lines (validateQuantity self q).
Proof.
  apply keeps_lines_same_heap. intros w.
  destruct (validateQuantity_verdict self q w) as [[_ ->] | [r ->]]; reflexivity.
Qed.

Lemma keeps_lines_validateProduct (p : Product) : keeps_lines (validateProduct p).
Proof.
  apply keeps_lines_same_heap. intros w.
  destruct (validateProduct_verdict p w) as [-> | [r ->]]; reflexivity.
Qed.

Section LinesKept.

Variables (ttl : Z) (self : CartService.t).
Hypothesis Hw : wired ttl self.

Lemma keeps_lines_service_getCart (now : Z) (id : string) :
  keeps_lines (CartService.getCart self now id).
Proof.
  unfold CartService.getCart. rewrite (wired_getCart ttl self Hw).
  apply keeps_lines_bind; [apply keeps_lines_validateCartId | intros _].
  apply keeps_lines_bind; [apply keeps_lines_store_getCart | intros [c|]].
  - apply keeps_lines_ret.
  - apply keeps_lines_throw.
Qed.

Lemma keeps_lines_settle (tk : Ticks) (c : Cart) : keeps_lines (settle self tk c).
Proof.
  rewrite (wired_updateCart ttl self Hw), (wired_calculatePricing ttl self Hw).
  apply keeps_lines_bind; [|intros ?; apply keeps_lines_store_updateCart].
  unfold calculatePricing.
  apply keeps_lines_bind; [apply keeps_lines_items_read | intros ?; apply keeps_lines_ret].
Qed.

Lemma keeps_lines_createCart (now : Z) (newCartId : string) (meta : option CartMetadata) :
  keeps_lines (CartService.createCart self now newCartId meta).
Proof.
  unfold CartService.createCart. rewrite (wired_createCart ttl self Hw).
  apply keeps_lines_bind; [apply keeps_lines_array_new | intros ?].
  apply keeps_lines_same_heap. reflexivity.
Qed.

Lemma keeps_lines_deleteCart (id : string) : keeps_lines (CartService.deleteCart self id).
Proof.
  unfold CartService.deleteCart. rewrite (wired_deleteCart ttl self Hw).
  apply keeps_lines_bind; [apply keeps_lines_validateCartId | intros _].
  apply keeps_lines_same_heap. reflexivity.
Qed.

Lemma keeps_lines_clearCart (tk : Ticks) (id : string) :
  keeps_lines (clearCart self tk id).
Proof.
  unfold clearCart.
  apply keeps_lines_bind; [apply keeps_lines_validateCartId | intros _].
  apply keeps_lines_bind; [apply keeps_lines_service_getCart | intros cart].
  apply keeps_lines_bind; [apply keeps_lines_array_new | intros arr].
  apply keeps_lines_settle.
Qed.

Lemma keeps_lines_removeItem (tk : Ticks) (id targetItemId : string) :
  keeps_lines (removeItem self tk id targetItemId).
Proof.
  unfold removeItem.
  apply keeps_lines_bind; [apply keeps_lines_validateCartId | intros _].
  apply keeps_lines_bind; [apply keeps_lines_service_getCart | intros cart].
  apply keeps_lines_bind; [apply keeps_lines_array_read | intros arr].
  apply keeps_lines_bind; [apply keeps_lines_items_read | intros its].
  apply keeps_lines_bind; [|intros _; apply keeps_lines_settle].
  destruct (findIndex _ its); [apply keeps_lines_array_write | apply keeps_lines_throw].
Qed.

Lemma keeps_lines_updateItemQuantity (tk : Ticks) (id targetItemId : string) (q : float) :
  keeps_lines (updateItemQuantity self tk id targetItemId q).
Proof.
  unfold updateItemQuantity.
  apply keeps_lines_bind; [apply keeps_lines_validateCartId | intros _].
  apply keeps_lines_bind; [apply keeps_lines_validateQuantity | intros _].
  apply keeps_lines_bind; [apply keeps_lines_service_getCart | intros cart].
  apply keeps_lines_bind; [apply keeps_lines_array_read | intros arr].
  apply keeps_lines_bind; [apply keeps_lines_items_read | intros its].
  apply keeps_lines_bind; [|intros _; apply keeps_lines_settle].
  destruct (findIndex _ its) as [idx|]; [|apply keeps_lines_throw].
  destruct (arr !! idx) as [l|]; [|apply keeps_lines_fault].
  apply keeps_lines_item_read. intros item w Hl.
  apply (lines_kept_item_write l item _ w Hl). repeat split.
Qed.

Lemma keeps_lines_addItem (tk : Ticks) (newItemId id : string) (request : AddItemRequest) :
  keeps_lines (addItem self tk newItemId id request).
Proof.
  unfold addItem.
  apply keeps_lines_bind; [apply keeps_lines_validateCartId | intros _].
  apply keeps_lines_bind; [apply keeps_lines_validateQuantity | intros _].
  apply keeps_lines_bind; [apply keeps_lines_validateProduct | intros _].
  apply keeps_lines_bind; [apply keeps_lines_service_getCart | intros cart].
  apply keeps_lines_bind; [apply keeps_lines_array_read | intros arr].
  apply keeps_lines_bind; [apply keeps_lines_items_read | intros its].
  apply keeps_lines_bind; [|intros _; apply keeps_lines_settle].
  destruct (findIndex _ its) as [idx|].
  - destruct (arr !! idx) as [l|]; [|apply keeps_lines_fault].
    apply keeps_lines_item_read. intros item w Hl.
    destruct (maxQty self <? quantity item + request_quantity request)%float.
    + apply lines_kept_refl.
    + apply (lines_kept_item_write l item _ w Hl). repeat split.
  - apply keeps_lines_bind; [apply keeps_lines_item_new | intros l].
    apply keeps_lines_array_write.
Qed.

Lemma run_system_keeps_lines (op : SystemOp) (w : World) :
  lines_kept (heap w) (heap (run_system ttl self op w)).
Proof.
  destruct op as [[now nid meta | now id | tk nid id request | tk id target
                  | tk id target q | tk id | id] | now]; cbn [run_system exec snd].
  - apply keeps_lines_createCart.
  - apply keeps_lines_service_getCart.
  - apply keeps_lines_addItem.
  - apply keeps_lines_removeItem.
  - apply keeps_lines_updateItemQuantity.
  - apply keeps_lines_clearCart.
  - pose proof (keeps_lines_deleteCart id w) as H.
    destruct (CartService.deleteCart self id w) as [[u|err|] w']; exact H.
  - apply lines_kept_refl.
Qed.

Lemma run_systems_keeps_lines (ops : list SystemOp) :
  forall w, lines_kept (heap w) (heap (run_systems ttl self ops w)).
Proof.
  induction ops as [|op ops IH]; intros w; cbn; [apply lines_kept_refl|].
  eapply lines_kept_trans; [apply run_system_keeps_lines | apply IH].
Qed.

End LinesKept.

(** X21: Over any run of the system, an item object that exists stays where it
    is and keeps its item id, its product, its unit price and its
    [addedAt]: calls rewrite the quantity and the [totalPrice] of an object
    and nothing else, and no object is ever dropped from the heap.  The
    unit price of a line is thus the price its product had in the request
    that created the line, whatever later requests carry. *)
Theorem item_objects_keep_their_snapshot (ttl : Z) (self : CartService.t)
    (ops : list SystemOp) (w : World) (l : loc) (it : CartItem) :
  wired ttl self ->
  cells (heap w) !! l = Some it ->
  exists it',
    cells (heap (run_systems ttl self ops w)) !! l = Some it'
    /\ itemId it' = itemId it /\ product it' = product it
    /\ unitPrice it' = unitPrice it /\ addedAt it' = addedAt it.
Proof.
  intros Hw Hl. apply (run_systems_keeps_lines ttl self Hw ops w l it Hl).
Qed.

Lemma item_objects_keep_their_snapshot_witness :
  exists it',
    cells (heap (run_systems 5 defaultService
                   [Call (AddItem sample_ticks "item-2" sample_id
                            (mkAddItemRequest
                               (mkProduct "prod-001" "5G Unlimited Plan" None 10%float
                                  "plan") 2%float));
                    Sweep (fun _ => 2000);
                    Call (UpdateItemQuantity sample_ticks sample_id "item-1" 7%float)]
                   one_line_world)) !! 0%nat = Some it'
    /\ itemId it' = "item-1"%string /\ product it' = plan
    /\ unitPrice it' = 75%float /\ addedAt it' = 1001.
Proof.
  apply (item_objects_keep_their_snapshot 5 defaultService _ one_line_world 0%nat
           (mkCartItem "item-1" plan 1%float 75%float 75%float 1001)).
  - split; reflexivity.
  - vm_compute. reflexivity.
Defined.

(** ** How calls compose *)

Lemma sum_totalPrice_from (its : list CartItem) :
  forall acc,
    fold_left (fun sum item => (sum + totalPrice item)%float) its acc
    = fold_left (fun sum x => (sum + x)%float) (totalPrice <$> its) acc.
Proof.
  induction its as [|it its IH]; intros acc; cbn; [reflexivity|]. apply IH.
Qed.

(** X22: Adding a product the cart has no line for and then removing the item
    just added, the session staying live throughout, gives back the lines
    the cart had, in their order, under the same identity and anchor; when
    the stored cart was priced from its lines, subtotal, tax and total are
    again what they were.  The item id of the new line must not be the id
    of an older line: [removeItem] removes the first line with the id. *)
Theorem add_then_remove_restores_the_lines (ttl : Z) (self : CartService.t)
    (tk1 tk2 : Ticks) (newItemId id : string) (request : AddItemRequest) (w : World)
    (e : CartEntry) (its : list CartItem) :
  wired ttl self ->
  regex_test uuidRegex id = true ->
  quantity_rejected self (request_quantity request) = false ->
  validateProduct (request_product request) w = (Returned tt, w) ->
  session_at w id e its ->
  t_read tk1 <= deadline ttl e -> t_write tk1 <= deadline ttl e ->
  t_read tk2 <= deadline ttl e -> t_write tk2 <= deadline ttl e ->
  Forall (fun it => pid it <> productId (request_product request)) its ->
  Forall (fun it => itemId it <> newItemId) its ->
  exists c1 w1 c2 w2,
    addItem self tk1 newItemId id request w = (Returned c1, w1)
    /\ removeItem self tk2 id newItemId w1 = (Returned c2, w2)
    /\ items_of (heap w2) c2 = Some its
    /\ priced_from its c2
    /\ same_session c2 (entry_cart e)
    /\ carts w2 = <[id := mkCartEntry c2 (entry_createdAt e)]> (carts w)
    /\ (priced_from its (entry_cart e) ->
        subtotal c2 = subtotal (entry_cart e) /\ tax c2 = tax (entry_cart e)
        /\ total c2 = total (entry_cart e)).
Proof.
  intros Hw Hid Hq Hp Hsess Hr1 Hw1 Hr2 Hw2 Hnone Hfresh.
  destruct (addItem_push_settled ttl self tk1 newItemId id request w e its
              Hw Hid Hq Hp Hsess Hr1 Hw1 Hnone)
    as (c1 & w1 & Hrun1 & Hits1 & _ & (S1 & S2 & S3 & S4) & _ & Hcarts1).
  destruct Hsess as (He & Hkey & _).
  set (e1 := mkCartEntry c1 (entry_createdAt e)).
  assert (Hsess1 : session_at w1 id e1 (its ++ [mkCartItem newItemId
                     (request_product request) (request_quantity request)
                     (price (request_product request))
                     (round2 (price (request_product request) * request_quantity request))
                     (t_added tk1)] ++ [])).
  { split; [|split].
    - rewrite Hcarts1. apply lookup_insert_eq.
    - cbn. congruence.
    - rewrite app_nil_r. exact Hits1. }
  destruct (removeItem_settled ttl self tk2 id newItemId w1 e1 its [] _
              Hw Hid Hsess1 Hr2 Hw2 Hfresh eq_refl)
    as (c2 & w2 & Hrun2 & (Hits2 & Hpr2 & (T1 & T2 & T3 & T4) & _ & Hcarts2) & _).
  rewrite app_nil_r in Hits2, Hpr2.
  exists c1, w1, c2, w2. split; [exact Hrun1|]. split; [exact Hrun2|].
  split; [exact Hits2|]. split; [exact Hpr2|]. split; [|split].
  - cbn in T1, T2, T3, T4. repeat split; congruence.
  - rewrite Hcarts2, Hcarts1. cbn. apply insert_insert_eq.
  - intros (P1 & P2 & P3). destruct Hpr2 as (Q1 & Q2 & Q3).
    cbv zeta in P1, P2, P3, Q1, Q2, Q3. repeat split; congruence.
Qed.

Lemma add_then_remove_restores_the_lines_witness :
  exists c1 w1 c2 w2,
    addItem defaultService sample_ticks "item-2" sample_id
      (mkAddItemRequest phone 2%float) one_line_world = (Returned c1, w1)
    /\ removeItem defaultService sample_ticks sample_id "item-2" w1 = (Returned c2, w2)
    /\ items_of (heap w2) c2 = Some [mkCartItem "item-1" plan 1%float 75%float 75%float 1001]
    /\ total c2 = 81.75%float.
Proof.
  destruct (add_then_remove_restores_the_lines 5 defaultService sample_ticks sample_ticks
              "item-2" sample_id (mkAddItemRequest phone 2%float) one_line_world
              (mkCartEntry
                 (mkCart sample_id 0%nat 75%float 6.75%float 81.75%float 0 1002 300000 None)
                 0)
              [mkCartItem "item-1" plan 1%float 75%float 75%float 1001])
    as (c1 & w1 & c2 & w2 & Hrun1 & Hrun2 & Hits & _ & _ & _ & Hsame).
  - split; reflexivity.
  - reflexivity.
  - reflexivity.
  - reflexivity.
  - split; [|split]; vm_compute; reflexivity.
  - vm_compute. discriminate.
  - vm_compute. discriminate.
  - vm_compute. discriminate.
  - vm_compute. discriminate.
  - repeat constructor. vm_compute. discriminate.
  - repeat constructor. vm_compute. discriminate.
  - exists c1, w1, c2, w2. split; [exact Hrun1|]. split; [exact Hrun2|].
    split; [exact Hits|].
    destruct Hsame as (_ & _ & Htot); [repeat split; vm_compute; reflexivity|].
    exact Htot.
Defined.

(** X23: The pricing strategy reads the [totalPrice] of the lines, in their
    order, and nothing else of them: two carts whose lines carry the same
    sequence of [totalPrice] get the same subtotal, tax and total, whatever
    quantities, unit prices and stale amounts they hold.  Pricing a cart
    that was just priced gives the same amounts again, and the same cart
    when the clock reading is the same. *)
Theorem pricing_reads_totalPrice_only (now1 now2 : Z) (c1 c2 : Cart) (w1 w2 : World)
    (its1 its2 : list CartItem) :
  items_of (heap w1) c1 = Some its1 ->
  items_of (heap w2) c2 = Some its2 ->
  totalPrice <$> its1 = totalPrice <$> its2 ->
  exists p1 p2,
    calculatePricing now1 c1 w1 = (Returned p1, w1)
    /\ calculatePricing now2 c2 w2 = (Returned p2, w2)
    /\ subtotal p1 = subtotal p2 /\ tax p1 = tax p2 /\ total p1 = total p2
    /\ calculatePricing now1 p1 w1 = (Returned p1, w1).
Proof.
  intros H1 H2 Hsame.
  assert (Hsum : sum_totalPrice its1 = sum_totalPrice its2).
  { unfold sum_totalPrice. rewrite !sum_totalPrice_from, Hsame. reflexivity. }
  unfold calculatePricing, bind, items_read. rewrite H1, H2. unfold ret.
  eexists. eexists. split; [reflexivity|]. split; [reflexivity|]. cbn.
  rewrite Hsum. do 3 (split; [reflexivity|]).
  unfold items_of. cbn. unfold items_of in H2. rewrite <- Hsum.
  unfold items_of in H1. rewrite H1. reflexivity.
Qed.

Lemma pricing_reads_totalPrice_only_witness :
  let other :=
    mkWorld ∅
      (mkHeap [[0%nat]] [mkCartItem "item-9" plan 3%float 25%float 1.005%float 1001]) in
  exists p1 p2,
    calculatePricing 7 odd_cart odd_world = (Returned p1, odd_world)
    /\ calculatePricing 9 odd_cart other = (Returned p2, other)
    /\ subtotal p1 = subtotal p2.
Proof.
  intros other.
  destruct (pricing_reads_totalPrice_only 7 9 odd_cart odd_cart odd_world other
              [odd_item] [mkCartItem "item-9" plan 3%float 25%float 1.005%float 1001]
              eq_refl eq_refl eq_refl)
    as (p1 & p2 & Hp1 & Hp2 & Hs & _).
  exists p1, p2. split; [exact Hp1|]. split; [exact Hp2 | exact Hs].
Defined.

(** ** The singleton and the sweep timer *)

(** X24: [getInstance] creates the client once: while the static field holds an
    object, a call returns that object and changes nothing, whatever TTL it
    is given, so the TTL of the first call stays in force.  The object it
    creates has the TTL asked for (5 when none is given), an empty map and a
    scheduled sweep timer.  [resetInstance] stops that timer and forgets the
    object without altering it; the next [getInstance] creates another
    object, with its own TTL, map and timer.  [destroy] stops the timer of
    an object and clears its handle; destroying again changes nothing. *)
Theorem singleton_is_created_once (t1 t2 : option Z) (rt : Lifecycle.Runtime) :
  Lifecycle.instance rt = None ->
  let r1 := fst (Lifecycle.getInstance t1 rt) in
  let rt1 := snd (Lifecycle.getInstance t1 rt) in
  let rt2 := Lifecycle.resetInstance rt1 in
  let r3 := fst (Lifecycle.getInstance t2 rt2) in
  let rt3 := snd (Lifecycle.getInstance t2 rt2) in
  let h1 := length (Lifecycle.timers rt) in
  Lifecycle.objects rt1 !! r1 = Some (Lifecycle.mkInstance (default 5 t1) ∅ (Some h1))
  /\ Lifecycle.timers rt1 !! h1 = Some true
  /\ Lifecycle.getInstance t2 rt1 = (r1, rt1)
  /\ Lifecycle.instance rt2 = None
  /\ Lifecycle.objects rt2 = Lifecycle.objects rt1
  /\ Lifecycle.timers rt2 !! h1 = Some false
  /\ r3 <> r1
  /\ Lifecycle.objects rt3 !! r3
     = Some (Lifecycle.mkInstance (default 5 t2) ∅ (Some (S h1)))
  /\ Lifecycle.objects rt3 !! r1 = Lifecycle.objects rt1 !! r1
  /\ Lifecycle.timers rt3 !! S h1 = Some true
  /\ Lifecycle.timers rt3 !! h1 = Some false
  /\ (let rt4 := Lifecycle.destroy r3 rt3 in
      Lifecycle.objects rt4 !! r3 = Some (Lifecycle.mkInstance (default 5 t2) ∅ None)
      /\ Lifecycle.timers rt4 !! S h1 = Some false
      /\ Lifecycle.destroy r3 rt4 = rt4).
Proof.
  intros Hnone r1 rt1 rt2 r3 rt3 h1.
  destruct rt as [objs inst tms]. cbn in Hnone. subst inst.
  set (o1 := Lifecycle.mkInstance (default 5 t1) ∅ (Some (length tms))).
  set (o3 := Lifecycle.mkInstance (default 5 t2) ∅ (Some (S (length tms)))).
  assert (Hrt1 : rt1 = Lifecycle.mkRuntime (objs ++ [o1]) (Some (length objs))
                         (tms ++ [true])) by reflexivity.
  assert (Hr1 : r1 = length objs) by reflexivity.
  assert (Hh1 : h1 = length tms) by reflexivity.
  clearbody rt1 r1 h1. subst rt1 r1 h1.
  assert (Hrt2 : rt2 = Lifecycle.mkRuntime (objs ++ [o1]) None
                         (<[length tms := false]> (tms ++ [true]))).
  { unfold rt2, Lifecycle.resetInstance. cbn [Lifecycle.instance Lifecycle.objects].
    rewrite list_lookup_middle by reflexivity. reflexivity. }
  clearbody rt2. subst rt2.
  assert (Hlen : length (<[length tms := false]> (tms ++ [true])) = S (length tms))
    by (rewrite length_insert, length_app; cbn; lia).
  assert (Hlen' : length (objs ++ [o1]) = S (length objs))
    by (rewrite length_app; cbn; lia).
  assert (Hrt3 : rt3 = Lifecycle.mkRuntime ((objs ++ [o1]) ++ [o3])
                         (Some (S (length objs)))
                         (<[length tms := false]> (tms ++ [true]) ++ [true])).
  { unfold rt3, Lifecycle.getInstance, Lifecycle.constructor, Lifecycle.setInterval.
    cbn. rewrite Hlen, Hlen'. reflexivity. }
  assert (Hr3 : r3 = S (length objs)).
  { unfold r3, Lifecycle.getInstance, Lifecycle.constructor, Lifecycle.setInterval.
    cbn. exact Hlen'. }
  clearbody rt3 r3. subst rt3 r3. cbn [Lifecycle.objects Lifecycle.timers Lifecycle.instance].
  assert (Hobj3 : ((objs ++ [o1]) ++ [o3]) !! S (length objs) = Some o3)
    by (apply list_lookup_middle; rewrite Hlen'; reflexivity).
  assert (Htm3 : (<[length tms := false]> (tms ++ [true]) ++ [true]) !! S (length tms)
                 = Some true)
    by (apply list_lookup_middle; rewrite Hlen; reflexivity).
  assert (Hoff : <[length tms := false]> (tms ++ [true]) !! length tms = Some false)
    by (apply list_lookup_insert_eq; rewrite length_app; cbn; lia).
  split; [apply list_lookup_middle; reflexivity|].
  split; [apply list_lookup_middle; reflexivity|].
  split; [reflexivity|]. split; [reflexivity|]. split; [reflexivity|].
  split; [exact Hoff|]. split; [lia|]. split; [exact Hobj3|].
  split; [apply lookup_app_l; rewrite Hlen'; lia|].
  split; [exact Htm3|]. split; [apply lookup_app_l_Some, Hoff|].
  cbv zeta.
  match goal with
  | |- context [Lifecycle.destroy ?r ?x] => set (rt4 := Lifecycle.destroy r x)
  end.
  assert (Hrt4 : rt4 = Lifecycle.mkRuntime
                         (<[S (length objs) := Lifecycle.mkInstance (default 5 t2) ∅ None]>
                            ((objs ++ [o1]) ++ [o3]))
                         (Some (S (length objs)))
                         (<[S (length tms) := false]>
                            (<[length tms := false]> (tms ++ [true]) ++ [true]))).
  { unfold rt4, Lifecycle.destroy. cbn [Lifecycle.objects]. rewrite Hobj3. reflexivity. }
  clearbody rt4. subst rt4. cbn [Lifecycle.objects Lifecycle.timers].
  assert (Hobj4 : <[S (length objs) := Lifecycle.mkInstance (default 5 t2) ∅ None]>
                    ((objs ++ [o1]) ++ [o3]) !! S (length objs)
                  = Some (Lifecycle.mkInstance (default 5 t2) ∅ None))
    by (apply list_lookup_insert_eq; eapply lookup_lt_Some; exact Hobj3).
  split; [exact Hobj4|]. split.
  - apply list_lookup_insert_eq. eapply lookup_lt_Some. exact Htm3.
  - unfold Lifecycle.destroy. cbn [Lifecycle.objects]. rewrite Hobj4. reflexivity.
Qed.

Lemma singleton_is_created_once_witness :
  let rt0 := Lifecycle.mkRuntime [] None [] in
  Lifecycle.getInstance (Some 1) (snd (Lifecycle.getInstance (Some 30) rt0))
  = Lifecycle.getInstance (Some 30) rt0
  /\ Lifecycle.inst_ttlMinutes
       <$> Lifecycle.objects (snd (Lifecycle.getInstance (Some 30) rt0)) !! 0%nat
     = Some 30.
Proof.
  intros rt0.
  destruct (singleton_is_created_once (Some 30) (Some 1) rt0 eq_refl)
    as (Hobj & _ & Hsame & _).
  split.
  - rewrite Hsame. reflexivity.
  - change (fst (Lifecycle.getInstance (Some 30) rt0)) with 0%nat in Hobj.
    rewrite Hobj. reflexivity.
Defined.

(** ** The sweep and the error a caller sees *)

(** X25: For a session past its deadline the error of a call depends on whether
    the sweep ran before it.  Without a sweep the first read throws
    [CartExpiredError], status 410; after a sweep at a time past the
    deadline the entry is gone and the same read throws
    [ResourceNotFoundError], status 404.  Either way no entry for the id is
    left, and the heap is untouched. *)
Theorem sweep_turns_expired_into_not_found (ttl : Z) (self : CartService.t)
    (swept_at : string -> Z) (now : Z) (id : string) (e : CartEntry) (w : World) :
  wired ttl self ->
  regex_test uuidRegex id = true ->
  carts w !! id = Some e ->
  deadline ttl e < swept_at id ->
  deadline ttl e < now ->
  let swept := snd (Store.cleanupExpiredCarts ttl swept_at w) in
  (exists w1,
     CartService.getCart self now id w = (Thrown (CartExpiredError id), w1)
     /\ statusCode (CartExpiredError id) = 410
     /\ carts w1 !! id = None /\ heap w1 = heap w)
  /\ CartService.getCart self now id swept
     = (Thrown (ResourceNotFoundError "Cart" id), swept)
  /\ statusCode (ResourceNotFoundError "Cart" id) = 404
  /\ carts swept !! id = None /\ heap swept = heap w.
Proof.
  intros Hw Hid He Hswept Hnow swept.
  assert (Hgone : carts swept !! id = None).
  { unfold swept. cbn. rewrite lookup_fold_delete.
    rewrite decide_True; [reflexivity|].
    apply expiredCartIds_spec. exists e. split; [exact He|]. apply dead_after, Hswept. }
  split; [|split; [|split; [reflexivity|split; [exact Hgone | reflexivity]]]].
  - eexists. rewrite (service_getCart_valid _ _ _ _ _ Hw Hid).
    rewrite (store_getCart_expired _ _ _ _ _ He (dead_after _ _ _ Hnow)).
    split; [reflexivity|]. split; [reflexivity|].
    split; [apply lookup_delete_eq | reflexivity].
  - rewrite (service_getCart_valid _ _ _ _ _ Hw Hid).
    rewrite (store_getCart_absent _ _ _ _ Hgone). reflexivity.
Qed.

Lemma sweep_turns_expired_into_not_found_witness :
  fst (CartService.getCart defaultService 300002 sample_id one_line_world)
  = Thrown (CartExpiredError sample_id)
  /\ fst (CartService.getCart defaultService 300002 sample_id
            (snd (Store.cleanupExpiredCarts 5 (fun _ => 300001) one_line_world)))
     = Thrown (ResourceNotFoundError "Cart" sample_id).
Proof.
  destruct (sweep_turns_expired_into_not_found 5 defaultService (fun _ => 300001) 300002
              sample_id
              (mkCartEntry
                 (mkCart sample_id 0%nat 75%float 6.75%float 81.75%float 0 1002 300000 None)
                 0)
              one_line_world)
    as ((w1 & Hlazy & _) & Hswept & _).
  - split; reflexivity.
  - reflexivity.
  - vm_compute. reflexivity.
  - vm_compute. reflexivity.
  - vm_compute. reflexivity.
  - split; [rewrite Hlazy | rewrite Hswept]; reflexivity.
Defined.
